(** * CKKC expedition management: the cave-survey submission pipeline

    A shallow embedding of the survey code of [app.py]:
    - [shot_to_cartesian] (the geometry reducer),
    - [survey_submit] (form extraction, header checks, the shot loop with its
      per-shot validation, the dual write to the flat and normalized tables),
    - [admin_survey_update] (the edit flow).

    Conventions of the embedding.
    - Python [float] values are IEEE binary64 numbers: Rocq's primitive
      floats, compared with [ltb]/[leb] exactly as [<] and [<=] compare in
      Python (every comparison with a NaN is false).
    - Python [str] values are [string]s, each character a code point below
      256: the model covers such text, where [len] counts characters.
    - [request.form] is a multi-dict: the ordered list of (key, value) pairs.
    - A raised exception is a value of [exn]; code that may raise lives in
      the [result] monad.
    - The built-in [float(str)] and the functions of the [math] module are
      not code of the application: they are Section variables; [math.cos]
      and [math.sin] raise [ValueError] on an infinite argument.
    - A name that a handler uses and that neither the handler nor the module
      binds raises [NameError] when it is evaluated.
    - A column written with [json.dumps] holds the value itself; the [int]
      0 that left/right/up/down default to is the float zero. *)

From Stdlib Require Import List String Ascii Bool Arith Lia PrimFloat DecimalString
  DecimalNat.
From Stdlib Require ZArith SpecFloat FloatOps FloatAxioms.
Import ListNotations.
Local Open Scope string_scope.
Local Open Scope list_scope.

(** ** Python primitives *)

Module Py.

(** The exceptions the survey code can meet. *)
Inductive exn : Type :=
| ValueError (msg : string)
| IndexError
| NameError (name : string).

Inductive result (A : Type) : Type :=
| Ok (a : A)
| Raise (e : exn).
Arguments Ok {A} a.
Arguments Raise {A} e.

Definition bind {A B : Type} (m : result A) (k : A -> result B) : result B :=
  match m with
  | Ok a => k a
  | Raise e => Raise e
  end.

(** Evaluating a name that is bound neither in the function nor in the
    module. *)
Definition unbound_name {A : Type} (name : string) : result A :=
  Raise (NameError name).

(** What [float(s)] gives: a number, or [ValueError] with its text. *)
Inductive parsed : Type :=
| Parsed (x : float)
| NotANumber (msg : string).

Definition of_parsed (p : parsed) : result float :=
  match p with
  | Parsed x => Ok x
  | NotANumber msg => Raise (ValueError msg)
  end.

(** [c.isspace()]: TAB, LF, VT, FF, CR, FS, GS, RS, US, space, and the
    next-line and no-break-space characters (code points 133 and 160). *)
Definition isspace (c : ascii) : bool :=
  let n := nat_of_ascii c in
  (((9 <=? n) && (n <=? 13)) || ((28 <=? n) && (n <=? 32))
   || (n =? 133) || (n =? 160))%nat.

Fixpoint lstrip_chars (l : list ascii) : list ascii :=
  match l with
  | [] => []
  | c :: l' => if isspace c then lstrip_chars l' else l
  end.

(** [s.strip()] *)
Definition strip (s : string) : string :=
  string_of_list_ascii
    (rev (lstrip_chars (rev (lstrip_chars (list_ascii_of_string s))))).

(** Truth value of a [str]: false exactly for the empty string. *)
Definition truthy (s : string) : bool :=
  match s with
  | EmptyString => false
  | String _ _ => true
  end.

(** [l[i]] *)
Definition index {A : Type} (l : list A) (i : nat) : result A :=
  match nth_error l i with
  | Some a => Ok a
  | None => Raise IndexError
  end.

(** The computation does not end in [IndexError]. *)
Definition no_index_error {A : Type} (r : result A) : Prop :=
  r <> Raise IndexError.

(** [str(n)] for a non-negative [int]. *)
Definition str_of_nat (n : nat) : string :=
  NilEmpty.string_of_uint (Nat.to_uint n).

(** [min(a, b, c)]: the first of the smallest, by [<]. *)
Definition min3 (a b c : float) : float :=
  let m := if PrimFloat.ltb b a then b else a in
  if PrimFloat.ltb c m then c else m.

(** A multi-dict ([request.form]). *)
Definition MultiDict : Type := list (string * string).

(** [form.getlist(key)] *)
Definition getlist (form : MultiDict) (key : string) : list string :=
  map snd (filter (fun kv => String.eqb (fst kv) key) form).

(** [form.get(key)]: the first value, or [None]. *)
Definition get (form : MultiDict) (key : string) : option string :=
  hd_error (getlist form key).

(** [form.get(key, '')] *)
Definition get_or_empty (form : MultiDict) (key : string) : string :=
  match get form key with
  | Some v => v
  | None => ""
  end.

(** Truth value of [form.get(key)]: present and not empty. *)
Definition checked (form : MultiDict) (key : string) : bool :=
  match get form key with
  | Some v => truthy v
  | None => false
  end.

End Py.

Notation "x <- m ;; k" := (Py.bind m (fun x => k))
(at level 61, m at next level, right associativity).

(** ** Geometry reducer *)

Module Geometry.
Section Reducer.

(** [math.radians], and [math.cos] and [math.sin] where they return: the
    library raises [ValueError] on an infinite argument, with the text
    [domain_error]. *)
Variables radians cos sin : float -> float.
Variable domain_error : string.

Definition is_infinite (x : float) : bool :=
  PrimFloat.eqb (PrimFloat.abs x) PrimFloat.infinity.

(** [math.cos(x)] *)
Definition math_cos (x : float) : Py.result float :=
  if is_infinite x then Py.Raise (Py.ValueError domain_error) else Py.Ok (cos x).

(** [math.sin(x)] *)
Definition math_sin (x : float) : Py.result float :=
  if is_infinite x then Py.Raise (Py.ValueError domain_error) else Py.Ok (sin x).

Definition shot_to_cartesian (distance azimuth_deg inclination_deg : option float)
  : Py.result (float * float * float) :=
  match distance, azimuth_deg, inclination_deg with
  | Some distance, Some azimuth_deg, Some inclination_deg =>
      let inc_rad := radians inclination_deg in
      let az_rad := radians azimuth_deg in
      cos_inc <- math_cos inc_rad ;;
      let horizontal_distance := PrimFloat.mul distance cos_inc in
      sin_az <- math_sin az_rad ;;
      let dx := PrimFloat.mul horizontal_distance sin_az in
      cos_az <- math_cos az_rad ;;
      let dy := PrimFloat.mul horizontal_distance cos_az in
      sin_inc <- math_sin inc_rad ;;
      let dz := PrimFloat.mul distance sin_inc in
      Py.Ok (dx, dy, dz)
  | _, _, _ => Py.Ok (0%float, 0%float, 0%float)
  end.

End Reducer.
End Geometry.

(** ** Data model *)

Module Data.

(** A JSON value, as [json.dumps] receives it; the text serialization itself
    is not modelled: a column written with [json.dumps(v)] holds [v]. *)
#[local] Unset Elimination Schemes.
Inductive json : Type :=
| JNull
| JNumber (x : float)
| JString (s : string)
| JArray (items : list json)
| JObject (fields : list (string * json)).
#[local] Set Elimination Schemes.

(** A value bound to a statement parameter. *)
Inductive sqlval : Type :=
| SqlNull
| SqlFloat (x : float)
| SqlText (s : string).

(** The [shot] dict built by [survey_submit]. *)
Record shot : Type := {
  from_station : string;
  to_station : string;
  distance : option float;
  azimuth_fs : option float;
  azimuth_bs : option float;
  inclination_fs : option float;
  inclination_bs : option float;
  left : float;
  right : float;
  up : float;
  down : float;
  note : string
}.

(** The dict appended by [admin_survey_update]: every value is the raw form
    string, and the note is under the key ['notes']. *)
Record edit_shot : Type := {
  e_from_station : string;
  e_to_station : string;
  e_distance : string;
  e_azimuth_fs : string;
  e_azimuth_bs : string;
  e_inclination_fs : string;
  e_inclination_bs : string;
  e_left : string;
  e_right : string;
  e_up : string;
  e_down : string;
  e_notes : string
}.

Definition json_of_option (x : option float) : json :=
  match x with
  | Some v => JNumber v
  | None => JNull
  end.

Definition json_of_shot (s : shot) : json :=
  JObject [ ("from_station", JString (from_station s));
            ("to_station", JString (to_station s));
            ("distance", json_of_option (distance s));
            ("azimuth_fs", json_of_option (azimuth_fs s));
            ("azimuth_bs", json_of_option (azimuth_bs s));
            ("inclination_fs", json_of_option (inclination_fs s));
            ("inclination_bs", json_of_option (inclination_bs s));
            ("left", JNumber (left s));
            ("right", JNumber (right s));
            ("up", JNumber (up s));
            ("down", JNumber (down s));
            ("note", JString (note s)) ].

Definition json_of_edit_shot (s : edit_shot) : json :=
  JObject [ ("from_station", JString (e_from_station s));
            ("to_station", JString (e_to_station s));
            ("distance", JString (e_distance s));
            ("azimuth_fs", JString (e_azimuth_fs s));
            ("azimuth_bs", JString (e_azimuth_bs s));
            ("inclination_fs", JString (e_inclination_fs s));
            ("inclination_bs", JString (e_inclination_bs s));
            ("left", JString (e_left s));
            ("right", JString (e_right s));
            ("up", JString (e_up s));
            ("down", JString (e_down s));
            ("notes", JString (e_notes s)) ].

(** The per-shot rules of [survey_submit], one per [validation_errors.append]. *)
Inductive shot_rule : Type :=
| NegativeDistance
| FrontsightAzimuthRange
| BacksightAzimuthRange
| FrontsightInclinationRange
| BacksightInclinationRange
| NegativeLRUD
| FromStationTooLong
| ToStationTooLong.

(** The messages handed to [flash]. *)
Inductive message : Type :=
| CaveNameRequired
| SurveyDateRequired
| DataAccuracyRequired
| BookSketchRequired
| InstrumentReaderRequired
| TapePersonRequired
| PointPersonRequired
| TripLeaderRequired
| CompassIdRequired
| InclinometerIdRequired
| CrfCompassCourseRequired
| CompassFrontsightRange
| CompassFrontsightInvalid
| CompassBacksightRange
| CompassBacksightInvalid
| InclinometerFrontsightRange
| InclinometerFrontsightInvalid
| InclinometerBacksightRange
| InclinometerBacksightInvalid
| ShotViolation (shot_id : nat) (rule : shot_rule)
| ShotInvalidNumeric (shot_id : nat) (e : string)
| MoreValidationErrors (n : nat)
| ShotRequired
| SubmittedSuccessfully (cave_name : string) (count : nat)
| InvalidDataFormat (e : string)
| SubmissionFailed (e : string)
| CaveNameAndDateRequired
| UpdatedSuccessfully
| UpdateError (e : string).

Definition shot_rule_text (r : shot_rule) : string :=
  match r with
  | NegativeDistance => "Distance cannot be negative"
  | FrontsightAzimuthRange => "Frontsight azimuth must be 0-359°"
  | BacksightAzimuthRange => "Backsight azimuth must be 0-359°"
  | FrontsightInclinationRange => "Frontsight inclination must be -90° to 90°"
  | BacksightInclinationRange => "Backsight inclination must be -90° to 90°"
  | NegativeLRUD => "LRUD values cannot be negative"
  | FromStationTooLong => "From station name too long (max 20 characters)"
  | ToStationTooLong => "To station name too long (max 20 characters)"
  end.

Definition exn_text (e : Py.exn) : string :=
  match e with
  | Py.ValueError msg => msg
  | Py.IndexError => "list index out of range"
  | Py.NameError name => "name '" ++ name ++ "' is not defined"
  end.

(** The text of each message, as the source writes it. *)
Definition message_text (m : message) : string :=
  match m with
  | CaveNameRequired => "Cave name is required."
  | SurveyDateRequired => "Survey date is required."
  | DataAccuracyRequired => "You must confirm the accuracy of the survey data."
  | BookSketchRequired => "Book/Sketch person is required."
  | InstrumentReaderRequired => "Instrument reader is required."
  | TapePersonRequired => "Tape person is required."
  | PointPersonRequired => "Point person is required."
  | TripLeaderRequired => "Trip/Survey leader is required."
  | CompassIdRequired => "Compass ID is required."
  | InclinometerIdRequired => "Inclinometer ID is required."
  | CrfCompassCourseRequired =>
      "You must confirm that instruments were shot on the CRF Compass Course."
  | CompassFrontsightRange =>
      "Compass frontsight must be > 180° (expected range 181-360°)."
  | CompassFrontsightInvalid => "Invalid compass frontsight value."
  | CompassBacksightRange =>
      "Compass backsight must be < 180° (expected range 0-179°)."
  | CompassBacksightInvalid => "Invalid compass backsight value."
  | InclinometerFrontsightRange =>
      "Inclinometer frontsight must be between -90° and 90°."
  | InclinometerFrontsightInvalid => "Invalid inclinometer frontsight value."
  | InclinometerBacksightRange =>
      "Inclinometer backsight must be between -90° and 90°."
  | InclinometerBacksightInvalid => "Invalid inclinometer backsight value."
  | ShotViolation shot_id rule =>
      "Shot " ++ Py.str_of_nat shot_id ++ ": " ++ shot_rule_text rule
  | ShotInvalidNumeric shot_id e =>
      "Shot " ++ Py.str_of_nat shot_id ++ ": Invalid numeric value - " ++ e
  | MoreValidationErrors n =>
      "... and " ++ Py.str_of_nat n ++ " more validation errors"
  | ShotRequired => "At least one survey shot is required."
  | SubmittedSuccessfully cave_name count =>
      "Survey data for " ++ cave_name ++ " submitted successfully! Recorded "
      ++ Py.str_of_nat count ++ " survey shots."
  | InvalidDataFormat e => "Invalid data format: " ++ e
  | SubmissionFailed e => "Survey submission failed: " ++ e
  | CaveNameAndDateRequired => "Cave name and survey date are required."
  | UpdatedSuccessfully => "Survey updated successfully!"
  | UpdateError e => "Error updating survey: " ++ e
  end.

Inductive category : Type := error | success.

(** Where a handler redirects to ([url_for]). *)
Inductive endpoint : Type :=
| survey_form
| dashboard
| admin_login
| admin_survey_edit (survey_id : nat)
| admin_survey_view (survey_id : nat).

(** What a handler hands back: the messages it flashed, in order, and the
    redirect. *)
Record response : Type := {
  flashed : list (message * category);
  location : endpoint
}.

End Data.

(** ** The survey database *)

Module Store.
Import Data.

(** A row of [survey_header], the flat table ([created_date], set to
    [NOW()], is left out). *)
Record header_row : Type := {
  h_id : nat;
  h_cave_name : string;
  h_state : string;
  h_county : string;
  h_region : string;
  h_survey_date : string;
  h_fsb_number : string;
  h_area_in_cave : string;
  h_time_in : string;
  h_time_out : string;
  h_survey_objective : string;
  h_conditions : string;
  h_other_info : string;
  h_book_sketch_person : string;
  h_instrument_reader : string;
  h_tape_person : string;
  h_point_person : string;
  h_trip_leader : string;
  h_other_team_members : string;
  h_compass_id : string;
  h_compass_frontsight : sqlval;
  h_compass_backsight : sqlval;
  h_inclinometer_id : string;
  h_inclinometer_frontsight : sqlval;
  h_inclinometer_backsight : sqlval;
  h_crf_compass_course : bool;
  h_calibration_notes : string;
  h_additional_equipment : string;
  h_survey_shots_json : json;
  h_raw_data : string;
  h_instruments_crf_course : bool;
  h_data_accuracy : bool
}.

Record cave_row : Type := {
  cave_id : nat;
  cave_name_col : string;
  location_text : string
}.

Record survey_row : Type := {
  survey_id : nat;
  s_cave_id : nat;
  s_date : string;
  s_area_in_cave : string;
  s_objective : string;
  s_time_in : string;
  s_time_out : string;
  s_conditions : string;
  s_survey_designation_raw : string;
  s_units_length : string;
  s_units_compass : string;
  s_units_clino : string
}.

Record shot_row : Type := {
  sh_survey_id : nat;
  sequence_in_page : nat;
  station_from : string;
  station_to : string;
  sh_distance : option float;
  fs_azimuth_deg : option float;
  bs_azimuth_deg : option float;
  fs_incline_deg : option float;
  bs_incline_deg : option float;
  lrud_left : float;
  lrud_right : float;
  lrud_up : float;
  lrud_down : float;
  sh_note : string
}.

Record person_row : Type := {
  person_id : nat;
  full_name : string
}.

Record team_row : Type := {
  t_survey_id : nat;
  t_person_id : nat;
  display_name : string;
  role : string
}.

(** The six tables the survey code reads and writes: the flat schema
    ([survey_header]) and the normalized one. *)
Record database : Type := {
  survey_header : list header_row;
  caves : list cave_row;
  surveys : list survey_row;
  shots : list shot_row;
  people : list person_row;
  survey_team : list team_row
}.

Definition empty : database :=
  {| survey_header := []; caves := []; surveys := []; shots := [];
     people := []; survey_team := [] |}.

(** Modelled from the spec: the persistence layer is not defined in the
    source files ([get_cave_survey_db_connection], the connection and the
    cursor it hands out). The spec treats it as an external collaborator
    that stores rows: an INSERT adds one row under a key no row of the table
    has ([cursor.lastrowid] is that key), a SELECT with [fetchone] gives the
    first row that satisfies its WHERE clause, an UPDATE rewrites the rows
    that satisfy it; [commit] and [return_connection] leave the rows as they
    are, and rows written before an exception are not committed. *)
Definition fresh_id (ids : list nat) : nat := S (list_max ids).

(** Modelled from the spec: [init_cave_survey_db] is not defined in the
    source files; preparing the survey database writes no row. *)
Definition init_cave_survey_db (db : database) : database := db.

Definition with_survey_header (db : database) (t : list header_row) : database :=
  {| survey_header := t; caves := caves db; surveys := surveys db;
     shots := shots db; people := people db; survey_team := survey_team db |}.

Definition with_caves (db : database) (t : list cave_row) : database :=
  {| survey_header := survey_header db; caves := t; surveys := surveys db;
     shots := shots db; people := people db; survey_team := survey_team db |}.

Definition with_surveys (db : database) (t : list survey_row) : database :=
  {| survey_header := survey_header db; caves := caves db; surveys := t;
     shots := shots db; people := people db; survey_team := survey_team db |}.

Definition with_shots (db : database) (t : list shot_row) : database :=
  {| survey_header := survey_header db; caves := caves db; surveys := surveys db;
     shots := t; people := people db; survey_team := survey_team db |}.

Definition with_people (db : database) (t : list person_row) : database :=
  {| survey_header := survey_header db; caves := caves db; surveys := surveys db;
     shots := shots db; people := t; survey_team := survey_team db |}.

Definition with_survey_team (db : database) (t : list team_row) : database :=
  {| survey_header := survey_header db; caves := caves db; surveys := surveys db;
     shots := shots db; people := people db; survey_team := t |}.

(** [SELECT cave_id FROM caves WHERE name = %s AND location_text = %s] *)
Definition select_cave (db : database) (name location : string) : option cave_row :=
  find (fun c => String.eqb (cave_name_col c) name
                 && String.eqb (location_text c) location) (caves db).

(** [INSERT INTO caves (name, location_text)], with [cursor.lastrowid]. *)
Definition insert_cave (db : database) (name location : string) : database * nat :=
  let id := fresh_id (map cave_id (caves db)) in
  (with_caves db (caves db ++ [ {| cave_id := id; cave_name_col := name;
                                   location_text := location |} ]), id).

(** [SELECT person_id FROM people WHERE full_name = %s] *)
Definition select_person (db : database) (name : string) : option person_row :=
  find (fun p => String.eqb (full_name p) name) (people db).

(** [INSERT INTO people (full_name)], with [cursor.lastrowid]. *)
Definition insert_person (db : database) (name : string) : database * nat :=
  let id := fresh_id (map person_id (people db)) in
  (with_people db (people db ++ [ {| person_id := id; full_name := name |} ]), id).

(** [INSERT INTO survey_team (survey_id, person_id, display_name, role)] *)
Definition insert_team (db : database) (row : team_row) : database :=
  with_survey_team db (survey_team db ++ [row]).

(** [INSERT INTO shots (...)] *)
Definition insert_shot (db : database) (row : shot_row) : database :=
  with_shots db (shots db ++ [row]).

(** [INSERT INTO surveys (...)], with [cursor.lastrowid]; the row is given
    without its key. *)
Definition insert_survey (db : database) (mk : nat -> survey_row) : database * nat :=
  let id := fresh_id (map survey_id (surveys db)) in
  (with_surveys db (surveys db ++ [mk id]), id).

(** [INSERT INTO survey_header (...)], with [cursor.lastrowid]. *)
Definition insert_header (db : database) (mk : nat -> header_row) : database * nat :=
  let id := fresh_id (map h_id (survey_header db)) in
  (with_survey_header db (survey_header db ++ [mk id]), id).

(** [UPDATE survey_header SET ... WHERE id = %s] *)
Definition update_header (db : database) (id : nat) (set : header_row -> header_row)
  : database :=
  with_survey_header db
    (map (fun r => if Nat.eqb (h_id r) id then set r else r) (survey_header db)).

End Store.

(** ** The submission pipeline ([survey_submit]) *)

Module Survey.
Import Data Store.

(** The scalar form fields, as both handlers extract them. *)
Record survey_fields : Type := {
  cave_name : string;
  state : string;
  county : string;
  region : string;
  survey_date : string;
  fsb_number : string;
  area_in_cave : string;
  time_in : string;
  time_out : string;
  survey_objective : string;
  conditions : string;
  other_info : string;
  book_sketch_person : string;
  instrument_reader : string;
  tape_person : string;
  point_person : string;
  trip_leader : string;
  other_team_members : string;
  compass_id : string;
  compass_frontsight : option string;
  compass_backsight : option string;
  inclinometer_id : string;
  inclinometer_frontsight : option string;
  inclinometer_backsight : option string;
  crf_compass_course : bool;
  calibration_notes : string;
  additional_equipment : string;
  raw_data : string;
  instruments_crf_course : bool;
  data_accuracy : bool
}.

(** [request.form.get(key, '').strip()] *)
Definition stripped (form : Py.MultiDict) (key : string) : string :=
  Py.strip (Py.get_or_empty form key).

Definition extract_fields (form : Py.MultiDict) : survey_fields :=
  {| cave_name := stripped form "cave_name";
     state := stripped form "state";
     county := stripped form "county";
     region := stripped form "region";
     survey_date := stripped form "survey_date";
     fsb_number := stripped form "fsb_number";
     area_in_cave := stripped form "area_in_cave";
     time_in := stripped form "time_in";
     time_out := stripped form "time_out";
     survey_objective := stripped form "survey_objective";
     conditions := stripped form "conditions";
     other_info := stripped form "other_info";
     book_sketch_person := stripped form "book_sketch_person";
     instrument_reader := stripped form "instrument_reader";
     tape_person := stripped form "tape_person";
     point_person := stripped form "point_person";
     trip_leader := stripped form "trip_leader";
     other_team_members := stripped form "other_team_members";
     compass_id := stripped form "compass_id";
     compass_frontsight := Py.get form "compass_frontsight";
     compass_backsight := Py.get form "compass_backsight";
     inclinometer_id := stripped form "inclinometer_id";
     inclinometer_frontsight := Py.get form "inclinometer_frontsight";
     inclinometer_backsight := Py.get form "inclinometer_backsight";
     crf_compass_course := Py.checked form "crf_compass_course";
     calibration_notes := stripped form "calibration_notes";
     additional_equipment := stripped form "additional_equipment";
     raw_data := stripped form "raw_data";
     instruments_crf_course := Py.checked form "instruments_crf_course";
     data_accuracy := Py.checked form "data_accuracy" |}.

(** The per-field arrays ([request.form.getlist]). *)
Record shot_columns : Type := {
  from_stations : list string;
  to_stations : list string;
  distances : list string;
  azimuth_fs_list : list string;
  azimuth_bs_list : list string;
  inclination_fs_list : list string;
  inclination_bs_list : list string;
  left_list : list string;
  right_list : list string;
  up_list : list string;
  down_list : list string;
  notes_list : list string
}.

Definition extract_columns (form : Py.MultiDict) : shot_columns :=
  {| from_stations := Py.getlist form "from_station[]";
     to_stations := Py.getlist form "to_station[]";
     distances := Py.getlist form "distance[]";
     azimuth_fs_list := Py.getlist form "azimuth_fs[]";
     azimuth_bs_list := Py.getlist form "azimuth_bs[]";
     inclination_fs_list := Py.getlist form "inclination_fs[]";
     inclination_bs_list := Py.getlist form "inclination_bs[]";
     left_list := Py.getlist form "left[]";
     right_list := Py.getlist form "right[]";
     up_list := Py.getlist form "up[]";
     down_list := Py.getlist form "down[]";
     notes_list := Py.getlist form "notes[]" |}.

(** *** Per-shot validation *)

(** [x is not None and bad(x)] *)
Definition present_and (x : option float) (bad : float -> bool) : bool :=
  match x with
  | Some v => bad v
  | None => false
  end.

Definition azimuth_out_of_range (a : float) : bool :=
  PrimFloat.ltb a 0 || PrimFloat.leb 360 a.

Definition inclination_out_of_range (a : float) : bool :=
  PrimFloat.ltb a (-90) || PrimFloat.ltb 90 a.

Definition when (b : bool) (m : message) : list message :=
  if b then [m] else [].

(** When the shot loop appends the message of a rule: the test it makes,
    comparison by comparison as Python evaluates them. Every comparison
    with a NaN is false, so a NaN passes each of them. *)
Definition rule_fires (r : shot_rule) (s : shot) : Prop :=
  match r with
  | NegativeDistance =>
      exists d, distance s = Some d /\ PrimFloat.ltb d 0 = true
  | FrontsightAzimuthRange =>
      exists a, azimuth_fs s = Some a
                /\ (PrimFloat.ltb a 0 = true \/ PrimFloat.leb 360 a = true)
  | BacksightAzimuthRange =>
      exists a, azimuth_bs s = Some a
                /\ (PrimFloat.ltb a 0 = true \/ PrimFloat.leb 360 a = true)
  | FrontsightInclinationRange =>
      exists a, inclination_fs s = Some a
                /\ (PrimFloat.ltb a (-90) = true \/ PrimFloat.ltb 90 a = true)
  | BacksightInclinationRange =>
      exists a, inclination_bs s = Some a
                /\ (PrimFloat.ltb a (-90) = true \/ PrimFloat.ltb 90 a = true)
  | NegativeLRUD =>
      PrimFloat.ltb (left s) 0 = true \/ PrimFloat.ltb (right s) 0 = true
      \/ PrimFloat.ltb (up s) 0 = true \/ PrimFloat.ltb (down s) 0 = true
  | FromStationTooLong => 20 < String.length (from_station s)
  | ToStationTooLong => 20 < String.length (to_station s)
  end.

(** The range and length checks, in the order of the source. *)
Definition range_violations (shot_id : nat) (s : shot) : list message :=
  when (present_and (distance s) (fun d => PrimFloat.ltb d 0))
       (ShotViolation shot_id NegativeDistance)
  ++ when (present_and (azimuth_fs s) azimuth_out_of_range)
       (ShotViolation shot_id FrontsightAzimuthRange)
  ++ when (present_and (azimuth_bs s) azimuth_out_of_range)
       (ShotViolation shot_id BacksightAzimuthRange)
  ++ when (present_and (inclination_fs s) inclination_out_of_range)
       (ShotViolation shot_id FrontsightInclinationRange)
  ++ when (present_and (inclination_bs s) inclination_out_of_range)
       (ShotViolation shot_id BacksightInclinationRange)
  ++ when (PrimFloat.ltb (left s) 0 || PrimFloat.ltb (right s) 0
           || PrimFloat.ltb (up s) 0 || PrimFloat.ltb (down s) 0)
       (ShotViolation shot_id NegativeLRUD)
  ++ when (20 <? String.length (from_station s))%nat
       (ShotViolation shot_id FromStationTooLong)
  ++ when (20 <? String.length (to_station s))%nat
       (ShotViolation shot_id ToStationTooLong).

(** [min(abs(diff - 180), abs(diff - 180 + 360), abs(diff - 180 - 360))]
    with [diff = abs(azimuth_fs - azimuth_bs)]. *)
Definition azimuth_variance (azimuth_fs azimuth_bs : float) : float :=
  let diff := PrimFloat.abs (PrimFloat.sub azimuth_fs azimuth_bs) in
  Py.min3 (PrimFloat.abs (PrimFloat.sub diff 180))
          (PrimFloat.abs (PrimFloat.add (PrimFloat.sub diff 180) 360))
          (PrimFloat.abs (PrimFloat.sub (PrimFloat.sub diff 180) 360)).

(** [abs(inclination_fs + inclination_bs)] *)
Definition incline_variance (inclination_fs inclination_bs : float) : float :=
  PrimFloat.abs (PrimFloat.add inclination_fs inclination_bs).

(** The locals [azimuth_variance] and [incline_variance] of the handler:
    unbound ([None]) until a row assigns them, then the last value. *)
Record variance_locals : Type := {
  azimuth_variance_local : option float;
  incline_variance_local : option float
}.

Definition unbound_locals : variance_locals :=
  {| azimuth_variance_local := None; incline_variance_local := None |}.

(** The two variance blocks of one row: each binds its local when both of
    its readings are there and compares it with 5.0; the branch is [pass]
    (the append is commented out). Gives the locals after the blocks and
    what the blocks append. *)
Definition variance_blocks (shot_id : nat) (s : shot) (locals : variance_locals)
  : variance_locals * list message :=
  let (azimuth_local, azimuth_warnings) :=
    match azimuth_fs s, azimuth_bs s with
    | Some fs, Some bs =>
        let v := azimuth_variance fs bs in
        (Some v, if PrimFloat.ltb 5 v then [] else [])
    | _, _ => (azimuth_variance_local locals, [])
    end in
  let (incline_local, incline_warnings) :=
    match inclination_fs s, inclination_bs s with
    | Some fs, Some bs =>
        let v := incline_variance fs bs in
        (Some v, if PrimFloat.ltb 5 v then [] else [])
    | _, _ => (incline_variance_local locals, [])
    end in
  ({| azimuth_variance_local := azimuth_local;
      incline_variance_local := incline_local |},
   azimuth_warnings ++ incline_warnings).

(** The validation of one parsed row: the range and length checks, then
    the variance blocks. Gives the locals after the row and everything the
    row appends to [validation_errors]. *)
Definition validate_shot (shot_id : nat) (s : shot) (locals : variance_locals)
  : variance_locals * list message :=
  let blocks := variance_blocks shot_id s locals in
  (fst blocks, range_violations shot_id s ++ snd blocks).

(** The per-shot validator: what the validation of a shot appends. *)
Definition shot_violations (shot_id : nat) (s : shot) : list message :=
  snd (validate_shot shot_id s unbound_locals).

Section Pipeline.

(** The built-in [float] on a [str]. *)
Variable py_float : string -> Py.parsed.

(** *** Header checks *)

(** One calibration reading: skipped when absent or blank; a range message
    when [bad] holds of its value; the "Invalid" message on [ValueError]. *)
Definition check_reading (raw : option string) (bad : float -> bool)
    (range_msg invalid_msg : message) : option message :=
  match raw with
  | Some s =>
      if Py.truthy s && Py.truthy (Py.strip s) then
        match py_float s with
        | Py.Parsed v => if bad v then Some range_msg else None
        | Py.NotANumber _ => Some invalid_msg
        end
      else None
  | None => None
  end.

Definition or_else (a b : option message) : option message :=
  match a with
  | Some m => Some m
  | None => b
  end.

(** The header checks of [survey_submit]: each one flashes its message and
    returns; the result is the message of the first check that fails. *)
Definition first_header_violation (f : survey_fields) : option message :=
  if negb (Py.truthy (cave_name f)) then Some CaveNameRequired
  else if negb (Py.truthy (survey_date f)) then Some SurveyDateRequired
  else if negb (data_accuracy f) then Some DataAccuracyRequired
  else if negb (Py.truthy (book_sketch_person f)) then Some BookSketchRequired
  else if negb (Py.truthy (instrument_reader f)) then Some InstrumentReaderRequired
  else if negb (Py.truthy (tape_person f)) then Some TapePersonRequired
  else if negb (Py.truthy (point_person f)) then Some PointPersonRequired
  else if negb (Py.truthy (trip_leader f)) then Some TripLeaderRequired
  else if negb (Py.truthy (compass_id f)) then Some CompassIdRequired
  else if negb (Py.truthy (inclinometer_id f)) then Some InclinometerIdRequired
  else if negb (crf_compass_course f) then Some CrfCompassCourseRequired
  else
    or_else (check_reading (compass_frontsight f)
               (fun v => PrimFloat.leb v 180 || PrimFloat.ltb 360 v)
               CompassFrontsightRange CompassFrontsightInvalid)
   (or_else (check_reading (compass_backsight f)
               (fun v => PrimFloat.ltb v 0 || PrimFloat.leb 180 v)
               CompassBacksightRange CompassBacksightInvalid)
   (or_else (check_reading (inclinometer_frontsight f)
               inclination_out_of_range
               InclinometerFrontsightRange InclinometerFrontsightInvalid)
            (check_reading (inclinometer_backsight f)
               inclination_out_of_range
               InclinometerBacksightRange InclinometerBacksightInvalid))).

(** *** The shot loop *)

(** [float(l[i]) if i < len(l) and l[i].strip() else None] *)
Definition optional_float (l : list string) (i : nat) : Py.result (option float) :=
  if (i <? List.length l)%nat then
    s <- Py.index l i ;;
    if Py.truthy (Py.strip s) then
      x <- Py.of_parsed (py_float s) ;; Py.Ok (Some x)
    else Py.Ok None
  else Py.Ok None.

(** [float(l[i]) if i < len(l) and l[i].strip() else 0] *)
Definition lrud_float (l : list string) (i : nat) : Py.result float :=
  if (i <? List.length l)%nat then
    s <- Py.index l i ;;
    if Py.truthy (Py.strip s) then Py.of_parsed (py_float s)
    else Py.Ok 0%float
  else Py.Ok 0%float.

(** [l[i].strip() if i < len(l) else ''] *)
Definition note_field (l : list string) (i : nat) : Py.result string :=
  if (i <? List.length l)%nat then
    s <- Py.index l i ;; Py.Ok (Py.strip s)
  else Py.Ok "".

(** [i < len(to_stations) and from_stations[i].strip() and to_stations[i].strip()] *)
Definition keep_row (c : shot_columns) (i : nat) : Py.result bool :=
  if (i <? List.length (to_stations c))%nat then
    f <- Py.index (from_stations c) i ;;
    if Py.truthy (Py.strip f) then
      t <- Py.index (to_stations c) i ;; Py.Ok (Py.truthy (Py.strip t))
    else Py.Ok false
  else Py.Ok false.

(** The values one row gives, read in the order of the source. *)
Definition parse_row (c : shot_columns) (i : nat) : Py.result shot :=
  distance <- optional_float (distances c) i ;;
  azimuth_fs <- optional_float (azimuth_fs_list c) i ;;
  azimuth_bs <- optional_float (azimuth_bs_list c) i ;;
  inclination_fs <- optional_float (inclination_fs_list c) i ;;
  inclination_bs <- optional_float (inclination_bs_list c) i ;;
  left <- lrud_float (left_list c) i ;;
  right <- lrud_float (right_list c) i ;;
  up <- lrud_float (up_list c) i ;;
  down <- lrud_float (down_list c) i ;;
  note <- note_field (notes_list c) i ;;
  from_station <- Py.index (from_stations c) i ;;
  to_station <- Py.index (to_stations c) i ;;
  Py.Ok {| from_station := Py.strip from_station;
           to_station := Py.strip to_station;
           distance := distance;
           azimuth_fs := azimuth_fs;
           azimuth_bs := azimuth_bs;
           inclination_fs := inclination_fs;
           inclination_bs := inclination_bs;
           left := left; right := right; up := up; down := down;
           note := note |}.

(** The three accumulators of the loop, and the variance locals. *)
Record loop_state : Type := {
  survey_shots : list shot;
  valid_shot_count : nat;
  validation_errors : list message;
  locals : variance_locals
}.

Definition loop_start : loop_state :=
  {| survey_shots := []; valid_shot_count := 0; validation_errors := [];
     locals := unbound_locals |}.

(** One iteration of [for i in range(len(from_stations))]: the [try] block
    catches [ValueError] only. *)
Definition process_row (c : shot_columns) (st : loop_state) (i : nat)
  : Py.result loop_state :=
  keep <- keep_row c i ;;
  if keep then
    match parse_row c i with
    | Py.Ok shot =>
        let checked := validate_shot (i + 1) shot (locals st) in
        Py.Ok {| survey_shots := survey_shots st ++ [shot];
                 valid_shot_count := S (valid_shot_count st);
                 validation_errors := validation_errors st ++ snd checked;
                 locals := fst checked |}
    | Py.Raise (Py.ValueError e) =>
        Py.Ok {| survey_shots := survey_shots st;
                 valid_shot_count := valid_shot_count st;
                 validation_errors :=
                   validation_errors st ++ [ShotInvalidNumeric (i + 1) e];
                 locals := locals st |}
    | Py.Raise e => Py.Raise e
    end
  else Py.Ok st.

Fixpoint process_rows (c : shot_columns) (indices : list nat) (st : loop_state)
  : Py.result loop_state :=
  match indices with
  | [] => Py.Ok st
  | i :: rest => st' <- process_row c st i ;; process_rows c rest st'
  end.

Definition process_shots (c : shot_columns) : Py.result loop_state :=
  process_rows c (seq 0 (List.length (from_stations c))) loop_start.

(** What is flashed for a non-empty [validation_errors]. *)
Definition report_errors (errors : list message) : list (message * category) :=
  map (fun m => (m, error)) (firstn 5 errors)
  ++ (if (5 <? List.length errors)%nat
      then [(MoreValidationErrors (List.length errors - 5), error)]
      else []).

(** *** The dual write *)

(** [float(raw) if raw and raw.strip() else None] *)
Definition reading_value (raw : option string) : Py.result sqlval :=
  match raw with
  | Some s =>
      if Py.truthy s && Py.truthy (Py.strip s) then
        x <- Py.of_parsed (py_float s) ;; Py.Ok (SqlFloat x)
      else Py.Ok SqlNull
  | None => Py.Ok SqlNull
  end.

(** [f"{county}, {state}" if county and state else (state or '')] *)
Definition cave_location (f : survey_fields) : string :=
  if Py.truthy (county f) && Py.truthy (state f)
  then county f ++ ", " ++ state f
  else if Py.truthy (state f) then state f else "".

(** Get or create the cave. *)
Definition resolve_cave (db : database) (name location : string) : database * nat :=
  match select_cave db name location with
  | Some cave_row => (db, cave_id cave_row)
  | None => insert_cave db name location
  end.

(** [for i, shot in enumerate(survey_shots)]: one [shots] row each, with
    [sequence_in_page = i + 1]. *)
Fixpoint insert_shots (db : database) (professional_survey_id i : nat)
    (l : list shot) : database :=
  match l with
  | [] => db
  | shot :: rest =>
      insert_shots
        (insert_shot db
           {| sh_survey_id := professional_survey_id;
              sequence_in_page := i + 1;
              station_from := from_station shot;
              station_to := to_station shot;
              sh_distance := distance shot;
              fs_azimuth_deg := azimuth_fs shot;
              bs_azimuth_deg := azimuth_bs shot;
              fs_incline_deg := inclination_fs shot;
              bs_incline_deg := inclination_bs shot;
              lrud_left := left shot;
              lrud_right := right shot;
              lrud_up := up shot;
              lrud_down := down shot;
              sh_note := note shot |})
        professional_survey_id (S i) rest
  end.

Definition team_roles (f : survey_fields) : list (string * string) :=
  [ ("sketch_book", book_sketch_person f);
    ("foresight", instrument_reader f);
    ("backsight", tape_person f);
    ("other", point_person f) ].

(** Get or create the person. *)
Definition resolve_person (db : database) (person_name : string) : database * nat :=
  match select_person db person_name with
  | Some person_row => (db, person_id person_row)
  | None => insert_person db person_name
  end.

(** The body of [for role, person_name in team_roles]. *)
Definition add_team_member (professional_survey_id : nat) (db : database)
    (entry : string * string) : database :=
  let (role, person_name) := entry in
  if Py.truthy person_name then
    let (db1, person_id) := resolve_person db person_name in
    insert_team db1 {| t_survey_id := professional_survey_id;
                       t_person_id := person_id;
                       display_name := person_name;
                       role := role |}
  else db.

Definition header_of_submission (f : survey_fields) (fs bs ifs ibs : sqlval)
    (survey_shots : list shot) (id : nat) : header_row :=
  {| h_id := id;
     h_cave_name := cave_name f;
     h_state := state f;
     h_county := county f;
     h_region := region f;
     h_survey_date := survey_date f;
     h_fsb_number := fsb_number f;
     h_area_in_cave := area_in_cave f;
     h_time_in := time_in f;
     h_time_out := time_out f;
     h_survey_objective := survey_objective f;
     h_conditions := conditions f;
     h_other_info := other_info f;
     h_book_sketch_person := book_sketch_person f;
     h_instrument_reader := instrument_reader f;
     h_tape_person := tape_person f;
     h_point_person := point_person f;
     h_trip_leader := trip_leader f;
     h_other_team_members := other_team_members f;
     h_compass_id := compass_id f;
     h_compass_frontsight := fs;
     h_compass_backsight := bs;
     h_inclinometer_id := inclinometer_id f;
     h_inclinometer_frontsight := ifs;
     h_inclinometer_backsight := ibs;
     h_crf_compass_course := crf_compass_course f;
     h_calibration_notes := calibration_notes f;
     h_additional_equipment := additional_equipment f;
     h_survey_shots_json := JArray (map json_of_shot survey_shots);
     h_raw_data := raw_data f;
     h_instruments_crf_course := instruments_crf_course f;
     h_data_accuracy := data_accuracy f |}.

Definition survey_of_submission (f : survey_fields) (cave_id id : nat) : survey_row :=
  {| survey_id := id;
     s_cave_id := cave_id;
     s_date := survey_date f;
     s_area_in_cave := area_in_cave f;
     s_objective := survey_objective f;
     s_time_in := time_in f;
     s_time_out := time_out f;
     s_conditions := conditions f;
     s_survey_designation_raw := "Form Entry";
     s_units_length := "feet";
     s_units_compass := "degrees";
     s_units_clino := "degrees" |}.

(** The writes of [survey_submit], from the header INSERT to the team rows. *)
Definition write_rows (f : survey_fields)
    (compass_fs_val compass_bs_val inclinometer_fs_val inclinometer_bs_val : sqlval)
    (survey_shots : list shot) (db : database) : database :=
  let (db1, _) :=
    insert_header db
      (header_of_submission f compass_fs_val compass_bs_val
         inclinometer_fs_val inclinometer_bs_val survey_shots) in
  let (db2, cave_id) := resolve_cave db1 (cave_name f) (cave_location f) in
  let (db3, professional_survey_id) :=
    insert_survey db2 (survey_of_submission f cave_id) in
  let db4 := insert_shots db3 professional_survey_id 0 survey_shots in
  fold_left (add_team_member professional_survey_id) (team_roles f) db4.

(** The part of [survey_submit] after the checks: the calibration readings
    are converted, then the rows are written. *)
Definition persist (f : survey_fields) (survey_shots : list shot) (db : database)
  : Py.result database :=
  compass_fs_val <- reading_value (compass_frontsight f) ;;
  compass_bs_val <- reading_value (compass_backsight f) ;;
  inclinometer_fs_val <- reading_value (inclinometer_frontsight f) ;;
  inclinometer_bs_val <- reading_value (inclinometer_backsight f) ;;
  Py.Ok (write_rows f compass_fs_val compass_bs_val
           inclinometer_fs_val inclinometer_bs_val survey_shots db).

Definition rejected (m : message) : response :=
  {| flashed := [(m, error)]; location := survey_form |}.

(** The [try] block of [survey_submit]. *)
Definition survey_submit_try (form : Py.MultiDict) (db : database)
  : Py.result (response * database) :=
  let db := init_cave_survey_db db in
  let f := extract_fields form in
  let c := extract_columns form in
  match first_header_violation f with
  | Some m => Py.Ok (rejected m, db)
  | None =>
      st <- process_shots c ;;
      match validation_errors st with
      | _ :: _ =>
          Py.Ok ({| flashed := report_errors (validation_errors st);
                    location := survey_form |}, db)
      | [] =>
          if (valid_shot_count st =? 0)%nat then Py.Ok (rejected ShotRequired, db)
          else
            db' <- persist f (survey_shots st) db ;;
            Py.Ok ({| flashed :=
                        [(SubmittedSuccessfully (cave_name f) (valid_shot_count st),
                          success)];
                      location := dashboard |}, db')
      end
  end.

(** [survey_submit]: the two [except] clauses flash and redirect; nothing
    was committed, so the rows are those before the call. *)
Definition survey_submit (form : Py.MultiDict) (db : database) : response * database :=
  match survey_submit_try form db with
  | Py.Ok r => r
  | Py.Raise (Py.ValueError e) => (rejected (InvalidDataFormat e), db)
  | Py.Raise e => (rejected (SubmissionFailed (exn_text e)), db)
  end.

End Pipeline.

(** ** The edit flow ([admin_survey_update]) *)

(** [l[i] if i < len(l) else ''] *)
Definition raw_field (l : list string) (i : nat) : Py.result string :=
  if (i <? List.length l)%nat then Py.index l i else Py.Ok "".

(** One iteration of the loop that builds [survey_shots] in the edit flow. *)
Definition edit_row (c : shot_columns) (acc : list edit_shot) (i : nat)
  : Py.result (list edit_shot) :=
  f <- Py.index (from_stations c) i ;;
  if Py.truthy (Py.strip f) then
    from_station <- Py.index (from_stations c) i ;;
    to_station <- raw_field (to_stations c) i ;;
    distance <- raw_field (distances c) i ;;
    azimuth_fs <- raw_field (azimuth_fs_list c) i ;;
    azimuth_bs <- raw_field (azimuth_bs_list c) i ;;
    inclination_fs <- raw_field (inclination_fs_list c) i ;;
    inclination_bs <- raw_field (inclination_bs_list c) i ;;
    left <- raw_field (left_list c) i ;;
    right <- raw_field (right_list c) i ;;
    up <- raw_field (up_list c) i ;;
    down <- raw_field (down_list c) i ;;
    notes <- raw_field (notes_list c) i ;;
    Py.Ok (acc ++ [ {| e_from_station := from_station;
                       e_to_station := to_station;
                       e_distance := distance;
                       e_azimuth_fs := azimuth_fs;
                       e_azimuth_bs := azimuth_bs;
                       e_inclination_fs := inclination_fs;
                       e_inclination_bs := inclination_bs;
                       e_left := left; e_right := right;
                       e_up := up; e_down := down;
                       e_notes := notes |} ])
  else Py.Ok acc.

Fixpoint edit_rows (c : shot_columns) (indices : list nat) (acc : list edit_shot)
  : Py.result (list edit_shot) :=
  match indices with
  | [] => Py.Ok acc
  | i :: rest => acc' <- edit_row c acc i ;; edit_rows c rest acc'
  end.

Definition build_edit_shots (c : shot_columns) : Py.result (list edit_shot) :=
  edit_rows c (seq 0 (List.length (from_stations c))) [].

Definition sql_of_raw (raw : option string) : sqlval :=
  match raw with
  | Some s => SqlText s
  | None => SqlNull
  end.

(** The SET clause of the UPDATE: every column but [id], [raw_data] and
    [created_date]. *)
Definition header_of_edit (f : survey_fields) (survey_shots : list edit_shot)
    (old : header_row) : header_row :=
  {| h_id := h_id old;
     h_cave_name := cave_name f;
     h_state := state f;
     h_county := county f;
     h_region := region f;
     h_survey_date := survey_date f;
     h_fsb_number := fsb_number f;
     h_area_in_cave := area_in_cave f;
     h_time_in := time_in f;
     h_time_out := time_out f;
     h_survey_objective := survey_objective f;
     h_conditions := conditions f;
     h_other_info := other_info f;
     h_book_sketch_person := book_sketch_person f;
     h_instrument_reader := instrument_reader f;
     h_tape_person := tape_person f;
     h_point_person := point_person f;
     h_trip_leader := trip_leader f;
     h_other_team_members := other_team_members f;
     h_compass_id := compass_id f;
     h_compass_frontsight := sql_of_raw (compass_frontsight f);
     h_compass_backsight := sql_of_raw (compass_backsight f);
     h_inclinometer_id := inclinometer_id f;
     h_inclinometer_frontsight := sql_of_raw (inclinometer_frontsight f);
     h_inclinometer_backsight := sql_of_raw (inclinometer_backsight f);
     h_crf_compass_course := crf_compass_course f;
     h_calibration_notes := calibration_notes f;
     h_additional_equipment := additional_equipment f;
     h_survey_shots_json := JArray (map json_of_edit_shot survey_shots);
     h_raw_data := h_raw_data old;
     h_instruments_crf_course := instruments_crf_course f;
     h_data_accuracy := data_accuracy f |}.

(** The [try] block of [admin_survey_update]. The UPDATE is sent through
    [cursor], a name the handler never binds ([survey_submit] binds its own
    with [conn.cursor()]) and the module does not define: evaluating it
    raises [NameError], and the statements after it are not reached. *)
Definition admin_survey_update_try (survey_id : nat) (form : Py.MultiDict)
    (db : database) : Py.result (response * database) :=
  let f := extract_fields form in
  let c := extract_columns form in
  survey_shots <- build_edit_shots c ;;
  if negb (Py.truthy (cave_name f)) || negb (Py.truthy (survey_date f)) then
    Py.Ok ({| flashed := [(CaveNameAndDateRequired, error)];
              location := admin_survey_edit survey_id |}, db)
  else
    cursor <- Py.unbound_name (A := unit) "cursor" ;;
    Py.Ok ({| flashed := [(UpdatedSuccessfully, success)];
              location := admin_survey_view survey_id |},
           update_header db survey_id (header_of_edit f survey_shots)).

(** [admin_survey_update]; [admin_authenticated] is the session flag. The
    [except Exception] clause flashes the text of the exception and
    redirects to the edit page. *)
Definition admin_survey_update (admin_authenticated : bool) (survey_id : nat)
    (form : Py.MultiDict) (db : database) : response * database :=
  if negb admin_authenticated then
    ({| flashed := []; location := admin_login |}, db)
  else
    match admin_survey_update_try survey_id form db with
    | Py.Ok r => r
    | Py.Raise e =>
        ({| flashed := [(UpdateError (exn_text e), error)];
            location := admin_survey_edit survey_id |}, db)
    end.

End Survey.

(** ** Concrete inputs *)

Module Sample.
Import Data Store Survey.

Definition digit_value (c : ascii) : option float :=
  match c with
  | "0"%char => Some 0%float
  | "1"%char => Some 1%float
  | "2"%char => Some 2%float
  | "3"%char => Some 3%float
  | "4"%char => Some 4%float
  | "5"%char => Some 5%float
  | "6"%char => Some 6%float
  | "7"%char => Some 7%float
  | "8"%char => Some 8%float
  | "9"%char => Some 9%float
  | _ => None
  end.

Fixpoint digits_value (l : list ascii) (acc : float) : option float :=
  match l with
  | [] => Some acc
  | c :: l' =>
      match digit_value c with
      | Some d => digits_value l' (PrimFloat.add (PrimFloat.mul acc 10) d)
      | None => None
      end
  end.

Definition could_not_convert (s : string) : Py.parsed :=
  Py.NotANumber ("could not convert string to float: '" ++ s ++ "'").

(** A stand-in for [float] on the inputs of the examples: it agrees with
    Python on a plain decimal integer of at most 15 digits, with or without a
    minus sign, and on a string with no digit and no letter of a number
    ([float] accepts more: fractions, exponents, surrounding white space). *)
Definition integer_float (s : string) : Py.parsed :=
  match list_ascii_of_string s with
  | [] => could_not_convert s
  | "-"%char :: (_ :: _) as l =>
      if (List.length l <=? 15)%nat then
        match digits_value l 0%float with
        | Some x => Py.Parsed (PrimFloat.opp x)
        | None => could_not_convert s
        end
      else could_not_convert s
  | l =>
      if (List.length l <=? 15)%nat then
        match digits_value l 0%float with
        | Some x => Py.Parsed x
        | None => could_not_convert s
        end
      else could_not_convert s
  end.

(** The header of the end-to-end scenario. *)
Definition scenario_header : Py.MultiDict :=
  [ ("cave_name", "Test Cave"); ("survey_date", "2025-10-11");
    ("book_sketch_person", "A"); ("instrument_reader", "B");
    ("tape_person", "C"); ("point_person", "D"); ("trip_leader", "E");
    ("compass_id", "X1"); ("inclinometer_id", "Y1");
    ("crf_compass_course", "on"); ("data_accuracy", "on") ].

(** The scenario: its header and the shot A1 -> A2, distance 10, frontsight
    azimuth 90, frontsight inclination 0. *)
Definition scenario : Py.MultiDict :=
  scenario_header
  ++ [ ("from_station[]", "A1"); ("to_station[]", "A2"); ("distance[]", "10");
       ("azimuth_fs[]", "90"); ("inclination_fs[]", "0") ].

(** Two rows, the second with a blank [to_station]. *)
Definition two_rows : Py.MultiDict :=
  scenario_header
  ++ [ ("from_station[]", "A1"); ("to_station[]", "A2");
       ("from_station[]", "A2"); ("to_station[]", "") ].

(** The scenario's header with a shot whose frontsight and backsight
    azimuths are both 45 and whose inclinations are both 45. *)
Definition large_variance : Py.MultiDict :=
  scenario_header
  ++ [ ("from_station[]", "A1"); ("to_station[]", "A2"); ("distance[]", "10");
       ("azimuth_fs[]", "45"); ("azimuth_bs[]", "45");
       ("inclination_fs[]", "45"); ("inclination_bs[]", "45") ].

(** The scenario without its [compass_id]. *)
Definition no_compass_id : Py.MultiDict :=
  filter (fun kv => negb (String.eqb (fst kv) "compass_id")) scenario.

(** The scenario's header with six rows, each of distance -1. *)
Definition six_bad_rows : Py.MultiDict :=
  scenario_header
  ++ flat_map (fun n : string => [ ("from_station[]", ("A" ++ n)%string);
                                   ("to_station[]", ("B" ++ n)%string);
                                   ("distance[]", "-1") ])
       ["1"; "2"; "3"; "4"; "5"; "6"].

(** A shot with names only. *)
Definition bare_shot : shot :=
  {| from_station := "A1"; to_station := "A2";
     distance := None; azimuth_fs := None; azimuth_bs := None;
     inclination_fs := None; inclination_bs := None;
     left := 0%float; right := 0%float; up := 0%float; down := 0%float;
     note := "" |}.

(** The scenario with both compass calibration readings. *)
Definition calibrated : Py.MultiDict :=
  scenario ++ [ ("compass_frontsight", "270"); ("compass_backsight", "90") ].

(** Three rows, the second without a to_station. *)
Definition three_rows : Py.MultiDict :=
  scenario_header
  ++ [ ("from_station[]", "A1"); ("to_station[]", "A2");
       ("from_station[]", "A2"); ("to_station[]", "");
       ("from_station[]", "A3"); ("to_station[]", "A4") ].

(** The scenario in Hart county and in Barren county, no state given. *)
Definition in_hart : Py.MultiDict := ("county", "Hart") :: scenario.

Definition in_barren : Py.MultiDict := ("county", "Barren") :: scenario.

(** A shot with every number and a note. *)
Definition full_shot : shot :=
  {| from_station := "A1"; to_station := "A2";
     distance := Some 10%float;
     azimuth_fs := Some 90%float; azimuth_bs := Some 270%float;
     inclination_fs := Some 5%float; inclination_bs := Some (-5)%float;
     left := 1%float; right := 2%float; up := 3%float; down := 4%float;
     note := "tight squeeze" |}.

(** [float] as [integer_float], and ['nan'] read as the NaN, as Python
    reads it. *)
Definition float_with_nan (s : string) : Py.parsed :=
  if String.eqb s "nan" then Py.Parsed PrimFloat.nan else integer_float s.

(** The scenario with ['nan'] as the frontsight azimuth of its shot. *)
Definition nan_azimuth : Py.MultiDict :=
  scenario_header
  ++ [ ("from_station[]", "A1"); ("to_station[]", "A2"); ("distance[]", "10");
       ("azimuth_fs[]", "nan"); ("inclination_fs[]", "0") ].

(** The shot that row gives. *)
Definition nan_shot : shot :=
  {| from_station := "A1"; to_station := "A2";
     distance := Some 10%float;
     azimuth_fs := Some PrimFloat.nan; azimuth_bs := None;
     inclination_fs := Some 0%float; inclination_bs := None;
     left := 0%float; right := 0%float; up := 0%float; down := 0%float;
     note := "" |}.

(** One shot with the given frontsight and backsight azimuths. *)
Definition azimuths (fs bs : string) : Py.MultiDict :=
  scenario_header
  ++ [ ("from_station[]", "A1"); ("to_station[]", "A2"); ("distance[]", "10");
       ("azimuth_fs[]", fs); ("azimuth_bs[]", bs) ].

(** Degrees to radians: [x * (pi / 180)]. *)
Definition to_radians (x : float) : float :=
  PrimFloat.mul x (PrimFloat.div 0x1.921fb54442d18p+1%float 180%float).

(** A registration with a blank name and a blank accommodation. *)
Definition blank_registration : Py.MultiDict :=
  [ ("full_name", "  "); ("email", "a@b"); ("accommodation", " ") ].

End Sample.

(** ** Signing in and out, deleting a survey *)

Module Admin.
Import Data Store Survey.

(** What [admin_login_submit] and [admin_logout] flash. *)
Inductive login_message : Type :=
| Welcome
| InvalidPasscode
| LoggedOut.

Definition login_message_text (m : login_message) : string :=
  match m with
  | Welcome => "Welcome to the admin dashboard!"
  | InvalidPasscode => "Invalid passcode. Please try again."
  | LoggedOut => "You have been logged out."
  end.

Inductive login_endpoint : Type :=
| to_admin_dashboard
| to_admin_login
| to_dashboard.

Record login_response : Type := {
  login_flashed : login_message * category;
  login_location : login_endpoint
}.

(** [admin_login_submit]. [ADMIN_PASSCODE] is read from the environment when
    the module loads; the session is its [admin_authenticated] flag. *)
Definition admin_login_submit (ADMIN_PASSCODE : string) (form : Py.MultiDict)
    (admin_authenticated : bool) : login_response * bool :=
  let passcode := stripped form "passcode" in
  if String.eqb passcode ADMIN_PASSCODE then
    ({| login_flashed := (Welcome, success);
        login_location := to_admin_dashboard |}, true)
  else
    ({| login_flashed := (InvalidPasscode, error);
        login_location := to_admin_login |}, admin_authenticated).

(** [admin_logout]: [session.pop('admin_authenticated', None)]. *)
Definition admin_logout (admin_authenticated : bool) : login_response * bool :=
  ({| login_flashed := (LoggedOut, success); login_location := to_dashboard |},
   false).

(** The JSON answers of [admin_survey_delete]. *)
Inductive delete_response : Type :=
| NotAuthenticated
| SurveyNotFound
| SurveyDeleted (cave_name : string)
| DeleteFailed (e : string).

Definition delete_success (r : delete_response) : bool :=
  match r with
  | SurveyDeleted _ => true
  | _ => false
  end.

Definition delete_text (r : delete_response) : string :=
  match r with
  | NotAuthenticated => "Not authenticated"
  | SurveyNotFound => "Survey not found"
  | SurveyDeleted cave_name =>
      "Survey for " ++ cave_name ++ " deleted successfully"
  | DeleteFailed e => e
  end.

(** Modelled from the spec: the persistence layer is not defined in the
    source files; on the row store that stands for it, the SELECT of
    [admin_survey_delete] with [fetchone] gives the first header row of that
    id, and its DELETE removes the header rows of that id. *)
Definition select_header (db : database) (id : nat) : option header_row :=
  find (fun r => Nat.eqb (h_id r) id) (survey_header db).

Definition delete_header (db : database) (id : nat) : database :=
  with_survey_header db
    (filter (fun r => negb (Nat.eqb (h_id r) id)) (survey_header db)).

(** The [try] block of [admin_survey_delete]. Both statements are sent
    through [cursor], a name the handler never binds and the module does not
    define: evaluating it raises [NameError] before the SELECT. *)
Definition admin_survey_delete_try (survey_id : nat) (db : database)
  : Py.result (delete_response * database) :=
  cursor <- Py.unbound_name (A := unit) "cursor" ;;
  match select_header db survey_id with
  | None => Py.Ok (SurveyNotFound, db)
  | Some survey =>
      Py.Ok (SurveyDeleted (h_cave_name survey), delete_header db survey_id)
  end.

(** [admin_survey_delete]: without the session flag the answer is the JSON
    object with ['Not authenticated']; the [except Exception] clause answers
    with the text of the exception. *)
Definition admin_survey_delete (admin_authenticated : bool) (survey_id : nat)
    (db : database) : delete_response * database :=
  if negb admin_authenticated then (NotAuthenticated, db)
  else
    match admin_survey_delete_try survey_id db with
    | Py.Ok r => r
    | Py.Raise e => (DeleteFailed (exn_text e), db)
    end.

End Admin.

(** ** The shot table of the text export ([admin_survey_export])

    The block of the handler that formats the parsed shot list, from the
    line "SURVEY SHOTS" on. The handler reaches it after its SELECT, which
    goes through the same unbound [cursor] as the edit and delete handlers;
    the block is modelled on its own, as a function of the shot list. *)

Module TextExport.
Import Data.

(** The exceptions the shot table can meet; the handler's [except] catches
    either, flashes and redirects. *)
Inductive exn : Type :=
| TypeError
| AttributeError.

Inductive result (A : Type) : Type :=
| Ok (a : A)
| Raise (e : exn).
Arguments Ok {A} a.
Arguments Raise {A} e.

Definition bind {A B : Type} (m : result A) (k : A -> result B) : result B :=
  match m with
  | Ok a => k a
  | Raise e => Raise e
  end.

(** [n * c] for a one-character string [c]. *)
Definition times (n : nat) (c : ascii) : string :=
  string_of_list_ascii (repeat c n).

(** [format(s, '<width')] for a [str]: padded on the right, never cut. *)
Definition ljust (s : string) (width : nat) : string :=
  s ++ times (width - String.length s) " "%char.

(** [d.get(key, '')] for the dict [json.loads] builds from an object: the
    last binding of a key counts. *)
Definition dict_get (fields : list (string * json)) (key : string) : json :=
  fold_left (fun found kv => if String.eqb (fst kv) key then snd kv else found)
    fields (JString "").

(** A falsy value: [None], zero, the empty string, list or dict. *)
Definition falsy (v : json) : bool :=
  match v with
  | JNull => true
  | JNumber x => PrimFloat.eqb x 0
  | JString s => negb (Py.truthy s)
  | JArray [] => true
  | JArray (_ :: _) => false
  | JObject [] => true
  | JObject (_ :: _) => false
  end.

Section ShotTable.

(** The text of a number under an alignment-only format ([str]). *)
Variable number_text : float -> string.

(** [f"{v:<width}"]: [None], a list and a dict refuse a format spec. *)
Definition format_left (v : json) (width : nat) : result string :=
  match v with
  | JString s => Ok (ljust s width)
  | JNumber x => Ok (ljust (number_text x) width)
  | JNull => Raise TypeError
  | JArray _ => Raise TypeError
  | JObject _ => Raise TypeError
  end.

(** The line of one shot; [shot.get] needs a dict. *)
Definition export_shot_line (shot : json) : result string :=
  match shot with
  | JObject fields =>
      bind (format_left (dict_get fields "from_station") 8) (fun from_station =>
      bind (format_left (dict_get fields "to_station") 8) (fun to_station =>
      bind (format_left (dict_get fields "distance") 8) (fun distance =>
      bind (format_left (dict_get fields "azimuth_fs") 8) (fun azimuth_fs =>
      bind (format_left (dict_get fields "azimuth_bs") 8) (fun azimuth_bs =>
      bind (format_left (dict_get fields "inclination_fs") 8) (fun inclination_fs =>
      bind (format_left (dict_get fields "inclination_bs") 8) (fun inclination_bs =>
      bind (format_left (dict_get fields "left") 6) (fun left =>
      bind (format_left (dict_get fields "right") 6) (fun right =>
      bind (format_left (dict_get fields "up") 6) (fun up =>
      bind (format_left (dict_get fields "down") 6) (fun down =>
      bind (format_left (dict_get fields "notes") 20) (fun notes =>
      Ok (from_station ++ " " ++ to_station ++ " " ++ distance ++ " "
          ++ azimuth_fs ++ " " ++ azimuth_bs ++ " "
          ++ inclination_fs ++ " " ++ inclination_bs ++ " "
          ++ left ++ " " ++ right ++ " " ++ up ++ " " ++ down ++ " "
          ++ notes)%string))))))))))))
  | _ => Raise AttributeError
  end.

Fixpoint export_shot_lines (shots : list json) : result (list string) :=
  match shots with
  | [] => Ok []
  | shot :: rest =>
      bind (export_shot_line shot) (fun line =>
      bind (export_shot_lines rest) (fun lines => Ok (line :: lines)))
  end.

Definition column_titles : string :=
  ljust "From" 8 ++ " " ++ ljust "To" 8 ++ " " ++ ljust "Dist" 8 ++ " "
  ++ ljust "Az FS" 8 ++ " " ++ ljust "Az BS" 8 ++ " "
  ++ ljust "Inc FS" 8 ++ " " ++ ljust "Inc BS" 8 ++ " "
  ++ ljust "L" 6 ++ " " ++ ljust "R" 6 ++ " " ++ ljust "U" 6 ++ " "
  ++ ljust "D" 6 ++ " " ++ ljust "Notes" 20.

(** The lines from "SURVEY SHOTS" to the last shot, for the value
    [json.loads] gives for the header's [survey_shots_json]: a list is walked
    shot by shot; walking a dict or a string meets values without [get]; a
    number other than zero cannot be walked. *)
Definition shots_section (survey_shots : json) : result (list string) :=
  if falsy survey_shots then
    Ok ["SURVEY SHOTS"; times 80 "-"%char; "No survey shots recorded"]
  else
    match survey_shots with
    | JArray shots =>
        bind (export_shot_lines shots) (fun lines =>
        Ok ("SURVEY SHOTS" :: times 80 "-"%char :: column_titles
            :: times 80 "-"%char :: lines))
    | JNumber _ => Raise TypeError
    | _ => Raise AttributeError
    end.

End ShotTable.
End TextExport.

(** ** The checks of a registration ([register_submit]) *)

Module Registration.

(** The form fields of [register_submit]. *)
Record registration : Type := {
  full_name : string;
  email : string;
  phone_number : string;
  address : string;
  emergency_contact : string;
  traveled_with : string;
  accommodation : string;
  other_accommodation : string;
  participation_days : list string;
  eating_at_expedition : bool;
  roppel_trips : string;
  crf_compass_agreement : bool;
  skills : list string;
  have_instruments : bool;
  instruments_details : string;
  group_gear : list string;
  group_gear_other_details : string;
  additional_info : string
}.

(** [key in request.form] *)
Definition has_key (form : Py.MultiDict) (key : string) : bool :=
  existsb (fun kv => String.eqb (fst kv) key) form.

Definition extract_registration (form : Py.MultiDict) : registration :=
  {| full_name := Survey.stripped form "full_name";
     email := Survey.stripped form "email";
     phone_number := Survey.stripped form "phone_number";
     address := Survey.stripped form "address";
     emergency_contact := Survey.stripped form "emergency_contact";
     traveled_with := Survey.stripped form "traveled_with";
     accommodation := Py.get_or_empty form "accommodation";
     other_accommodation := Survey.stripped form "other_accommodation";
     participation_days := Py.getlist form "participation_days";
     eating_at_expedition := has_key form "eating_at_expedition";
     roppel_trips := Py.get_or_empty form "roppel_trips";
     crf_compass_agreement := has_key form "crf_compass_agreement";
     skills := Py.getlist form "skills";
     have_instruments := has_key form "have_instruments";
     instruments_details := Survey.stripped form "instruments_details";
     group_gear := Py.getlist form "group_gear";
     group_gear_other_details := Survey.stripped form "group_gear_other_details";
     additional_info := Survey.stripped form "additional_info" |}.

Inductive message : Type :=
| RequiredFields (missing_fields : list string)
| DayRequired
| SkillRequired
| AgreementRequired
| AccommodationDetailsRequired
| InstrumentsDetailsRequired
| GearDetailsRequired.

Definition message_text (m : message) : string :=
  match m with
  | RequiredFields missing_fields =>
      "Please fill in all required fields: " ++ String.concat ", " missing_fields
  | DayRequired => "Please select at least one participation day."
  | SkillRequired => "Please select at least one skill or experience level."
  | AgreementRequired =>
      "You must agree to use the CRF compass course method for Roppel Cave System trips to complete registration."
  | AccommodationDetailsRequired => "Please specify your accommodation details."
  | InstrumentsDetailsRequired =>
      "Please provide details about your survey instruments."
  | GearDetailsRequired => "Please specify what other gear you can share/loan."
  end.

(** [if not field: missing_fields.append(label)] *)
Definition missing (field label : string) : list string :=
  if Py.truthy field then [] else [label].

Definition missing_fields (r : registration) : list string :=
  missing (full_name r) "Full Name"
  ++ missing (email r) "Email Address"
  ++ missing (phone_number r) "Phone Number"
  ++ missing (address r) "Physical Address"
  ++ missing (emergency_contact r) "Emergency Contact"
  ++ missing (accommodation r) "Accommodation".

(** [x in l] for a list of strings. *)
Definition contains (l : list string) (x : string) : bool :=
  existsb (fun y => String.eqb y x) l.

(** The checks of [register_submit], from the required fields to the gear
    details: the message of the first one that fails, [None] when the
    handler goes on to the database. *)
Definition register_checks (r : registration) : option message :=
  if negb (forallb Py.truthy
             [ full_name r; email r; phone_number r; address r;
               emergency_contact r; accommodation r ])
  then Some (RequiredFields (missing_fields r))
  else if match participation_days r with [] => true | _ :: _ => false end
  then Some DayRequired
  else if match skills r with [] => true | _ :: _ => false end
  then Some SkillRequired
  else if String.eqb (roppel_trips r) "yes" && negb (crf_compass_agreement r)
  then Some AgreementRequired
  else if String.eqb (accommodation r) "other"
          && negb (Py.truthy (other_accommodation r))
  then Some AccommodationDetailsRequired
  else if have_instruments r && negb (Py.truthy (instruments_details r))
  then Some InstrumentsDetailsRequired
  else if contains (group_gear r) "other"
          && negb (Py.truthy (group_gear_other_details r))
  then Some GearDetailsRequired
  else None.

End Registration.

(** ** The participants of a trip ([admin_update_trip_participants]) *)

Module Trips.

(** The characters of a string are read as code points below 256. *)







End Trips.

(** ** The notions of the specification, over the data of the code *)

Module Spec.
Import Data Store Survey.

(** The ranges of the validation table, read as intervals: [0, 360) for an
    azimuth, [-90, 90] for an inclination. A NaN lies in neither. *)
Definition azimuth_in_range (a : float) : bool :=
  PrimFloat.leb 0 a && PrimFloat.ltb a 360.

Definition inclination_in_range (a : float) : bool :=
  PrimFloat.leb (-90) a && PrimFloat.leb a 90.

(** A rule of the validation table is violated: the field is present and
    out of its range, or the name is too long. *)
Definition out_of_range (r : shot_rule) (s : shot) : Prop :=
  match r with
  | NegativeDistance =>
      exists d, distance s = Some d /\ PrimFloat.ltb d 0 = true
  | FrontsightAzimuthRange =>
      exists a, azimuth_fs s = Some a /\ azimuth_in_range a = false
  | BacksightAzimuthRange =>
      exists a, azimuth_bs s = Some a /\ azimuth_in_range a = false
  | FrontsightInclinationRange =>
      exists a, inclination_fs s = Some a /\ inclination_in_range a = false
  | BacksightInclinationRange =>
      exists a, inclination_bs s = Some a /\ inclination_in_range a = false
  | NegativeLRUD =>
      PrimFloat.ltb (left s) 0 = true \/ PrimFloat.ltb (right s) 0 = true
      \/ PrimFloat.ltb (up s) 0 = true \/ PrimFloat.ltb (down s) 0 = true
  | FromStationTooLong => 20 < String.length (from_station s)
  | ToStationTooLong => 20 < String.length (to_station s)
  end.

(** A reading is absent or a number (not a NaN). *)
Definition is_number (x : option float) : bool :=
  match x with
  | Some v => negb (PrimFloat.is_nan v)
  | None => true
  end.

(** None of the four angles of a shot is a NaN. *)
Definition angles_are_numbers (s : shot) : bool :=
  is_number (azimuth_fs s) && is_number (azimuth_bs s)
  && is_number (inclination_fs s) && is_number (inclination_bs s).

(** The station pair row [i] contributes to the stored shot list, as the
    invariant of the data model words it: the row is materialized when both
    names are there and non-empty after trimming. *)
Definition materialized (c : shot_columns) (i : nat) : list (string * string) :=
  match nth_error (from_stations c) i, nth_error (to_stations c) i with
  | Some f, Some t =>
      if Py.truthy (Py.strip f) && Py.truthy (Py.strip t)
      then [(Py.strip f, Py.strip t)] else []
  | _, _ => []
  end.

(** The station names of a stored shot. *)
Definition stations (s : shot) : string * string :=
  (from_station s, to_station s).

(** Resolve or create on the [people] table: look the full name up, add a
    row under a new key when no row has it. *)
Definition resolve_name (rows : list person_row) (name : string) : list person_row :=
  match find (fun p => String.eqb (full_name p) name) rows with
  | Some _ => rows
  | None => rows ++ [ {| person_id := fresh_id (map person_id rows);
                         full_name := name |} ]
  end.

(** Resolve or create on the [caves] table, keyed by (name, location). *)
Definition resolve_key (rows : list cave_row) (name location : string)
  : list cave_row :=
  match find (fun c => String.eqb (cave_name_col c) name
                       && String.eqb (location_text c) location) rows with
  | Some _ => rows
  | None => rows ++ [ {| cave_id := fresh_id (map cave_id rows);
                         cave_name_col := name;
                         location_text := location |} ]
  end.

(** The rows of [caves] under a key, and of [people] under a name. *)
Definition caves_with (name location : string) (rows : list cave_row)
  : list cave_row :=
  filter (fun c => String.eqb (cave_name_col c) name
                   && String.eqb (location_text c) location) rows.

Definition people_named (name : string) (rows : list person_row)
  : list person_row :=
  filter (fun p => String.eqb (full_name p) name) rows.

(** The team entries that get rows: those with a name. *)
Definition named_roles (entries : list (string * string)) : list (string * string) :=
  filter (fun e => Py.truthy (snd e)) entries.

(** A required header field is missing: one of the checks that need no
    number fails. *)
Definition required_header_missing (f : survey_fields) : bool :=
  negb (Py.truthy (cave_name f))
  || negb (Py.truthy (survey_date f))
  || negb (data_accuracy f)
  || negb (Py.truthy (book_sketch_person f))
  || negb (Py.truthy (instrument_reader f))
  || negb (Py.truthy (tape_person f))
  || negb (Py.truthy (point_person f))
  || negb (Py.truthy (trip_leader f))
  || negb (Py.truthy (compass_id f))
  || negb (Py.truthy (inclinometer_id f))
  || negb (crf_compass_course f).

(** Entry [i] of a numeric column is there, is not blank, and [float]
    refuses it. *)
Definition not_a_number (py_float : string -> Py.parsed) (l : list string)
    (i : nat) : Prop :=
  exists s msg, nth_error l i = Some s
                /\ Py.truthy (Py.strip s) = true
                /\ py_float s = Py.NotANumber msg.

Definition optional_columns (c : shot_columns) : list (list string) :=
  [ distances c; azimuth_fs_list c; azimuth_bs_list c;
    inclination_fs_list c; inclination_bs_list c ].

Definition lrud_columns (c : shot_columns) : list (list string) :=
  [ left_list c; right_list c; up_list c; down_list c ].

(** Why a submission is rejected, as the error-handling design lists it. *)
Inductive rejection_cause (py_float : string -> Py.parsed) (form : Py.MultiDict)
  : Prop :=
| header_field_missing :
    required_header_missing (extract_fields form) = true ->
    rejection_cause py_float form
| shot_field_not_a_number : forall i l,
    materialized (extract_columns form) i <> [] ->
    In l (optional_columns (extract_columns form)
          ++ lrud_columns (extract_columns form)) ->
    not_a_number py_float l i ->
    rejection_cause py_float form
| shot_rule_violated : forall i shot r,
    materialized (extract_columns form) i <> [] ->
    parse_row py_float (extract_columns form) i = Py.Ok shot ->
    rule_fires r shot ->
    rejection_cause py_float form
| no_valid_shot :
    (forall i, materialized (extract_columns form) i = []) ->
    rejection_cause py_float form.

(** What row [i] contributes in the edit flow: a shot when [from_station]
    is non-empty after trimming, with the raw names. *)
Definition edit_materialized (c : shot_columns) (i : nat) : list (string * string) :=
  match nth_error (from_stations c) i with
  | Some f =>
      if Py.truthy (Py.strip f) then [(f, nth i (to_stations c) "")] else []
  | None => []
  end.

Definition edit_stations (s : edit_shot) : string * string :=
  (e_from_station s, e_to_station s).

Definition reading_violation (v : option message) : list message :=
  match v with
  | Some m => [m]
  | None => []
  end.

(** Every header-level violation of a submission, in the order of the
    header rules: what "all header-level violations" would surface. *)
Definition header_violations (py_float : string -> Py.parsed) (f : survey_fields)
  : list message :=
  when (negb (Py.truthy (cave_name f))) CaveNameRequired
  ++ when (negb (Py.truthy (survey_date f))) SurveyDateRequired
  ++ when (negb (data_accuracy f)) DataAccuracyRequired
  ++ when (negb (Py.truthy (book_sketch_person f))) BookSketchRequired
  ++ when (negb (Py.truthy (instrument_reader f))) InstrumentReaderRequired
  ++ when (negb (Py.truthy (tape_person f))) TapePersonRequired
  ++ when (negb (Py.truthy (point_person f))) PointPersonRequired
  ++ when (negb (Py.truthy (trip_leader f))) TripLeaderRequired
  ++ when (negb (Py.truthy (compass_id f))) CompassIdRequired
  ++ when (negb (Py.truthy (inclinometer_id f))) InclinometerIdRequired
  ++ when (negb (crf_compass_course f)) CrfCompassCourseRequired
  ++ reading_violation
       (check_reading py_float (compass_frontsight f)
          (fun v => PrimFloat.leb v 180 || PrimFloat.ltb 360 v)
          CompassFrontsightRange CompassFrontsightInvalid)
  ++ reading_violation
       (check_reading py_float (compass_backsight f)
          (fun v => PrimFloat.ltb v 0 || PrimFloat.leb 180 v)
          CompassBacksightRange CompassBacksightInvalid)
  ++ reading_violation
       (check_reading py_float (inclinometer_frontsight f)
          inclination_out_of_range
          InclinometerFrontsightRange InclinometerFrontsightInvalid)
  ++ reading_violation
       (check_reading py_float (inclinometer_backsight f)
          inclination_out_of_range
          InclinometerBacksightRange InclinometerBacksightInvalid).

(** A stored calibration reading is NULL or a number the check let through. *)
Definition null_or_passing (v : sqlval) (bad : float -> bool) : Prop :=
  v = SqlNull \/ exists x, v = SqlFloat x /\ bad x = false.

(** The shot a row of [shots] carries. *)
Definition shot_of_row (r : shot_row) : shot :=
  {| from_station := station_from r;
     to_station := station_to r;
     distance := sh_distance r;
     azimuth_fs := fs_azimuth_deg r;
     azimuth_bs := bs_azimuth_deg r;
     inclination_fs := fs_incline_deg r;
     inclination_bs := bs_incline_deg r;
     left := lrud_left r;
     right := lrud_right r;
     up := lrud_up r;
     down := lrud_down r;
     note := sh_note r |}.

(** Row [i] has both station names. *)
Definition kept (c : shot_columns) (i : nat) : bool :=
  match materialized c i with
  | [] => false
  | _ :: _ => true
  end.

(** The five optional numbers of a shot are all there. *)
Definition all_numbers_present (s : shot) : bool :=
  match distance s, azimuth_fs s, azimuth_bs s,
        inclination_fs s, inclination_bs s with
  | Some _, Some _, Some _, Some _, Some _ => true
  | _, _, _, _, _ => false
  end.

(** The line the export makes of a shot as the edit handler builds it:
    every field left-justified to the width of its column. *)
Definition edit_line (e : edit_shot) : string :=
  TextExport.ljust (e_from_station e) 8 ++ " "
  ++ TextExport.ljust (e_to_station e) 8 ++ " "
  ++ TextExport.ljust (e_distance e) 8 ++ " "
  ++ TextExport.ljust (e_azimuth_fs e) 8 ++ " "
  ++ TextExport.ljust (e_azimuth_bs e) 8 ++ " "
  ++ TextExport.ljust (e_inclination_fs e) 8 ++ " "
  ++ TextExport.ljust (e_inclination_bs e) 8 ++ " "
  ++ TextExport.ljust (e_left e) 6 ++ " "
  ++ TextExport.ljust (e_right e) 6 ++ " "
  ++ TextExport.ljust (e_up e) 6 ++ " "
  ++ TextExport.ljust (e_down e) 6 ++ " "
  ++ TextExport.ljust (e_notes e) 20.

(** The exported line of a shot the submission stored with all its numbers:
    the notes column is empty. *)
Definition submitted_line (number_text : float -> string) (s : shot) : string :=
  let text x := match x with Some v => number_text v | None => "" end in
  TextExport.ljust (from_station s) 8 ++ " "
  ++ TextExport.ljust (to_station s) 8 ++ " "
  ++ TextExport.ljust (text (distance s)) 8 ++ " "
  ++ TextExport.ljust (text (azimuth_fs s)) 8 ++ " "
  ++ TextExport.ljust (text (azimuth_bs s)) 8 ++ " "
  ++ TextExport.ljust (text (inclination_fs s)) 8 ++ " "
  ++ TextExport.ljust (text (inclination_bs s)) 8 ++ " "
  ++ TextExport.ljust (number_text (left s)) 6 ++ " "
  ++ TextExport.ljust (number_text (right s)) 6 ++ " "
  ++ TextExport.ljust (number_text (up s)) 6 ++ " "
  ++ TextExport.ljust (number_text (down s)) 6 ++ " "
  ++ TextExport.ljust "" 20.

End Spec.

Import Data Store Survey.

(** ** The result monad *)

Lemma bind_no_index_error : forall (A B : Type) (m : Py.result A) (k : A -> Py.result B),
    Py.no_index_error m -> (forall a, m = Py.Ok a -> Py.no_index_error (k a)) ->
    Py.no_index_error (Py.bind m k).
Proof.
  intros A B m k Hm Hk. destruct m as [a | e]; simpl.
  - apply Hk. reflexivity.
  - intros E. apply Hm. injection E as ->. reflexivity.
Qed.

Lemma bind_ok_inv : forall (A B : Type) (m : Py.result A) (k : A -> Py.result B) (b : B),
    Py.bind m k = Py.Ok b -> exists a, m = Py.Ok a /\ k a = Py.Ok b.
Proof.
  intros A B m k b H. destruct m as [a | e]; simpl in H.
  - exists a. split; [reflexivity | exact H].
  - discriminate.
Qed.

Lemma index_lt : forall (A : Type) (l : list A) (i : nat),
    i < List.length l -> exists a, nth_error l i = Some a /\ Py.index l i = Py.Ok a.
Proof.
  intros A l i H. unfold Py.index.
  destruct (nth_error l i) as [a |] eqn:E.
  - exists a. split; reflexivity.
  - apply nth_error_None in E. lia.
Qed.

Lemma index_ok_inv : forall (A : Type) (l : list A) (i : nat) (a : A),
    Py.index l i = Py.Ok a -> nth_error l i = Some a.
Proof.
  intros A l i a. unfold Py.index. destruct (nth_error l i); congruence.
Qed.

Lemma of_parsed_no_index_error : forall p, Py.no_index_error (Py.of_parsed p).
Proof. intros [x | msg]; simpl; unfold Py.no_index_error; congruence. Qed.

Section Loop.

Variable py_float : string -> Py.parsed.

(** *** Guarded reads *)

Lemma optional_float_no_index_error : forall l i,
    Py.no_index_error (optional_float py_float l i).
Proof.
  intros l i. unfold optional_float.
  destruct (i <? List.length l)%nat eqn:E; [ | unfold Py.no_index_error; congruence].
  apply Nat.ltb_lt in E. destruct (index_lt _ l i E) as [s [_ Hs]].
  rewrite Hs. simpl. destruct (Py.truthy (Py.strip s)).
  - destruct (py_float s); simpl; unfold Py.no_index_error; congruence.
  - unfold Py.no_index_error; congruence.
Qed.

Lemma lrud_float_no_index_error : forall l i,
    Py.no_index_error (lrud_float py_float l i).
Proof.
  intros l i. unfold lrud_float.
  destruct (i <? List.length l)%nat eqn:E; [ | unfold Py.no_index_error; congruence].
  apply Nat.ltb_lt in E. destruct (index_lt _ l i E) as [s [_ Hs]].
  rewrite Hs. simpl. destruct (Py.truthy (Py.strip s)).
  - apply of_parsed_no_index_error.
  - unfold Py.no_index_error; congruence.
Qed.

Lemma note_field_ok : forall l i, exists s, note_field l i = Py.Ok s.
Proof.
  intros l i. unfold note_field.
  destruct (i <? List.length l)%nat eqn:E; [ | eexists; reflexivity].
  apply Nat.ltb_lt in E. destruct (index_lt _ l i E) as [s [_ Hs]].
  rewrite Hs. simpl. eexists; reflexivity.
Qed.

Lemma optional_float_beyond : forall l k,
    optional_float py_float l (List.length l + k) = Py.Ok None.
Proof.
  intros l k. unfold optional_float.
  replace (List.length l + k <? List.length l)%nat with false; [reflexivity | ].
  symmetry. apply Nat.ltb_ge. lia.
Qed.

Lemma lrud_float_beyond : forall l k,
    lrud_float py_float l (List.length l + k) = Py.Ok 0%float.
Proof.
  intros l k. unfold lrud_float.
  replace (List.length l + k <? List.length l)%nat with false; [reflexivity | ].
  symmetry. apply Nat.ltb_ge. lia.
Qed.

Lemma note_field_beyond : forall l k,
    note_field l (List.length l + k) = Py.Ok "".
Proof.
  intros l k. unfold note_field.
  replace (List.length l + k <? List.length l)%nat with false; [reflexivity | ].
  symmetry. apply Nat.ltb_ge. lia.
Qed.

(** *** One row *)

Lemma keep_row_ok : forall c i,
    i < List.length (from_stations c) -> exists b, keep_row c i = Py.Ok b.
Proof.
  intros c i H. unfold keep_row.
  destruct (i <? List.length (to_stations c))%nat eqn:E; [ | eexists; reflexivity].
  apply Nat.ltb_lt in E.
  destruct (index_lt _ _ i H) as [f [_ Hf]]. rewrite Hf. simpl.
  destruct (Py.truthy (Py.strip f)); [ | eexists; reflexivity].
  destruct (index_lt _ _ i E) as [t [_ Ht]]. rewrite Ht. simpl.
  eexists; reflexivity.
Qed.

Lemma keep_row_true_inv : forall c i,
    keep_row c i = Py.Ok true ->
    exists f t, nth_error (from_stations c) i = Some f
                /\ nth_error (to_stations c) i = Some t
                /\ Py.truthy (Py.strip f) = true
                /\ Py.truthy (Py.strip t) = true.
Proof.
  intros c i. unfold keep_row.
  destruct (i <? List.length (to_stations c))%nat; [ | discriminate].
  intros H. apply bind_ok_inv in H. destruct H as [f [Hf H]].
  destruct (Py.truthy (Py.strip f)) eqn:Tf; [ | discriminate].
  apply bind_ok_inv in H. destruct H as [t [Ht H]].
  exists f, t. apply index_ok_inv in Hf. apply index_ok_inv in Ht.
  repeat split; try assumption. congruence.
Qed.

Lemma keep_row_false_inv : forall c i,
    keep_row c i = Py.Ok false -> Spec.materialized c i = [].
Proof.
  intros c i. unfold keep_row, Spec.materialized.
  destruct (i <? List.length (to_stations c))%nat eqn:E.
  - intros H. apply bind_ok_inv in H. destruct H as [f [Hf H]].
    apply index_ok_inv in Hf. rewrite Hf.
    destruct (Py.truthy (Py.strip f)) eqn:Tf.
    + apply bind_ok_inv in H. destruct H as [t [Ht H]].
      apply index_ok_inv in Ht. rewrite Ht.
      replace (Py.truthy (Py.strip t)) with false by congruence. reflexivity.
    + destruct (nth_error (to_stations c) i); reflexivity.
  - intros _. apply Nat.ltb_ge in E. apply nth_error_None in E. rewrite E.
    destruct (nth_error (from_stations c) i); reflexivity.
Qed.

Ltac bind_step :=
  match goal with
  | |- Py.no_index_error (Py.bind _ _) =>
      apply bind_no_index_error; [ | intros ? _]
  end.

Lemma parse_row_no_index_error : forall c i,
    i < List.length (from_stations c) -> i < List.length (to_stations c) ->
    Py.no_index_error (parse_row py_float c i).
Proof.
  intros c i Hf Ht. unfold parse_row.
  do 5 (bind_step; [apply optional_float_no_index_error | ]).
  do 4 (bind_step; [apply lrud_float_no_index_error | ]).
  bind_step.
  { destruct (note_field_ok (notes_list c) i) as [s Hs]. rewrite Hs.
    unfold Py.no_index_error; congruence. }
  destruct (index_lt _ _ i Hf) as [f [_ Ef]]. rewrite Ef. simpl.
  destruct (index_lt _ _ i Ht) as [t [_ Et]]. rewrite Et. simpl.
  unfold Py.no_index_error; congruence.
Qed.

(** Nothing in a row evaluates an unbound name. *)
Lemma bind_not_name_error :
  forall (A B : Type) (m : Py.result A) (k : A -> Py.result B) (n : string),
    m <> Py.Raise (Py.NameError n) ->
    (forall a, k a <> Py.Raise (Py.NameError n)) ->
    Py.bind m k <> Py.Raise (Py.NameError n).
Proof.
  intros A B m k n Hm Hk. destruct m as [a | e]; simpl.
  - apply Hk.
  - intros E. apply Hm. injection E as ->. reflexivity.
Qed.

Lemma index_not_name_error : forall (A : Type) (l : list A) (i : nat) (n : string),
    Py.index l i <> Py.Raise (Py.NameError n).
Proof.
  intros A l i n. unfold Py.index. destruct (nth_error l i); congruence.
Qed.

Lemma optional_float_not_name_error : forall l i n,
    optional_float py_float l i <> Py.Raise (Py.NameError n).
Proof.
  intros l i n. unfold optional_float.
  destruct (i <? List.length l)%nat; [ | congruence].
  apply bind_not_name_error; [apply index_not_name_error | intros s].
  destruct (Py.truthy (Py.strip s)); [ | congruence].
  destruct (py_float s); simpl; congruence.
Qed.

Lemma lrud_float_not_name_error : forall l i n,
    lrud_float py_float l i <> Py.Raise (Py.NameError n).
Proof.
  intros l i n. unfold lrud_float.
  destruct (i <? List.length l)%nat; [ | congruence].
  apply bind_not_name_error; [apply index_not_name_error | intros s].
  destruct (Py.truthy (Py.strip s)); [ | congruence].
  destruct (py_float s); simpl; congruence.
Qed.

Lemma parse_row_not_name_error : forall c i n,
    parse_row py_float c i <> Py.Raise (Py.NameError n).
Proof.
  intros c i n. unfold parse_row.
  do 5 (apply bind_not_name_error;
        [apply optional_float_not_name_error | intros ?]).
  do 4 (apply bind_not_name_error;
        [apply lrud_float_not_name_error | intros ?]).
  apply bind_not_name_error.
  { destruct (note_field_ok (notes_list c) i) as [s Hs]. rewrite Hs. congruence. }
  intros ?.
  do 2 (apply bind_not_name_error; [apply index_not_name_error | intros ?]).
  congruence.
Qed.

(** What a parsed row holds. *)
Lemma parse_row_ok_inv : forall c i shot,
    parse_row py_float c i = Py.Ok shot ->
    optional_float py_float (distances c) i = Py.Ok (distance shot)
    /\ optional_float py_float (azimuth_fs_list c) i = Py.Ok (azimuth_fs shot)
    /\ optional_float py_float (azimuth_bs_list c) i = Py.Ok (azimuth_bs shot)
    /\ optional_float py_float (inclination_fs_list c) i = Py.Ok (inclination_fs shot)
    /\ optional_float py_float (inclination_bs_list c) i = Py.Ok (inclination_bs shot)
    /\ lrud_float py_float (left_list c) i = Py.Ok (left shot)
    /\ lrud_float py_float (right_list c) i = Py.Ok (right shot)
    /\ lrud_float py_float (up_list c) i = Py.Ok (up shot)
    /\ lrud_float py_float (down_list c) i = Py.Ok (down shot)
    /\ note_field (notes_list c) i = Py.Ok (note shot)
    /\ (exists f, nth_error (from_stations c) i = Some f
                  /\ from_station shot = Py.strip f)
    /\ (exists t, nth_error (to_stations c) i = Some t
                  /\ to_station shot = Py.strip t).
Proof.
  intros c i shot H. unfold parse_row in H.
  repeat match type of H with
         | Py.bind _ _ = Py.Ok _ =>
             apply bind_ok_inv in H;
             let x := fresh "x" in
             let E := fresh "E" in
             destruct H as [x [E H]]
         end.
  injection H as <-. simpl.
  apply index_ok_inv in E9, E10.
  repeat split; try assumption; eexists; split; eauto.
Qed.

(** The variance blocks append nothing, whatever the locals. *)
Lemma variance_blocks_append_nothing : forall shot_id s l,
    snd (variance_blocks shot_id s l) = [].
Proof.
  intros shot_id s l. unfold variance_blocks.
  destruct (azimuth_fs s) as [fs|], (azimuth_bs s) as [bs|];
    destruct (inclination_fs s) as [ifs|], (inclination_bs s) as [ibs|];
    cbn [snd app];
    repeat match goal with
           | |- context [if ?b then _ else _] => destruct b
           end; reflexivity.
Qed.

(** What a row appends does not depend on the locals. *)
Lemma validate_shot_messages : forall shot_id s l,
    snd (validate_shot shot_id s l) = shot_violations shot_id s.
Proof.
  intros shot_id s l. unfold shot_violations, validate_shot. cbn [snd].
  rewrite !variance_blocks_append_nothing. reflexivity.
Qed.

Lemma process_row_inv : forall c st i st',
    process_row py_float c st i = Py.Ok st' ->
    (keep_row c i = Py.Ok false /\ st' = st)
    \/ (exists shot,
          keep_row c i = Py.Ok true
          /\ parse_row py_float c i = Py.Ok shot
          /\ st' = {| survey_shots := survey_shots st ++ [shot];
                      valid_shot_count := S (valid_shot_count st);
                      validation_errors :=
                        validation_errors st ++ shot_violations (i + 1) shot;
                      locals := fst (validate_shot (i + 1) shot (locals st)) |})
    \/ (exists e,
          keep_row c i = Py.Ok true
          /\ parse_row py_float c i = Py.Raise (Py.ValueError e)
          /\ st' = {| survey_shots := survey_shots st;
                      valid_shot_count := valid_shot_count st;
                      validation_errors :=
                        validation_errors st ++ [ShotInvalidNumeric (i + 1) e];
                      locals := locals st |}).
Proof.
  intros c st i st' H. unfold process_row in H.
  apply bind_ok_inv in H. destruct H as [keep [Hk H]].
  destruct keep.
  - right. destruct (parse_row py_float c i) as [shot | [e | | n]] eqn:P.
    + left. exists shot. injection H as <-.
      rewrite <- (validate_shot_messages (i + 1) shot (locals st)). auto.
    + right. exists e. injection H as <-. auto.
    + discriminate.
    + discriminate.
  - left. injection H as <-. auto.
Qed.

Lemma process_row_ok : forall c st i,
    i < List.length (from_stations c) ->
    exists st', process_row py_float c st i = Py.Ok st'.
Proof.
  intros c st i H. unfold process_row.
  destruct (keep_row_ok c i H) as [b Hb]. rewrite Hb. simpl.
  destruct b; [ | eexists; reflexivity].
  destruct (keep_row_true_inv c i Hb) as [f [t [Hf [Ht _]]]].
  assert (Lt : i < List.length (to_stations c)).
  { apply nth_error_Some. congruence. }
  pose proof (parse_row_no_index_error c i H Lt) as N.
  pose proof (parse_row_not_name_error c i) as M.
  destruct (parse_row py_float c i) as [shot | [e | | n]].
  - eexists; reflexivity.
  - eexists; reflexivity.
  - exfalso. apply N. reflexivity.
  - exfalso. apply (M n). reflexivity.
Qed.

(** *** The whole loop *)

Lemma process_rows_ok : forall c indices st,
    (forall i, In i indices -> i < List.length (from_stations c)) ->
    exists st', process_rows py_float c indices st = Py.Ok st'.
Proof.
  intros c indices. induction indices as [ | i rest IH]; intros st H; simpl.
  - eexists; reflexivity.
  - destruct (process_row_ok c st i) as [st1 E]; [apply H; left; reflexivity | ].
    rewrite E. simpl. apply IH. intros j Hj. apply H. right. exact Hj.
Qed.

Lemma process_shots_ok : forall c, exists st, process_shots py_float c = Py.Ok st.
Proof.
  intros c. unfold process_shots. apply process_rows_ok.
  intros i Hi. apply in_seq in Hi. lia.
Qed.

End Loop.

Section Accumulators.

Variable py_float : string -> Py.parsed.

Lemma process_rows_cons : forall c i rest st st',
    process_rows py_float c (i :: rest) st = Py.Ok st' ->
    exists st1, process_row py_float c st i = Py.Ok st1
                /\ process_rows py_float c rest st1 = Py.Ok st'.
Proof.
  intros c i rest st st' H. simpl in H. apply bind_ok_inv in H. exact H.
Qed.

(** [validation_errors] only grows. *)
Lemma process_row_errors_grow : forall c st i st',
    process_row py_float c st i = Py.Ok st' ->
    exists extra, validation_errors st' = validation_errors st ++ extra.
Proof.
  intros c st i st' H.
  destruct (process_row_inv py_float c st i st' H)
    as [[_ ->] | [[shot [_ [_ ->]]] | [e [_ [_ ->]]]]]; simpl.
  - exists []. symmetry. apply app_nil_r.
  - eexists; reflexivity.
  - eexists; reflexivity.
Qed.

Lemma process_rows_errors_grow : forall c indices st st',
    process_rows py_float c indices st = Py.Ok st' ->
    exists extra, validation_errors st' = validation_errors st ++ extra.
Proof.
  intros c indices. induction indices as [ | i rest IH]; intros st st' H.
  - simpl in H. injection H as <-. exists []. symmetry. apply app_nil_r.
  - apply process_rows_cons in H. destruct H as [st1 [H1 H2]].
    apply process_row_errors_grow in H1. destruct H1 as [x1 E1].
    apply IH in H2. destruct H2 as [x2 E2].
    exists (x1 ++ x2). rewrite E2, E1. symmetry. apply app_assoc.
Qed.

(** A row that leaves no error behind: it was skipped, or it parsed and
    broke no rule. *)
Lemma process_row_clean : forall c st i st',
    process_row py_float c st i = Py.Ok st' ->
    validation_errors st' = [] ->
    validation_errors st = []
    /\ map Spec.stations (survey_shots st')
       = map Spec.stations (survey_shots st) ++ Spec.materialized c i
    /\ valid_shot_count st'
       = valid_shot_count st + List.length (Spec.materialized c i)
    /\ (keep_row c i = Py.Ok true ->
        exists shot, parse_row py_float c i = Py.Ok shot
                     /\ shot_violations (i + 1) shot = []).
Proof.
  intros c st i st' H Hnil.
  destruct (process_row_inv py_float c st i st' H)
    as [[K ->] | [[shot [K [P ->]]] | [e [_ [_ ->]]]]]; simpl in *.
  - rewrite (keep_row_false_inv c i K). simpl.
    rewrite app_nil_r, Nat.add_0_r. repeat split; try assumption. congruence.
  - apply app_eq_nil in Hnil. destruct Hnil as [E0 V0].
    destruct (keep_row_true_inv c i K) as [f [t [Nf [Nt [Tf Tt]]]]].
    destruct (parse_row_ok_inv py_float c i shot P)
      as (_ & _ & _ & _ & _ & _ & _ & _ & _ & _ & [f' [Nf' Ef]] & [t' [Nt' Et]]).
    assert (f' = f) by congruence. assert (t' = t) by congruence. subst f' t'.
    unfold Spec.materialized. rewrite Nf, Nt, Tf, Tt. simpl.
    rewrite map_app. simpl. unfold Spec.stations at 2. rewrite Ef, Et.
    repeat split; try assumption; try lia.
    intros _. exists shot. split; assumption.
  - apply app_eq_nil in Hnil. destruct Hnil as [_ Hnil]. discriminate.
Qed.

Lemma process_rows_clean : forall c indices st st',
    process_rows py_float c indices st = Py.Ok st' ->
    validation_errors st' = [] ->
    validation_errors st = []
    /\ map Spec.stations (survey_shots st')
       = map Spec.stations (survey_shots st) ++ flat_map (Spec.materialized c) indices
    /\ valid_shot_count st'
       = valid_shot_count st
         + List.length (flat_map (Spec.materialized c) indices)
    /\ (forall i, In i indices -> keep_row c i = Py.Ok true ->
        exists shot, parse_row py_float c i = Py.Ok shot
                     /\ shot_violations (i + 1) shot = []).
Proof.
  intros c indices. induction indices as [ | i rest IH]; intros st st' H Hnil.
  - simpl in H. injection H as <-. simpl. rewrite app_nil_r, Nat.add_0_r.
    repeat split; try assumption. intros i [].
  - apply process_rows_cons in H. destruct H as [st1 [H1 H2]].
    destruct (IH st1 st' H2 Hnil) as (N1 & S1 & C1 & K1).
    destruct (process_row_clean c st i st1 H1 N1) as (N0 & S0 & C0 & K0).
    simpl. rewrite S1, S0, C1, C0, length_app, app_assoc.
    repeat split; try assumption; try lia.
    intros j [<- | Hj]; [exact K0 | apply K1; exact Hj].
Qed.

(** The counter is the number of shots appended. *)
Lemma process_rows_count : forall c indices st st',
    process_rows py_float c indices st = Py.Ok st' ->
    valid_shot_count st = List.length (survey_shots st) ->
    valid_shot_count st' = List.length (survey_shots st').
Proof.
  intros c indices. induction indices as [ | i rest IH]; intros st st' H E.
  - simpl in H. injection H as <-. exact E.
  - apply process_rows_cons in H. destruct H as [st1 [H1 H2]].
    apply (IH st1 st' H2).
    destruct (process_row_inv py_float c st i st1 H1)
      as [[_ ->] | [[shot [_ [_ ->]]] | [e [_ [_ ->]]]]]; simpl.
    + exact E.
    + rewrite length_app. simpl. lia.
    + exact E.
Qed.

(** No row kept: the loop changes nothing. *)
Lemma process_rows_none_kept : forall c indices st,
    (forall i, In i indices -> keep_row c i = Py.Ok false) ->
    process_rows py_float c indices st = Py.Ok st.
Proof.
  intros c indices. induction indices as [ | i rest IH]; intros st H; simpl.
  - reflexivity.
  - unfold process_row. rewrite (H i (or_introl eq_refl)). simpl.
    apply IH. intros j Hj. apply H. right. exact Hj.
Qed.

(** *** The handler, by cases *)

Lemma reading_value_no_index_error : forall raw,
    Py.no_index_error (reading_value py_float raw).
Proof.
  intros [s | ]; simpl; [ | unfold Py.no_index_error; congruence].
  destruct (Py.truthy s && Py.truthy (Py.strip s)).
  - destruct (py_float s); simpl; unfold Py.no_index_error; congruence.
  - unfold Py.no_index_error; congruence.
Qed.

Lemma persist_no_index_error : forall f survey_shots db,
    Py.no_index_error (persist py_float f survey_shots db).
Proof.
  intros f survey_shots db. unfold persist.
  do 4 (apply bind_no_index_error;
        [apply reading_value_no_index_error | intros ? _]).
  unfold Py.no_index_error; congruence.
Qed.

Lemma persist_ok_inv : forall f survey_shots db db',
    persist py_float f survey_shots db = Py.Ok db' ->
    exists fs bs ifs ibs, db' = write_rows f fs bs ifs ibs survey_shots db.
Proof.
  intros f survey_shots db db' H. unfold persist in H.
  repeat match type of H with
         | Py.bind _ _ = Py.Ok _ =>
             apply bind_ok_inv in H;
             let x := fresh "x" in
             let E := fresh "E" in
             destruct H as [x [E H]]
         end.
  injection H as <-. eauto.
Qed.

(** Either the handler redirects to the form and the rows are as before,
    or every check passed and the rows are those [persist] wrote. *)
Lemma survey_submit_cases : forall form db,
    (exists flashes,
        survey_submit py_float form db
        = ({| flashed := flashes; location := survey_form |}, db))
    \/ (exists st db',
          first_header_violation py_float (extract_fields form) = None
          /\ process_shots py_float (extract_columns form) = Py.Ok st
          /\ validation_errors st = []
          /\ valid_shot_count st <> 0
          /\ persist py_float (extract_fields form) (survey_shots st) db = Py.Ok db'
          /\ survey_submit py_float form db
             = ({| flashed :=
                     [(SubmittedSuccessfully (cave_name (extract_fields form))
                         (valid_shot_count st), success)];
                   location := dashboard |}, db')).
Proof.
  intros form db. unfold survey_submit, survey_submit_try, init_cave_survey_db.
  destruct (first_header_violation py_float (extract_fields form)) as [m | ] eqn:Hh.
  { left. eexists. reflexivity. }
  destruct (process_shots_ok py_float (extract_columns form)) as [st Hst].
  rewrite Hst. simpl.
  destruct (validation_errors st) as [ | m errs] eqn:He.
  2:{ left. eexists. reflexivity. }
  destruct (valid_shot_count st =? 0)%nat eqn:Hc.
  { left. eexists. reflexivity. }
  apply Nat.eqb_neq in Hc.
  destruct (persist py_float (extract_fields form) (survey_shots st) db)
    as [db' | [e | | n]] eqn:Hp; simpl.
  - right. exists st, db'. repeat split; assumption.
  - left. eexists. reflexivity.
  - left. eexists. reflexivity.
  - left. eexists. reflexivity.
Qed.

End Accumulators.

(** ** The tables after the writes *)

Lemma insert_shots_frame : forall l db sid i,
    survey_header (insert_shots db sid i l) = survey_header db
    /\ caves (insert_shots db sid i l) = caves db
    /\ surveys (insert_shots db sid i l) = surveys db
    /\ people (insert_shots db sid i l) = people db
    /\ survey_team (insert_shots db sid i l) = survey_team db.
Proof.
  induction l as [ | shot rest IH]; intros db sid i; simpl.
  - repeat split.
  - destruct (IH (insert_shot db
                    {| sh_survey_id := sid; sequence_in_page := i + 1;
                       station_from := from_station shot;
                       station_to := to_station shot;
                       sh_distance := distance shot;
                       fs_azimuth_deg := azimuth_fs shot;
                       bs_azimuth_deg := azimuth_bs shot;
                       fs_incline_deg := inclination_fs shot;
                       bs_incline_deg := inclination_bs shot;
                       lrud_left := left shot; lrud_right := right shot;
                       lrud_up := up shot; lrud_down := down shot;
                       sh_note := note shot |}) sid (S i))
      as (H1 & H2 & H3 & H4 & H5).
    rewrite H1, H2, H3, H4, H5. repeat split.
Qed.

(** One [shots] row per shot, in order, numbered from [i + 1]. *)
Lemma insert_shots_rows : forall l db sid i,
    exists rows,
      shots (insert_shots db sid i l) = shots db ++ rows
      /\ map (fun r => (station_from r, station_to r)) rows = map Spec.stations l
      /\ map sequence_in_page rows = seq (i + 1) (List.length l)
      /\ Forall (fun r => sh_survey_id r = sid) rows.
Proof.
  induction l as [ | shot rest IH]; intros db sid i; simpl.
  - exists []. rewrite app_nil_r. repeat split. constructor.
  - match goal with
    | |- context [insert_shots ?d sid (S i) rest] =>
        destruct (IH d sid (S i)) as [rows (H1 & H2 & H3 & H4)]
    end.
    eexists (_ :: rows). rewrite H1. simpl. rewrite <- app_assoc. simpl.
    split; [reflexivity | ]. simpl. rewrite H2, H3.
    replace (S i + 1) with (S (i + 1)) by lia.
    repeat split. constructor; [reflexivity | exact H4].
Qed.

Lemma add_team_member_frame : forall sid db entry,
    survey_header (add_team_member sid db entry) = survey_header db
    /\ caves (add_team_member sid db entry) = caves db
    /\ surveys (add_team_member sid db entry) = surveys db
    /\ shots (add_team_member sid db entry) = shots db.
Proof.
  intros sid db [r n]. unfold add_team_member, resolve_person.
  destruct (Py.truthy n); [ | repeat split].
  destruct (select_person db n); simpl; repeat split.
Qed.

Lemma add_team_member_people : forall sid db entry,
    people (add_team_member sid db entry)
    = if Py.truthy (snd entry) then Spec.resolve_name (people db) (snd entry)
      else people db.
Proof.
  intros sid db [r n]. unfold add_team_member, resolve_person, Spec.resolve_name.
  simpl. destruct (Py.truthy n); [ | reflexivity].
  unfold select_person. destruct (find _ (people db)); reflexivity.
Qed.

Lemma add_team_member_team : forall sid db entry,
    exists rows,
      survey_team (add_team_member sid db entry) = survey_team db ++ rows
      /\ map (fun t => (role t, display_name t)) rows = Spec.named_roles [entry]
      /\ Forall (fun t => t_survey_id t = sid) rows.
Proof.
  intros sid db [r n]. unfold add_team_member, resolve_person, Spec.named_roles.
  simpl. destruct (Py.truthy n).
  - destruct (select_person db n); simpl; eexists; split; try reflexivity;
      simpl; split; try reflexivity; repeat constructor.
  - exists []. rewrite app_nil_r. repeat split. constructor.
Qed.

Lemma team_loop_frame : forall sid entries db,
    survey_header (fold_left (add_team_member sid) entries db) = survey_header db
    /\ caves (fold_left (add_team_member sid) entries db) = caves db
    /\ surveys (fold_left (add_team_member sid) entries db) = surveys db
    /\ shots (fold_left (add_team_member sid) entries db) = shots db.
Proof.
  intros sid entries. induction entries as [ | e rest IH]; intros db; simpl.
  - repeat split.
  - destruct (IH (add_team_member sid db e)) as (H1 & H2 & H3 & H4).
    destruct (add_team_member_frame sid db e) as (F1 & F2 & F3 & F4).
    rewrite H1, H2, H3, H4. repeat split; assumption.
Qed.

Lemma team_loop_people : forall sid entries db,
    people (fold_left (add_team_member sid) entries db)
    = fold_left Spec.resolve_name (map snd (Spec.named_roles entries)) (people db).
Proof.
  intros sid entries. induction entries as [ | e rest IH]; intros db; simpl.
  - reflexivity.
  - rewrite IH, add_team_member_people. unfold Spec.named_roles. simpl.
    destruct (Py.truthy (snd e)); reflexivity.
Qed.

Lemma team_loop_team : forall sid entries db,
    exists rows,
      survey_team (fold_left (add_team_member sid) entries db)
      = survey_team db ++ rows
      /\ map (fun t => (role t, display_name t)) rows = Spec.named_roles entries
      /\ Forall (fun t => t_survey_id t = sid) rows.
Proof.
  intros sid entries. induction entries as [ | e rest IH]; intros db; simpl.
  - exists []. rewrite app_nil_r. repeat split. constructor.
  - destruct (IH (add_team_member sid db e)) as [rows2 (H1 & H2 & H3)].
    destruct (add_team_member_team sid db e) as [rows1 (G1 & G2 & G3)].
    exists (rows1 ++ rows2). rewrite H1, G1, <- app_assoc.
    split; [reflexivity | ]. rewrite map_app, G2, H2.
    split; [ | apply Forall_app; split; assumption].
    unfold Spec.named_roles. simpl. destruct (Py.truthy (snd e)); reflexivity.
Qed.

(** The six tables after [write_rows]. *)
Lemma write_rows_tables : forall f fs bs ifs ibs l db,
    let db' := write_rows f fs bs ifs ibs l db in
    survey_header db'
    = survey_header db
      ++ [header_of_submission f fs bs ifs ibs l
            (fresh_id (map h_id (survey_header db)))]
    /\ caves db' = Spec.resolve_key (caves db) (cave_name f) (cave_location f)
    /\ (exists cid id, surveys db' = surveys db ++ [survey_of_submission f cid id])
    /\ (exists rows,
          shots db' = shots db ++ rows
          /\ map (fun r => (station_from r, station_to r)) rows = map Spec.stations l
          /\ map sequence_in_page rows = seq 1 (List.length l))
    /\ people db'
       = fold_left Spec.resolve_name (map snd (Spec.named_roles (team_roles f))) (people db)
    /\ (exists rows,
          survey_team db' = survey_team db ++ rows
          /\ map (fun t => (role t, display_name t)) rows
             = Spec.named_roles (team_roles f)).
Proof.
  intros f fs bs ifs ibs l db db'. subst db'. unfold write_rows.
  unfold insert_header.
  set (db1 := with_survey_header db _).
  destruct (resolve_cave db1 (cave_name f) (cave_location f)) as [db2 cid] eqn:Rc.
  unfold insert_survey.
  set (sid := fresh_id (map survey_id (surveys db2))).
  set (db3 := with_surveys db2 _).
  destruct (team_loop_frame sid (team_roles f) (insert_shots db3 sid 0 l))
    as (T1 & T2 & T3 & T4).
  destruct (insert_shots_frame l db3 sid 0) as (S1 & S2 & S3 & S4 & S5).
  assert (C2 : caves db2 = Spec.resolve_key (caves db) (cave_name f) (cave_location f)
               /\ survey_header db2 = survey_header db1
               /\ surveys db2 = surveys db /\ shots db2 = shots db
               /\ people db2 = people db /\ survey_team db2 = survey_team db).
  { unfold resolve_cave, select_cave, Spec.resolve_key in *. subst db1. simpl in Rc.
    destruct (find _ (caves db)); injection Rc as <- <-; simpl; repeat split. }
  destruct C2 as (C2 & C1 & C3 & C4 & C5 & C6).
  split. { rewrite T1, S1. subst db3. simpl. rewrite C1. reflexivity. }
  split. { rewrite T2, S2. subst db3. simpl. exact C2. }
  split. { exists cid, sid. rewrite T3, S3. subst db3. simpl. rewrite C3. reflexivity. }
  split.
  { destruct (insert_shots_rows l db3 sid 0) as [rows (R1 & R2 & R3 & _)].
    exists rows. rewrite T4, R1. subst db3. simpl. rewrite C4.
    repeat split; assumption. }
  split. { rewrite team_loop_people, S4. subst db3. simpl. rewrite C5. reflexivity. }
  destruct (team_loop_team sid (team_roles f) (insert_shots db3 sid 0 l))
    as [rows (R1 & R2 & _)].
  exists rows. rewrite R1, S5. subst db3. simpl. rewrite C6. split; [reflexivity | exact R2].
Qed.
(** ** Geometry reducer *)

(** C1: any absent input gives (0,0,0); otherwise, where [math.cos] and
    [math.sin] return (neither angle is infinite), east, north and up are
    distance*cos(inc)*sin(az), distance*cos(inc)*cos(az) and
    distance*sin(inc), the angles passed through [radians] first; on an
    infinite angle the library raises [ValueError] and so does the reducer. *)
Theorem shot_to_cartesian_reduces :
  forall (radians cos sin : float -> float) (domain_error : string),
    (forall az inc,
        Geometry.shot_to_cartesian radians cos sin domain_error None az inc
        = Py.Ok (0%float, 0%float, 0%float))
    /\ (forall d inc,
          Geometry.shot_to_cartesian radians cos sin domain_error d None inc
          = Py.Ok (0%float, 0%float, 0%float))
    /\ (forall d az,
          Geometry.shot_to_cartesian radians cos sin domain_error d az None
          = Py.Ok (0%float, 0%float, 0%float))
    /\ (forall d az inc,
          Geometry.is_infinite (radians az) = false ->
          Geometry.is_infinite (radians inc) = false ->
          Geometry.shot_to_cartesian radians cos sin domain_error
            (Some d) (Some az) (Some inc)
          = Py.Ok
              (PrimFloat.mul (PrimFloat.mul d (cos (radians inc))) (sin (radians az)),
               PrimFloat.mul (PrimFloat.mul d (cos (radians inc))) (cos (radians az)),
               PrimFloat.mul d (sin (radians inc))))
    /\ (forall d az inc,
          Geometry.is_infinite (radians az) = true
          \/ Geometry.is_infinite (radians inc) = true ->
          Geometry.shot_to_cartesian radians cos sin domain_error
            (Some d) (Some az) (Some inc)
          = Py.Raise (Py.ValueError domain_error)).
Proof.
  intros radians cos sin domain_error.
  split; [reflexivity | ].
  split; [intros d inc; destruct d as [d|]; reflexivity | ].
  split.
  { intros d az. destruct d as [d|]; [destruct az as [az|] |]; reflexivity. }
  split.
  - intros d az inc Haz Hinc.
    unfold Geometry.shot_to_cartesian, Geometry.math_cos, Geometry.math_sin.
    rewrite Haz, Hinc. reflexivity.
  - intros d az inc H.
    unfold Geometry.shot_to_cartesian, Geometry.math_cos, Geometry.math_sin.
    destruct (Geometry.is_infinite (radians inc)) eqn:Hinc; [reflexivity | ].
    destruct H as [H | H]; [ | discriminate].
    rewrite H. reflexivity.
Qed.

(** Distance 10 at azimuth 90 and inclination 0: neither angle is infinite,
    and the products are those of the claim. *)
Lemma shot_to_cartesian_reduces_witness :
  let cos := fun _ : float => 1%float in
  let sin := fun _ : float => 0%float in
  Geometry.shot_to_cartesian Sample.to_radians cos sin "math domain error"
    (Some 10%float) (Some 90%float) (Some 0%float)
  = Py.Ok
      (PrimFloat.mul (PrimFloat.mul 10 (cos (Sample.to_radians 0)))
         (sin (Sample.to_radians 90)),
       PrimFloat.mul (PrimFloat.mul 10 (cos (Sample.to_radians 0)))
         (cos (Sample.to_radians 90)),
       PrimFloat.mul 10 (sin (Sample.to_radians 0))).
Proof.
  intros cos sin.
  apply (proj1 (proj2 (proj2 (proj2
           (shot_to_cartesian_reduces Sample.to_radians cos sin
              "math domain error"))))).
  - reflexivity.
  - reflexivity.
Defined.

(** ** Floating-point order *)

Lemma SFcompare_swap : forall x y,
    SpecFloat.SFcompare y x
    = match SpecFloat.SFcompare x y with
      | Some c => Some (CompOpp c)
      | None => None
      end.
Proof.
  intros x y.
  destruct x as [sx | sx | | sx mx ex], y as [sy | sy | | sy my ey];
    try reflexivity;
    try (destruct sx; reflexivity);
    try (destruct sy; reflexivity);
    try (destruct sx, sy; reflexivity).
  simpl. destruct sx, sy; try reflexivity.
  - rewrite (BinInt.Z.compare_antisym ex ey).
    destruct (BinInt.Z.compare ex ey); simpl; try reflexivity.
    rewrite (BinPos.Pos.compare_cont_antisym mx my Eq). reflexivity.
  - rewrite (BinInt.Z.compare_antisym ex ey).
    destruct (BinInt.Z.compare ex ey); simpl; try reflexivity.
    rewrite (BinPos.Pos.compare_cont_antisym mx my Eq). simpl.
    destruct (BinPos.Pos.compare_cont Eq mx my); reflexivity.
Qed.

Lemma SFcompare_nan : forall x y,
    SpecFloat.SFcompare x y = None ->
    SpecFloat.SFcompare x x = None \/ SpecFloat.SFcompare y y = None.
Proof.
  intros x y.
  destruct x as [sx | sx | | sx mx ex], y as [sy | sy | | sy my ey]; simpl;
    try (intros; discriminate); auto;
    try (destruct sx; discriminate); try (destruct sy; discriminate).
Qed.

(** Two numbers, neither of them a NaN, are ordered: [x < y] fails exactly
    when [y <= x] holds. *)
Lemma ltb_total : forall x y : float,
    PrimFloat.is_nan x = false -> PrimFloat.is_nan y = false ->
    PrimFloat.ltb x y = negb (PrimFloat.leb y x).
Proof.
  intros x y Hx Hy. unfold PrimFloat.is_nan in Hx, Hy.
  apply negb_false_iff in Hx, Hy.
  rewrite FloatAxioms.eqb_spec in Hx, Hy.
  rewrite FloatAxioms.ltb_spec, FloatAxioms.leb_spec.
  unfold SpecFloat.SFeqb in Hx, Hy. unfold SpecFloat.SFltb, SpecFloat.SFleb.
  rewrite (SFcompare_swap (FloatOps.Prim2SF x) (FloatOps.Prim2SF y)).
  destruct (SpecFloat.SFcompare (FloatOps.Prim2SF x) (FloatOps.Prim2SF y))
    as [[ | | ] | ] eqn:E; try reflexivity.
  apply SFcompare_nan in E. destruct E as [E | E]; rewrite E in *; discriminate.
Qed.

(** On a number the comparisons of the code say "outside [0, 360)". *)
Lemma azimuth_range_iff : forall a,
    PrimFloat.is_nan a = false ->
    (PrimFloat.ltb a 0 = true \/ PrimFloat.leb 360 a = true)
    <-> Spec.azimuth_in_range a = false.
Proof.
  intros a H. unfold Spec.azimuth_in_range.
  rewrite (ltb_total a 0 H eq_refl), (ltb_total a 360 H eq_refl).
  destruct (PrimFloat.leb 0 a), (PrimFloat.leb 360 a); simpl;
    intuition discriminate.
Qed.

(** On a number the comparisons of the code say "outside [-90, 90]". *)
Lemma inclination_range_iff : forall a,
    PrimFloat.is_nan a = false ->
    (PrimFloat.ltb a (-90) = true \/ PrimFloat.ltb 90 a = true)
    <-> Spec.inclination_in_range a = false.
Proof.
  intros a H. unfold Spec.inclination_in_range.
  rewrite (ltb_total a (-90) H eq_refl), (ltb_total 90 a eq_refl H).
  destruct (PrimFloat.leb (-90) a), (PrimFloat.leb a 90); simpl;
    intuition discriminate.
Qed.

(** Every comparison with a NaN is false. *)
Lemma nan_compare : forall a y,
    PrimFloat.is_nan a = true ->
    PrimFloat.ltb a y = false /\ PrimFloat.leb a y = false
    /\ PrimFloat.ltb y a = false /\ PrimFloat.leb y a = false.
Proof.
  intros a y H. unfold PrimFloat.is_nan in H. apply negb_true_iff in H.
  rewrite FloatAxioms.eqb_spec in H. unfold SpecFloat.SFeqb in H.
  rewrite !FloatAxioms.ltb_spec, !FloatAxioms.leb_spec.
  unfold SpecFloat.SFltb, SpecFloat.SFleb.
  assert (N : FloatOps.Prim2SF a = SpecFloat.S754_nan).
  { destruct (FloatOps.Prim2SF a) as [s | s | | s m e]; simpl in H.
    - discriminate.
    - destruct s; discriminate.
    - reflexivity.
    - destruct s; rewrite BinInt.Z.compare_refl in H;
        rewrite BinPos.Pos.compare_cont_refl in H; discriminate. }
  rewrite N. simpl.
  destruct (FloatOps.Prim2SF y); repeat split; reflexivity.
Qed.

(** A NaN is outside [0, 360), and neither comparison of the azimuth test
    holds of it. *)
Lemma nan_out_of_azimuth_range : forall a,
    PrimFloat.is_nan a = true -> Spec.azimuth_in_range a = false.
Proof.
  intros a H. unfold Spec.azimuth_in_range.
  destruct (nan_compare a 0 H) as (_ & _ & _ & L). rewrite L. reflexivity.
Qed.

Lemma nan_passes_azimuth_test : forall a,
    PrimFloat.is_nan a = true ->
    ~ (PrimFloat.ltb a 0 = true \/ PrimFloat.leb 360 a = true).
Proof.
  intros a H [B | B].
  - destruct (nan_compare a 0 H) as (L & _). congruence.
  - destruct (nan_compare a 360 H) as (_ & _ & _ & L). congruence.
Qed.

Lemma is_number_some : forall a, Spec.is_number (Some a) = true ->
                                 PrimFloat.is_nan a = false.
Proof. intros a H. simpl in H. apply negb_true_iff in H. exact H. Qed.

(** On a shot whose angles are numbers, the tests of the code and the ranges
    of the validation table agree. *)
Lemma rule_fires_out_of_range : forall r s,
    Spec.angles_are_numbers s = true ->
    (rule_fires r s <-> Spec.out_of_range r s).
Proof.
  intros r s H. unfold Spec.angles_are_numbers in H.
  rewrite !andb_true_iff in H. destruct H as [[[H1 H2] H3] H4].
  destruct r; simpl; try tauto.
  - split; intros [a [E R]]; exists a; (split; [exact E | ]);
      rewrite E in H1; apply is_number_some in H1;
      apply (azimuth_range_iff a H1); exact R.
  - split; intros [a [E R]]; exists a; (split; [exact E | ]);
      rewrite E in H2; apply is_number_some in H2;
      apply (azimuth_range_iff a H2); exact R.
  - split; intros [a [E R]]; exists a; (split; [exact E | ]);
      rewrite E in H3; apply is_number_some in H3;
      apply (inclination_range_iff a H3); exact R.
  - split; intros [a [E R]]; exists a; (split; [exact E | ]);
      rewrite E in H4; apply is_number_some in H4;
      apply (inclination_range_iff a H4); exact R.
Qed.

(** ** Per-shot validation *)

Lemma in_when : forall (b : bool) (m m' : message),
    In m' (when b m) <-> b = true /\ m' = m.
Proof.
  intros b m m'. destruct b; simpl.
  - split; [intros [H | []]; auto | intros [_ H]; auto].
  - split; [intros [] | intros [H _]; discriminate].
Qed.

Lemma shot_violations_range : forall shot_id s,
    shot_violations shot_id s = range_violations shot_id s.
Proof.
  intros. unfold shot_violations, validate_shot. cbn [snd].
  rewrite variance_blocks_append_nothing. apply app_nil_r.
Qed.

Lemma present_and_true : forall x bad,
    present_and x bad = true <-> exists v, x = Some v /\ bad v = true.
Proof.
  intros [v|] bad; simpl.
  - split; [intros H; exists v; auto | intros [w [E H]]; congruence].
  - split; [discriminate | intros [w [E _]]; discriminate].
Qed.

Lemma in_range_violations : forall shot_id s r,
    In (ShotViolation shot_id r) (range_violations shot_id s)
    <-> rule_fires r s.
Proof.
  intros shot_id s r. unfold range_violations.
  rewrite !in_app_iff, !in_when, !present_and_true.
  unfold azimuth_out_of_range, inclination_out_of_range.
  rewrite !orb_true_iff, !Nat.ltb_lt.
  setoid_rewrite orb_true_iff.
  destruct r; simpl; split; intros H;
    repeat match goal with
           | H : _ \/ _ |- _ => destruct H as [H | H]
           | H : _ /\ _ |- _ => destruct H as [? H]
           end; cbv beta in *; try congruence; try tauto; eauto.
Qed.

Lemma range_violations_are_rules : forall shot_id s m,
    In m (range_violations shot_id s) -> exists r, m = ShotViolation shot_id r.
Proof.
  intros shot_id s m. unfold range_violations.
  rewrite !in_app_iff, !in_when. intros H.
  repeat match goal with
         | H : _ \/ _ |- _ => destruct H as [H | H]
         end; destruct H as [_ H]; subst m; eexists; reflexivity.
Qed.

(** C5: on a shot whose angles are numbers the validator appends the
    message of a rule exactly when a present field is out of range
    (distance below 0, an azimuth outside [0, 360), an inclination outside
    [-90, 90], a negative LRUD value, a station name of more than 20
    characters), and appends nothing else. An angle that is a NaN is
    outside its range and gets no message: the form value 'nan' as the
    frontsight azimuth is accepted and stored. *)
Theorem shot_violations_exact_on_numbers :
  (forall shot_id s,
      Spec.angles_are_numbers s = true ->
      (forall r, In (ShotViolation shot_id r) (shot_violations shot_id s)
                 <-> Spec.out_of_range r s)
      /\ (forall m, In m (shot_violations shot_id s)
                    -> exists r, m = ShotViolation shot_id r))
  /\ Spec.out_of_range FrontsightAzimuthRange Sample.nan_shot
  /\ shot_violations 1 Sample.nan_shot = []
  /\ process_shots Sample.float_with_nan (extract_columns Sample.nan_azimuth)
     = Py.Ok {| survey_shots := [Sample.nan_shot];
                valid_shot_count := 1;
                validation_errors := [];
                locals := unbound_locals |}
  /\ fst (survey_submit Sample.float_with_nan Sample.nan_azimuth Store.empty)
     = {| flashed := [(SubmittedSuccessfully "Test Cave" 1, success)];
          location := dashboard |}
  /\ map fs_azimuth_deg
       (shots (snd (survey_submit Sample.float_with_nan Sample.nan_azimuth
                      Store.empty)))
     = [Some PrimFloat.nan].
Proof.
  split.
  { intros shot_id s H. rewrite shot_violations_range. split.
    - intros r. rewrite in_range_violations.
      apply rule_fires_out_of_range. exact H.
    - intros m. apply range_violations_are_rules. }
  split.
  { simpl. exists PrimFloat.nan. split; reflexivity. }
  split; [vm_compute; reflexivity | ].
  split; [vm_compute; reflexivity | ].
  split; vm_compute; reflexivity.
Qed.

(** A shot with every number, none of them a NaN: it is in range and gets
    no message. *)
Lemma shot_violations_exact_on_numbers_witness :
  (forall r, In (ShotViolation 1 r) (shot_violations 1 Sample.full_shot)
             <-> Spec.out_of_range r Sample.full_shot)
  /\ shot_violations 1 Sample.full_shot = [].
Proof.
  split; [ | vm_compute; reflexivity].
  apply (proj1 shot_violations_exact_on_numbers 1 Sample.full_shot).
  reflexivity.
Defined.

(** A shot with no number at all breaks no rule. *)
Example absent_fields_are_valid : shot_violations 1 Sample.bare_shot = [].
Proof. vm_compute. reflexivity. Qed.

(** distance = -1: the negative-distance message, and its text. *)
Example negative_distance_rejected :
  shot_violations 1
    {| from_station := "A1"; to_station := "A2";
       distance := Some (-1)%float; azimuth_fs := None; azimuth_bs := None;
       inclination_fs := None; inclination_bs := None;
       left := 0%float; right := 0%float; up := 0%float; down := 0%float;
       note := "" |}
  = [ShotViolation 1 NegativeDistance]
  /\ message_text (ShotViolation 1 NegativeDistance)
     = "Shot 1: Distance cannot be negative".
Proof. split; vm_compute; reflexivity. Qed.

(** azimuth_fs = 360 is out of range, 359 is in range: the interval is
    half-open. *)
Example azimuth_360_rejected :
  shot_violations 1
    {| from_station := "A1"; to_station := "A2";
       distance := None; azimuth_fs := Some 360%float; azimuth_bs := None;
       inclination_fs := None; inclination_bs := None;
       left := 0%float; right := 0%float; up := 0%float; down := 0%float;
       note := "" |}
  = [ShotViolation 1 FrontsightAzimuthRange]
  /\ azimuth_out_of_range 359 = false
  /\ azimuth_out_of_range 0 = false.
Proof. repeat split; vm_compute; reflexivity. Qed.

(** ** Unequal column lengths *)

Section Safety.

Variable py_float : string -> Py.parsed.

Lemma survey_submit_try_no_index_error : forall form db,
    Py.no_index_error (survey_submit_try py_float form db).
Proof.
  intros form db. unfold survey_submit_try, init_cave_survey_db.
  destruct (first_header_violation py_float (extract_fields form));
    [unfold Py.no_index_error; congruence | ].
  destruct (process_shots_ok py_float (extract_columns form)) as [st Hst].
  rewrite Hst. simpl.
  destruct (validation_errors st); [ | unfold Py.no_index_error; congruence].
  destruct (valid_shot_count st =? 0)%nat; [unfold Py.no_index_error; congruence | ].
  apply bind_no_index_error; [apply persist_no_index_error | intros db' _].
  unfold Py.no_index_error; congruence.
Qed.

End Safety.

(** C10: with columns of any lengths the shot loop ends without an
    exception and the handler's [try] block never ends in [IndexError];
    every read of a numeric column is guarded, and an entry beyond the end
    of its column reads as absent: None for the distance and the angles,
    0 for left/right/up/down, the empty string for the note. *)
Theorem unequal_lengths_are_safe :
  forall py_float : string -> Py.parsed,
    (forall c, exists st, process_shots py_float c = Py.Ok st)
    /\ (forall form db, Py.no_index_error (survey_submit_try py_float form db))
    /\ (forall l i, Py.no_index_error (optional_float py_float l i))
    /\ (forall l i, Py.no_index_error (lrud_float py_float l i))
    /\ (forall l i, Py.no_index_error (note_field l i))
    /\ (forall l k, optional_float py_float l (List.length l + k) = Py.Ok None)
    /\ (forall l k, lrud_float py_float l (List.length l + k) = Py.Ok 0%float)
    /\ (forall l k, note_field l (List.length l + k) = Py.Ok "").
Proof.
  intros py_float.
  split; [apply process_shots_ok | ].
  split; [apply survey_submit_try_no_index_error | ].
  split; [apply optional_float_no_index_error | ].
  split; [apply lrud_float_no_index_error | ].
  split.
  { intros l i. destruct (note_field_ok l i) as [s Hs]. rewrite Hs.
    unfold Py.no_index_error. congruence. }
  split; [apply optional_float_beyond | ].
  split; [apply lrud_float_beyond | apply note_field_beyond].
Qed.

(** ** Variance *)

(** C4: a row that is kept and parses binds the variance locals: with both
    azimuths present, [azimuth_variance] is min(|d-180|, |d-180+360|,
    |d-180-360|) with d = |fs - bs| (0 for 45/225, 5 for 45/220); with both
    inclinations present, [incline_variance] is |fs + bs|. Neither value
    reaches [validation_errors]: the row appends the messages of the range
    rules and nothing else, and a submission whose only shot has variances
    of 180 and 90 is accepted. *)
Theorem variance_is_computed_not_enforced :
  (forall (py_float : string -> Py.parsed) (c : shot_columns) (st : loop_state)
          (i : nat) (shot : shot),
      keep_row c i = Py.Ok true ->
      parse_row py_float c i = Py.Ok shot ->
      exists st',
        process_row py_float c st i = Py.Ok st'
        /\ (forall fs bs,
              azimuth_fs shot = Some fs -> azimuth_bs shot = Some bs ->
              azimuth_variance_local (locals st')
              = Some (let d := PrimFloat.abs (PrimFloat.sub fs bs) in
                      Py.min3
                        (PrimFloat.abs (PrimFloat.sub d 180))
                        (PrimFloat.abs (PrimFloat.add (PrimFloat.sub d 180) 360))
                        (PrimFloat.abs (PrimFloat.sub (PrimFloat.sub d 180) 360))))
        /\ (forall fs bs,
              inclination_fs shot = Some fs -> inclination_bs shot = Some bs ->
              incline_variance_local (locals st')
              = Some (PrimFloat.abs (PrimFloat.add fs bs)))
        /\ validation_errors st'
           = validation_errors st ++ range_violations (i + 1) shot
        /\ survey_shots st' = survey_shots st ++ [shot]
        /\ valid_shot_count st' = S (valid_shot_count st))
  /\ (exists st,
        process_shots Sample.integer_float
          (extract_columns (Sample.azimuths "45" "225")) = Py.Ok st
        /\ azimuth_variance_local (locals st) = Some 0%float)
  /\ (exists st,
        process_shots Sample.integer_float
          (extract_columns (Sample.azimuths "45" "220")) = Py.Ok st
        /\ azimuth_variance_local (locals st) = Some 5%float)
  /\ (exists st,
        process_shots Sample.integer_float
          (extract_columns Sample.large_variance) = Py.Ok st
        /\ locals st = {| azimuth_variance_local := Some 180%float;
                          incline_variance_local := Some 90%float |}
        /\ validation_errors st = [])
  /\ fst (survey_submit Sample.integer_float Sample.large_variance Store.empty)
     = {| flashed := [(SubmittedSuccessfully "Test Cave" 1, success)];
          location := dashboard |}.
Proof.
  split.
  { intros py_float c st i shot Hk Hp.
    unfold process_row. rewrite Hk. cbn [Py.bind]. rewrite Hp.
    eexists. split; [reflexivity | ]. cbn [locals validation_errors
      survey_shots valid_shot_count].
    split.
    { intros fs bs Hf Hb. unfold validate_shot, variance_blocks.
      rewrite Hf, Hb.
      destruct (inclination_fs shot), (inclination_bs shot); reflexivity. }
    split.
    { intros fs bs Hf Hb. unfold validate_shot, variance_blocks.
      rewrite Hf, Hb.
      destruct (azimuth_fs shot), (azimuth_bs shot); reflexivity. }
    split.
    { rewrite validate_shot_messages, shot_violations_range. reflexivity. }
    split; reflexivity. }
  split; [eexists; split; vm_compute; reflexivity | ].
  split; [eexists; split; vm_compute; reflexivity | ].
  split; [eexists; split; [ | split]; vm_compute; reflexivity | ].
  vm_compute. reflexivity.
Qed.

(** Row 0 of the shot with azimuths 45 and 220: the loop binds
    [azimuth_variance] to 5 and appends no message. *)
Lemma variance_is_computed_not_enforced_witness :
  exists st',
    process_row Sample.integer_float
      (extract_columns (Sample.azimuths "45" "220")) loop_start 0 = Py.Ok st'
    /\ azimuth_variance_local (locals st') = Some 5%float
    /\ validation_errors st' = [].
Proof.
  destruct (proj1 variance_is_computed_not_enforced Sample.integer_float
              (extract_columns (Sample.azimuths "45" "220")) loop_start 0
              {| from_station := "A1"; to_station := "A2";
                 distance := Some 10%float;
                 azimuth_fs := Some 45%float; azimuth_bs := Some 220%float;
                 inclination_fs := None; inclination_bs := None;
                 left := 0%float; right := 0%float;
                 up := 0%float; down := 0%float; note := "" |}
              eq_refl eq_refl)
    as [st' (E & A & _ & V & _)].
  exists st'. split; [exact E | ].
  split; [rewrite (A 45%float 220%float eq_refl eq_refl); reflexivity | ].
  rewrite V. reflexivity.
Defined.

(** ** Rejected submissions *)

Section Rejection.

Variable py_float : string -> Py.parsed.

Lemma materialized_keep_row : forall c i,
    Spec.materialized c i <> [] -> keep_row c i = Py.Ok true.
Proof.
  intros c i H. unfold Spec.materialized in H. unfold keep_row.
  destruct (nth_error (from_stations c) i) as [f | ] eqn:Nf; [ | contradiction].
  destruct (nth_error (to_stations c) i) as [t | ] eqn:Nt; [ | contradiction].
  assert (Lt : i < List.length (to_stations c)).
  { apply nth_error_Some. congruence. }
  apply Nat.ltb_lt in Lt. rewrite Lt. unfold Py.index. rewrite Nf, Nt. simpl.
  destruct (Py.truthy (Py.strip f)); simpl in *; [ | contradiction].
  destruct (Py.truthy (Py.strip t)); simpl in *; [reflexivity | contradiction].
Qed.

Lemma materialized_in_range : forall c i,
    Spec.materialized c i <> [] -> i < List.length (from_stations c).
Proof.
  intros c i H. unfold Spec.materialized in H. apply nth_error_Some.
  destruct (nth_error (from_stations c) i); [discriminate | contradiction].
Qed.

Lemma not_a_number_optional : forall l i,
    Spec.not_a_number py_float l i ->
    exists msg, optional_float py_float l i = Py.Raise (Py.ValueError msg).
Proof.
  intros l i [s [msg [N [T P]]]]. exists msg. unfold optional_float.
  assert (Lt : i < List.length l) by (apply nth_error_Some; congruence).
  apply Nat.ltb_lt in Lt. rewrite Lt. unfold Py.index. rewrite N. simpl.
  rewrite T, P. reflexivity.
Qed.

Lemma not_a_number_lrud : forall l i,
    Spec.not_a_number py_float l i ->
    exists msg, lrud_float py_float l i = Py.Raise (Py.ValueError msg).
Proof.
  intros l i [s [msg [N [T P]]]]. exists msg. unfold lrud_float.
  assert (Lt : i < List.length l) by (apply nth_error_Some; congruence).
  apply Nat.ltb_lt in Lt. rewrite Lt. unfold Py.index. rewrite N. simpl.
  rewrite T, P. reflexivity.
Qed.

(** A row with a refused field does not parse. *)
Lemma not_a_number_parse_row : forall c i l shot,
    In l (Spec.optional_columns c ++ Spec.lrud_columns c) ->
    Spec.not_a_number py_float l i ->
    parse_row py_float c i <> Py.Ok shot.
Proof.
  intros c i l shot Hl Hn P.
  destruct (parse_row_ok_inv py_float c i shot P)
    as (P1 & P2 & P3 & P4 & P5 & P6 & P7 & P8 & P9 & _).
  simpl in Hl.
  repeat match type of Hl with
         | _ \/ _ => destruct Hl as [<- | Hl]
         end; try contradiction;
    first [ destruct (not_a_number_optional _ i Hn) as [msg E]
          | idtac ];
    try congruence;
    destruct (not_a_number_lrud _ i Hn) as [msg' E']; congruence.
Qed.

Lemma required_header_missing_violation : forall f,
    Spec.required_header_missing f = true ->
    first_header_violation py_float f <> None.
Proof.
  intros f H. unfold Spec.required_header_missing in H.
  unfold first_header_violation.
  repeat match goal with
         | |- context [if negb ?b then _ else _] =>
             destruct b; simpl in *; [ | discriminate]
         end.
  discriminate.
Qed.

Lemma flat_map_all_nil : forall (A B : Type) (g : A -> list B) (l : list A),
    (forall a, g a = []) -> flat_map g l = [].
Proof.
  intros A B g l H. induction l as [ | a l IH]; simpl.
  - reflexivity.
  - rewrite H, IH. reflexivity.
Qed.

(** Each cause of the list sends the handler back to the form. *)
Lemma rejection_cause_rejects : forall form db,
    Spec.rejection_cause py_float form ->
    location (fst (survey_submit py_float form db)) = survey_form.
Proof.
  intros form db Hc.
  destruct (survey_submit_cases py_float form db)
    as [[flashes E] | [st [db' (Hh & Hs & He & Hn & _ & _)]]].
  { rewrite E. reflexivity. }
  exfalso. unfold process_shots in Hs.
  destruct (process_rows_clean py_float _ _ _ _ Hs He) as (_ & _ & Cn & Ck).
  destruct Hc as [Hm | i l Hk Hl Hnan | i shot r Hk Hp Hr | Hz].
  - exact (required_header_missing_violation _ Hm Hh).
  - destruct (Ck i) as [shot [P _]].
    + apply in_seq. pose proof (materialized_in_range _ _ Hk). lia.
    + apply materialized_keep_row. exact Hk.
    + exact (not_a_number_parse_row _ _ _ _ Hl Hnan P).
  - destruct (Ck i) as [shot' [P V]].
    + apply in_seq. pose proof (materialized_in_range _ _ Hk). lia.
    + apply materialized_keep_row. exact Hk.
    + assert (shot' = shot) by congruence. subst shot'.
      rewrite shot_violations_range in V.
      apply (in_range_violations (i + 1)) in Hr. rewrite V in Hr. exact Hr.
  - rewrite (flat_map_all_nil _ _ _ _ Hz) in Cn. simpl in Cn.
    apply Hn. rewrite Cn. reflexivity.
Qed.

Lemma rejected_rows_unchanged : forall form db,
    location (fst (survey_submit py_float form db)) = survey_form ->
    snd (survey_submit py_float form db) = db.
Proof.
  intros form db H.
  destruct (survey_submit_cases py_float form db)
    as [[flashes E] | [st [db' (_ & _ & _ & _ & _ & E)]]].
  - rewrite E. reflexivity.
  - rewrite E in H. simpl in H. discriminate.
Qed.

(** What an accepted submission stores. *)
Lemma accepted_rows : forall form db,
    location (fst (survey_submit py_float form db)) = dashboard ->
    exists l fs bs ifs ibs,
      map Spec.stations l
      = flat_map (Spec.materialized (extract_columns form))
          (seq 0 (List.length (from_stations (extract_columns form))))
      /\ l <> []
      /\ snd (survey_submit py_float form db)
         = write_rows (extract_fields form) fs bs ifs ibs l db
      /\ fst (survey_submit py_float form db)
         = {| flashed :=
                [(SubmittedSuccessfully (cave_name (extract_fields form))
                    (List.length l), success)];
              location := dashboard |}.
Proof.
  intros form db H.
  destruct (survey_submit_cases py_float form db)
    as [[flashes E] | [st [db' (_ & Hs & He & Hn & Hp & E)]]].
  { rewrite E in H. simpl in H. discriminate. }
  destruct (persist_ok_inv py_float _ _ _ _ Hp) as [fs [bs [ifs [ibs Hw]]]].
  exists (survey_shots st), fs, bs, ifs, ibs.
  unfold process_shots in Hs.
  destruct (process_rows_clean py_float _ _ _ _ Hs He) as (_ & Sm & _ & _).
  pose proof (process_rows_count py_float _ _ _ _ Hs eq_refl) as Cn.
  simpl in Sm. rewrite E. simpl. rewrite <- Cn.
  repeat split; try assumption.
  intros Z. rewrite Z in Cn. simpl in Cn. contradiction.
Qed.

End Rejection.

(** C2: a submission sent back to the form leaves every table as it was,
    and each listed cause (a required header field missing, a shot field
    that is not a number, a shot rule broken, no shot kept) sends the
    submission back to the form. *)
Theorem rejected_submission_writes_nothing :
  forall (py_float : string -> Py.parsed) (form : Py.MultiDict) (db : database),
    (location (fst (survey_submit py_float form db)) = survey_form ->
     snd (survey_submit py_float form db) = db)
    /\ (Spec.rejection_cause py_float form ->
        location (fst (survey_submit py_float form db)) = survey_form
        /\ snd (survey_submit py_float form db) = db).
Proof.
  intros py_float form db. split.
  - apply rejected_rows_unchanged.
  - intros Hc. pose proof (rejection_cause_rejects py_float form db Hc) as R.
    split; [exact R | apply rejected_rows_unchanged; exact R].
Qed.

(** The scenario without a compass id, sent over the rows the scenario
    itself has stored: rejected, and the rows are still those. *)
Lemma rejected_submission_writes_nothing_witness :
  let db := snd (survey_submit Sample.integer_float Sample.scenario Store.empty) in
  Spec.rejection_cause Sample.integer_float Sample.no_compass_id
  /\ location (fst (survey_submit Sample.integer_float Sample.no_compass_id db))
     = survey_form
  /\ snd (survey_submit Sample.integer_float Sample.no_compass_id db) = db.
Proof.
  assert (C : Spec.rejection_cause Sample.integer_float Sample.no_compass_id).
  { apply Spec.header_field_missing. vm_compute. reflexivity. }
  split; [exact C | ].
  exact (proj2 (rejected_submission_writes_nothing Sample.integer_float
                  Sample.no_compass_id
                  (snd (survey_submit Sample.integer_float Sample.scenario
                          Store.empty))) C).
Defined.

(** ** Which rows become shots *)

Lemma raw_field_ok : forall l i, raw_field l i = Py.Ok (nth i l "").
Proof.
  intros l i. unfold raw_field.
  destruct (i <? List.length l)%nat eqn:E.
  - apply Nat.ltb_lt in E. destruct (index_lt _ l i E) as [s [N Hs]].
    rewrite Hs. f_equal. symmetry. apply nth_error_nth. exact N.
  - apply Nat.ltb_ge in E. rewrite nth_overflow by exact E. reflexivity.
Qed.

Lemma edit_row_spec : forall c acc i,
    i < List.length (from_stations c) ->
    exists new,
      edit_row c acc i = Py.Ok (acc ++ new)
      /\ map Spec.edit_stations new = Spec.edit_materialized c i.
Proof.
  intros c acc i H. unfold edit_row, Spec.edit_materialized.
  destruct (index_lt _ _ i H) as [f [N Hf]]. rewrite Hf, N. simpl.
  destruct (Py.truthy (Py.strip f)).
  - rewrite !raw_field_ok. simpl. eexists. split; reflexivity.
  - exists []. rewrite app_nil_r. split; reflexivity.
Qed.

Lemma edit_rows_spec : forall c indices acc,
    (forall i, In i indices -> i < List.length (from_stations c)) ->
    exists new,
      edit_rows c indices acc = Py.Ok (acc ++ new)
      /\ map Spec.edit_stations new = flat_map (Spec.edit_materialized c) indices.
Proof.
  intros c indices. induction indices as [ | i rest IH]; intros acc H; simpl.
  - exists []. rewrite app_nil_r. split; reflexivity.
  - destruct (edit_row_spec c acc i) as [n1 [E1 M1]]; [apply H; left; reflexivity | ].
    rewrite E1. simpl.
    destruct (IH (acc ++ n1)) as [n2 [E2 M2]]; [intros j Hj; apply H; right; exact Hj | ].
    exists (n1 ++ n2). rewrite E2, <- app_assoc, map_app, M1, M2.
    split; reflexivity.
Qed.

Lemma build_edit_shots_spec : forall c,
    exists l,
      build_edit_shots c = Py.Ok l
      /\ map Spec.edit_stations l
         = flat_map (Spec.edit_materialized c)
             (seq 0 (List.length (from_stations c))).
Proof.
  intros c. unfold build_edit_shots.
  destruct (edit_rows_spec c (seq 0 (List.length (from_stations c))) [])
    as [l [E M]].
  - intros i Hi. apply in_seq in Hi. lia.
  - exists l. split; assumption.
Qed.

(** C3, as the code has it: an accepted submission stores, in the header's
    shot list and in the [shots] table, exactly the rows whose from_station
    and to_station are both non-empty after trimming; the edit flow builds
    its shot list from exactly the rows whose from_station is non-empty
    after trimming, whatever the to_station. *)
Theorem shot_materialization :
  forall (py_float : string -> Py.parsed) (form : Py.MultiDict) (db : database),
    let c := extract_columns form in
    let indices := seq 0 (List.length (from_stations c)) in
    (location (fst (survey_submit py_float form db)) = dashboard ->
     exists l header rows,
       map Spec.stations l = flat_map (Spec.materialized c) indices
       /\ survey_header (snd (survey_submit py_float form db))
          = survey_header db ++ [header]
       /\ h_survey_shots_json header = JArray (map json_of_shot l)
       /\ shots (snd (survey_submit py_float form db)) = shots db ++ rows
       /\ map (fun r => (station_from r, station_to r)) rows
          = flat_map (Spec.materialized c) indices)
    /\ (exists l,
          build_edit_shots c = Py.Ok l
          /\ map Spec.edit_stations l
             = flat_map (Spec.edit_materialized c) indices).
Proof.
  intros py_float form db c indices. split.
  - intros H.
    destruct (accepted_rows py_float form db H)
      as [l [fs [bs [ifs [ibs (M & _ & W & _)]]]]].
    destruct (write_rows_tables (extract_fields form) fs bs ifs ibs l db)
      as (T1 & _ & _ & [rows (T4 & T5 & _)] & _).
    exists l. eexists. exists rows. rewrite W.
    split; [exact M | ].
    split; [exact T1 | ].
    split; [reflexivity | ].
    split; [exact T4 | ].
    rewrite T5. exact M.
  - apply build_edit_shots_spec.
Qed.

(** Rows A1 -> A2 and A2 -> (blank): the submission stores one shot. *)
Lemma shot_materialization_witness :
  let r := survey_submit Sample.integer_float Sample.two_rows Store.empty in
  let c := extract_columns Sample.two_rows in
  flat_map (Spec.materialized c) (seq 0 (List.length (from_stations c)))
  = [("A1", "A2")]
  /\ exists l header rows,
       map Spec.stations l
       = flat_map (Spec.materialized c) (seq 0 (List.length (from_stations c)))
       /\ survey_header (snd r) = survey_header Store.empty ++ [header]
       /\ h_survey_shots_json header = JArray (map json_of_shot l)
       /\ shots (snd r) = shots Store.empty ++ rows
       /\ map (fun r => (station_from r, station_to r)) rows
          = flat_map (Spec.materialized c) (seq 0 (List.length (from_stations c))).
Proof.
  split; [vm_compute; reflexivity | ].
  apply (proj1 (shot_materialization Sample.integer_float Sample.two_rows
                  Store.empty)).
  vm_compute. reflexivity.
Defined.

(** The same two rows in the edit flow: the list the handler builds has
    two shots, the second with a blank to_station, where the invariant
    keeps one. *)
Lemma edit_flow_keeps_blank_to_station :
  let c := extract_columns Sample.two_rows in
  (exists l, build_edit_shots c = Py.Ok l
             /\ map Spec.edit_stations l = [("A1", "A2"); ("A2", "")])
  /\ flat_map (Spec.materialized c) (seq 0 (List.length (from_stations c)))
     = [("A1", "A2")].
Proof.
  split; [ | vm_compute; reflexivity].
  eexists. split; vm_compute; reflexivity.
Qed.

(** ** What a rejected submission is told *)

Section Reporting.

Variable py_float : string -> Py.parsed.

(** The handler stops at the first header check that fails. *)
Lemma first_header_violation_is_head : forall f,
    first_header_violation py_float f
    = hd_error (Spec.header_violations py_float f).
Proof.
  intros f. unfold first_header_violation, Spec.header_violations.
  repeat match goal with
         | |- context [if negb ?b then _ else _] =>
             destruct b; simpl; [ | reflexivity]
         end.
  repeat match goal with
         | |- context [check_reading ?a ?b ?c ?d ?e] =>
             destruct (check_reading a b c d e); simpl; [reflexivity | ]
         end.
  reflexivity.
Qed.

Lemma header_violation_reported : forall form db m,
    first_header_violation py_float (extract_fields form) = Some m ->
    survey_submit py_float form db = (rejected m, db).
Proof.
  intros form db m H. unfold survey_submit, survey_submit_try. rewrite H.
  reflexivity.
Qed.

Lemma shot_errors_reported : forall form db st,
    first_header_violation py_float (extract_fields form) = None ->
    process_shots py_float (extract_columns form) = Py.Ok st ->
    validation_errors st <> [] ->
    survey_submit py_float form db
    = ({| flashed := report_errors (validation_errors st);
          location := survey_form |}, db).
Proof.
  intros form db st Hh Hs He. unfold survey_submit, survey_submit_try.
  rewrite Hh, Hs. simpl.
  destruct (validation_errors st); [contradiction | reflexivity].
Qed.

End Reporting.

(** C6, as the code has it: the handler returns at the first header check
    that fails, so of the header-level violations only the first is
    surfaced, alone; when the header passes and the shot loop has collected
    errors, the first five are surfaced, followed, when there are more than
    five, by one message that counts the others. *)
Theorem violations_reported :
  forall (py_float : string -> Py.parsed) (form : Py.MultiDict) (db : database),
    let f := extract_fields form in
    let r := fst (survey_submit py_float form db) in
    first_header_violation py_float f
    = hd_error (Spec.header_violations py_float f)
    /\ (forall m,
          first_header_violation py_float f = Some m ->
          r = {| flashed := [(m, error)]; location := survey_form |})
    /\ (forall st,
          first_header_violation py_float f = None ->
          process_shots py_float (extract_columns form) = Py.Ok st ->
          validation_errors st <> [] ->
          r = {| flashed :=
                   map (fun m => (m, error)) (firstn 5 (validation_errors st))
                   ++ (if (5 <? List.length (validation_errors st))%nat
                       then [(MoreValidationErrors
                                (List.length (validation_errors st) - 5), error)]
                       else []);
                 location := survey_form |}).
Proof.
  intros py_float form db f r. subst f r.
  split; [apply first_header_violation_is_head | ].
  split.
  - intros m H. rewrite (header_violation_reported py_float form db m H).
    reflexivity.
  - intros st Hh Hs He.
    rewrite (shot_errors_reported py_float form db st Hh Hs He). reflexivity.
Qed.

(** Six rows of distance -1 under a complete header: five messages and the
    count of the sixth. *)
Lemma violations_reported_witness :
  fst (survey_submit Sample.integer_float Sample.six_bad_rows Store.empty)
  = {| flashed :=
         [ (ShotViolation 1 NegativeDistance, error);
           (ShotViolation 2 NegativeDistance, error);
           (ShotViolation 3 NegativeDistance, error);
           (ShotViolation 4 NegativeDistance, error);
           (ShotViolation 5 NegativeDistance, error);
           (MoreValidationErrors 1, error) ];
       location := survey_form |}.
Proof.
  pose proof (proj2 (proj2 (violations_reported Sample.integer_float
                              Sample.six_bad_rows Store.empty))) as T.
  destruct (process_shots_ok Sample.integer_float
              (extract_columns Sample.six_bad_rows)) as [st Hs].
  specialize (T st ltac:(vm_compute; reflexivity) Hs).
  vm_compute in Hs. injection Hs as <-.
  apply T. discriminate.
Defined.

(** An empty form breaks every header rule that asks for a field; the
    handler surfaces the first one only. *)
Lemma only_first_header_violation_surfaced :
  In SurveyDateRequired
     (Spec.header_violations Sample.integer_float (extract_fields []))
  /\ In CompassIdRequired
       (Spec.header_violations Sample.integer_float (extract_fields []))
  /\ flashed (fst (survey_submit Sample.integer_float [] Store.empty))
     = [(CaveNameRequired, error)].
Proof.
  split; [vm_compute; tauto | ].
  split; [vm_compute; tauto | vm_compute; reflexivity].
Qed.

(** ** Resolve or create *)

Lemma find_filter_nil : forall (A : Type) (p : A -> bool) (l : list A),
    find p l = None <-> filter p l = [].
Proof.
  intros A p l. induction l as [ | a l IH]; simpl.
  - tauto.
  - destruct (p a); [split; discriminate | exact IH].
Qed.

Lemma resolve_key_count : forall rows name location,
    List.length (Spec.caves_with name location (Spec.resolve_key rows name location))
    = Nat.max 1 (List.length (Spec.caves_with name location rows)).
Proof.
  intros rows name location. unfold Spec.resolve_key, Spec.caves_with.
  destruct (find _ rows) as [c | ] eqn:F.
  - destruct (filter _ rows) as [ | x l] eqn:E.
    + apply find_filter_nil in E. congruence.
    + simpl. reflexivity.
  - apply find_filter_nil in F. rewrite filter_app, F. simpl.
    rewrite !String.eqb_refl. reflexivity.
Qed.

Lemma resolve_key_length : forall rows name location,
    List.length (Spec.resolve_key rows name location) <= S (List.length rows).
Proof.
  intros rows name location. unfold Spec.resolve_key.
  destruct (find _ rows); [lia | rewrite length_app; simpl; lia].
Qed.

(** Resolving a key that was just resolved adds no row. *)
Lemma resolve_key_idempotent : forall rows name location,
    Spec.resolve_key (Spec.resolve_key rows name location) name location
    = Spec.resolve_key rows name location.
Proof.
  intros rows name location.
  pose proof (resolve_key_count rows name location) as C.
  unfold Spec.resolve_key at 1.
  destruct (find _ (Spec.resolve_key rows name location)) eqn:F; [reflexivity | ].
  apply find_filter_nil in F. unfold Spec.caves_with in C. rewrite F in C.
  simpl in C. destruct (List.length (filter _ rows)); discriminate.
Qed.

Lemma resolve_name_count : forall rows m n,
    List.length (Spec.people_named n (Spec.resolve_name rows m))
    = if String.eqb m n
      then Nat.max 1 (List.length (Spec.people_named n rows))
      else List.length (Spec.people_named n rows).
Proof.
  intros rows m n. unfold Spec.resolve_name, Spec.people_named.
  destruct (find _ rows) as [p | ] eqn:F.
  - destruct (String.eqb m n) eqn:E; [ | reflexivity].
    apply String.eqb_eq in E. subst n.
    destruct (filter _ rows) as [ | x l] eqn:G.
    + apply find_filter_nil in G. congruence.
    + reflexivity.
  - rewrite filter_app. simpl. destruct (String.eqb m n) eqn:E.
    + apply String.eqb_eq in E. subst n.
      apply find_filter_nil in F. rewrite F. reflexivity.
    + rewrite app_nil_r. reflexivity.
Qed.

Lemma resolve_name_length : forall rows m,
    List.length (Spec.resolve_name rows m) <= S (List.length rows).
Proof.
  intros rows m. unfold Spec.resolve_name.
  destruct (find _ rows); [lia | rewrite length_app; simpl; lia].
Qed.

(** ** The end-to-end scenario *)

Section Scenario.

Variable py_float : string -> Py.parsed.
Hypothesis float_10 : py_float "10" = Py.Parsed 10%float.
Hypothesis float_90 : py_float "90" = Py.Parsed 90%float.
Hypothesis float_0 : py_float "0" = Py.Parsed 0%float.

Lemma scenario_shots :
  process_shots py_float (extract_columns Sample.scenario)
  = Py.Ok {| survey_shots :=
               [ {| from_station := "A1"; to_station := "A2";
                    distance := Some 10%float;
                    azimuth_fs := Some 90%float; azimuth_bs := None;
                    inclination_fs := Some 0%float; inclination_bs := None;
                    left := 0%float; right := 0%float;
                    up := 0%float; down := 0%float; note := "" |} ];
             valid_shot_count := 1;
             validation_errors := [];
             locals :=
               {| azimuth_variance_local := None;
                  incline_variance_local := None |} |}.
Proof.
  vm_compute. rewrite float_10, float_90, float_0. vm_compute. reflexivity.
Qed.

Lemma scenario_accepted : forall db,
    location (fst (survey_submit py_float Sample.scenario db)) = dashboard.
Proof.
  intros db. unfold survey_submit, survey_submit_try.
  replace (first_header_violation py_float (extract_fields Sample.scenario))
    with (@None message) by (vm_compute; reflexivity).
  rewrite scenario_shots. reflexivity.
Qed.


Lemma scenario_result : forall db,
    survey_submit py_float Sample.scenario db
    = ({| flashed := [(SubmittedSuccessfully "Test Cave" 1, success)];
          location := dashboard |},
       write_rows (extract_fields Sample.scenario)
         SqlNull SqlNull SqlNull SqlNull
         [ {| from_station := "A1"; to_station := "A2";
              distance := Some 10%float;
              azimuth_fs := Some 90%float; azimuth_bs := None;
              inclination_fs := Some 0%float; inclination_bs := None;
              left := 0%float; right := 0%float;
              up := 0%float; down := 0%float; note := "" |} ] db).
Proof.
  intros db. unfold survey_submit, survey_submit_try.
  replace (first_header_violation py_float (extract_fields Sample.scenario))
    with (@None message) by (vm_compute; reflexivity).
  rewrite scenario_shots. reflexivity.
Qed.

End Scenario.

(** C7: the scenario (header naming A to E, one shot A1 -> A2) is accepted
    with shot count 1 and adds one header row, one normalized survey, one
    shot row; the cave is resolved or created under ("Test Cave", ""), so
    one row carries that key where none did; each of the four team-role
    names A, B, C, D is resolved or created by exact full name (one Person
    row where none had the name, no second row where one had it) and gets
    one team-assignment row; the trip leader E is kept in the header row
    and gets neither a Person row nor a team-assignment row; at most 4
    Person rows are added. *)
Theorem scenario_end_to_end :
  forall (py_float : string -> Py.parsed) (db : database),
    py_float "10" = Py.Parsed 10%float ->
    py_float "90" = Py.Parsed 90%float ->
    py_float "0" = Py.Parsed 0%float ->
    let r := survey_submit py_float Sample.scenario db in
    fst r = {| flashed := [(SubmittedSuccessfully "Test Cave" 1, success)];
               location := dashboard |}
    /\ List.length (survey_header (snd r)) = S (List.length (survey_header db))
    /\ List.length (surveys (snd r)) = S (List.length (surveys db))
    /\ List.length (shots (snd r)) = S (List.length (shots db))
    /\ caves (snd r) = Spec.resolve_key (caves db) "Test Cave" ""
    /\ List.length (Spec.caves_with "Test Cave" "" (caves (snd r)))
       = Nat.max 1 (List.length (Spec.caves_with "Test Cave" "" (caves db)))
    /\ people (snd r)
       = fold_left Spec.resolve_name ["A"; "B"; "C"; "D"] (people db)
    /\ (forall n, In n ["A"; "B"; "C"; "D"] ->
        List.length (Spec.people_named n (people (snd r)))
        = Nat.max 1 (List.length (Spec.people_named n (people db))))
    /\ List.length (Spec.people_named "E" (people (snd r)))
       = List.length (Spec.people_named "E" (people db))
    /\ trip_leader (extract_fields Sample.scenario) = "E"
    /\ List.length (people (snd r)) <= List.length (people db) + 4
    /\ (exists rows,
          survey_team (snd r) = survey_team db ++ rows
          /\ map (fun t => (role t, display_name t)) rows
             = [ ("sketch_book", "A"); ("foresight", "B");
                 ("backsight", "C"); ("other", "D") ]).
Proof.
  intros py_float db H10 H90 H0 r. subst r.
  rewrite (scenario_result py_float H10 H90 H0 db). cbn [fst snd].
  match goal with
  | |- context [write_rows ?f ?a ?b ?c ?d ?l db] =>
      destruct (write_rows_tables f a b c d l db)
        as (T1 & T2 & [cid [id T3]] & [rows (T4 & T5 & _)] & T6 & [team (T7 & T8)])
  end.
  replace (cave_name (extract_fields Sample.scenario)) with "Test Cave" in T2
    by (vm_compute; reflexivity).
  replace (cave_location (extract_fields Sample.scenario)) with "" in T2
    by (vm_compute; reflexivity).
  replace (map snd (Spec.named_roles (team_roles (extract_fields Sample.scenario))))
    with ["A"; "B"; "C"; "D"] in T6 by (vm_compute; reflexivity).
  replace (Spec.named_roles (team_roles (extract_fields Sample.scenario)))
    with [ ("sketch_book", "A"); ("foresight", "B");
           ("backsight", "C"); ("other", "D") ] in T8
    by (vm_compute; reflexivity).
  split; [reflexivity | ].
  split; [rewrite T1, length_app; simpl; lia | ].
  split; [rewrite T3, length_app; simpl; lia | ].
  split.
  { rewrite T4, length_app. apply (f_equal (@List.length _)) in T5.
    rewrite !length_map in T5. rewrite T5. simpl. lia. }
  split; [exact T2 | ].
  split; [rewrite T2; apply resolve_key_count | ].
  split; [exact T6 | ].
  split.
  { intros n Hn. rewrite T6. simpl. rewrite !resolve_name_count.
    simpl in Hn.
    repeat match type of Hn with
           | _ \/ _ => destruct Hn as [<- | Hn]
           end; try contradiction; simpl;
      destruct (List.length (Spec.people_named _ (people db))); reflexivity. }
  split.
  { rewrite T6. simpl. rewrite !resolve_name_count. reflexivity. }
  split; [vm_compute; reflexivity | ].
  split.
  { rewrite T6. simpl.
    pose proof (resolve_name_length (people db) "A").
    pose proof (resolve_name_length (Spec.resolve_name (people db) "A") "B").
    pose proof (resolve_name_length
                  (Spec.resolve_name (Spec.resolve_name (people db) "A") "B") "C").
    pose proof (resolve_name_length
                  (Spec.resolve_name
                     (Spec.resolve_name (Spec.resolve_name (people db) "A") "B")
                     "C") "D").
    lia. }
  exists team. split; assumption.
Qed.

(** The scenario on an empty database: one row in each of the header,
    cave, survey and shot tables, and the four people A, B, C, D. *)
Lemma scenario_end_to_end_witness :
  let r := survey_submit Sample.integer_float Sample.scenario Store.empty in
  fst r = {| flashed := [(SubmittedSuccessfully "Test Cave" 1, success)];
             location := dashboard |}
  /\ List.length (survey_header (snd r)) = 1
  /\ List.length (surveys (snd r)) = 1
  /\ List.length (shots (snd r)) = 1
  /\ List.length (caves (snd r)) = 1
  /\ map full_name (people (snd r)) = ["A"; "B"; "C"; "D"]
  /\ List.length (survey_team (snd r)) = 4.
Proof.
  destruct (scenario_end_to_end Sample.integer_float Store.empty
              eq_refl eq_refl eq_refl) as (R & H1 & H2 & H3 & _).
  split; [exact R | ].
  split; [exact H1 | ].
  split; [exact H2 | ].
  split; [exact H3 | ].
  vm_compute. repeat split.
Defined.

(** The scenario on an empty database: the trip leader E is one of the five
    names of the header, and no Person row and no team-assignment row is
    made for E: four of each, not five. *)
Lemma trip_leader_gets_no_person_row :
  let r := survey_submit Sample.integer_float Sample.scenario Store.empty in
  map h_trip_leader (survey_header (snd r)) = ["E"]
  /\ Spec.people_named "E" (people (snd r)) = []
  /\ map display_name (survey_team (snd r)) = ["A"; "B"; "C"; "D"]
  /\ List.length (people (snd r)) = 4.
Proof.
  repeat split; vm_compute; reflexivity.
Qed.

(** ** Resolving the cave twice *)

Lemma cave_location_same : forall f1 f2,
    county f1 = county f2 -> state f1 = state f2 ->
    cave_location f1 = cave_location f2.
Proof.
  intros f1 f2 Hc Hs. unfold cave_location. rewrite Hc, Hs. reflexivity.
Qed.

(** C8: two accepted submissions in a row with the same cave name, county
    and state: the first resolves or creates the cave under (name,
    location_text), the second finds that row and adds none; where no row
    had the key, exactly one has it afterwards. *)
Theorem cave_resolve_or_create_idempotent :
  forall (py_float : string -> Py.parsed) (form1 form2 : Py.MultiDict)
         (db : database),
    cave_name (extract_fields form1) = cave_name (extract_fields form2) ->
    county (extract_fields form1) = county (extract_fields form2) ->
    state (extract_fields form1) = state (extract_fields form2) ->
    location (fst (survey_submit py_float form1 db)) = dashboard ->
    location (fst (survey_submit py_float form2
                     (snd (survey_submit py_float form1 db)))) = dashboard ->
    let name := cave_name (extract_fields form1) in
    let location_text := cave_location (extract_fields form1) in
    let db1 := snd (survey_submit py_float form1 db) in
    let db2 := snd (survey_submit py_float form2 db1) in
    caves db1 = Spec.resolve_key (caves db) name location_text
    /\ caves db2 = caves db1
    /\ List.length (Spec.caves_with name location_text (caves db2))
       = Nat.max 1 (List.length (Spec.caves_with name location_text (caves db)))
    /\ List.length (caves db2) <= S (List.length (caves db)).
Proof.
  intros py_float form1 form2 db Hn Hc Hs A1 A2 name location_text db1 db2.
  subst name location_text db1 db2.
  destruct (accepted_rows py_float form1 db A1)
    as [l1 [a1 [b1 [c1 [d1 (_ & _ & W1 & _)]]]]].
  destruct (accepted_rows py_float form2 _ A2)
    as [l2 [a2 [b2 [c2 [d2 (_ & _ & W2 & _)]]]]].
  rewrite W2.
  destruct (write_rows_tables (extract_fields form2) a2 b2 c2 d2 l2
              (snd (survey_submit py_float form1 db))) as (_ & T2 & _).
  rewrite T2. clear T2 W2. rewrite W1.
  destruct (write_rows_tables (extract_fields form1) a1 b1 c1 d1 l1 db)
    as (_ & T1 & _).
  rewrite T1. rewrite <- Hn.
  rewrite <- (cave_location_same _ _ Hc Hs).
  rewrite resolve_key_idempotent.
  split; [reflexivity | ].
  split; [reflexivity | ].
  split; [apply resolve_key_count | apply resolve_key_length].
Qed.

(** The scenario submitted twice to an empty database: one cave row. *)
Lemma cave_resolve_or_create_idempotent_witness :
  let db1 := snd (survey_submit Sample.integer_float Sample.scenario Store.empty) in
  let db2 := snd (survey_submit Sample.integer_float Sample.scenario db1) in
  caves db2 = caves db1
  /\ List.length (caves db2) = 1
  /\ List.length (surveys db2) = 2.
Proof.
  destruct (cave_resolve_or_create_idempotent Sample.integer_float
              Sample.scenario Sample.scenario Store.empty
              eq_refl eq_refl eq_refl eq_refl eq_refl) as (_ & H & _).
  split; [exact H | ].
  vm_compute. split; reflexivity.
Defined.

(** ** The edit flow *)

(** C9: no edit replaces the shot list of a header. An authenticated edit
    with a cave name and a survey date builds its shot list and then
    evaluates [cursor], a name nothing binds: the handler flashes "Error
    updating survey: name 'cursor' is not defined", redirects to the edit
    page and leaves every row of every table as it was, the header's shot
    list included; the normalized tables are unchanged on every path.
    Survey 1 of the scenario, edited with two rows, keeps its one shot. *)
Theorem edit_replaces_nothing :
  forall (admin_authenticated : bool) (survey_id : nat) (form : Py.MultiDict)
         (db : database),
    let f := extract_fields form in
    let r := admin_survey_update admin_authenticated survey_id form db in
    snd r = db
    /\ (admin_authenticated = true ->
        Py.truthy (cave_name f) = true ->
        Py.truthy (survey_date f) = true ->
        (exists l, build_edit_shots (extract_columns form) = Py.Ok l)
        /\ fst r = {| flashed :=
                        [(UpdateError "name 'cursor' is not defined", error)];
                      location := admin_survey_edit survey_id |})
    /\ message_text (UpdateError "name 'cursor' is not defined")
       = "Error updating survey: name 'cursor' is not defined"
    /\ (let stored :=
          snd (survey_submit Sample.integer_float Sample.scenario Store.empty) in
        let edited := snd (admin_survey_update true 1 Sample.two_rows stored) in
        exists l,
          build_edit_shots (extract_columns Sample.two_rows) = Py.Ok l
          /\ List.length l = 2
          /\ map h_id (survey_header stored) = [1]
          /\ map h_survey_shots_json (survey_header edited)
             = map h_survey_shots_json (survey_header stored)
          /\ map h_survey_shots_json (survey_header edited)
             <> [JArray (map json_of_edit_shot l)]).
Proof.
  intros auth survey_id form db f r. subst f r.
  split.
  { unfold admin_survey_update, admin_survey_update_try.
    destruct (build_edit_shots_spec (extract_columns form)) as [l [E _]].
    rewrite E. destruct auth; [ | reflexivity].
    destruct (Py.truthy (cave_name (extract_fields form))),
      (Py.truthy (survey_date (extract_fields form))); reflexivity. }
  split.
  { intros -> Hn Hd.
    destruct (build_edit_shots_spec (extract_columns form)) as [l [E _]].
    split; [exists l; exact E | ].
    unfold admin_survey_update, admin_survey_update_try.
    rewrite E, Hn, Hd. reflexivity. }
  split; [reflexivity | ].
  eexists. split; [vm_compute; reflexivity | ].
  split; [reflexivity | ].
  split; [vm_compute; reflexivity | ].
  split; [vm_compute; reflexivity | ].
  vm_compute. discriminate.
Qed.

(** Survey 1, stored by the scenario, edited by a signed-in administrator
    with a cave name, a date and two rows: the error is flashed and the
    database is the one before the edit. *)
Lemma edit_replaces_nothing_witness :
  let db := snd (survey_submit Sample.integer_float Sample.scenario Store.empty) in
  admin_survey_update true 1 Sample.two_rows db
  = ({| flashed := [(UpdateError "name 'cursor' is not defined", error)];
        location := admin_survey_edit 1 |}, db).
Proof.
  intros db.
  destruct (edit_replaces_nothing true 1 Sample.two_rows db) as (F & U & _).
  destruct (U eq_refl eq_refl eq_refl) as [_ R].
  rewrite <- F at 2. rewrite <- R. apply surjective_pairing.
Defined.

(** ** What an accepted submission went through *)

Section Accepted.

Variable py_float : string -> Py.parsed.

Lemma persist_readings : forall f survey_shots db db',
    persist py_float f survey_shots db = Py.Ok db' ->
    exists fs bs ifs ibs,
      reading_value py_float (compass_frontsight f) = Py.Ok fs
      /\ reading_value py_float (compass_backsight f) = Py.Ok bs
      /\ reading_value py_float (inclinometer_frontsight f) = Py.Ok ifs
      /\ reading_value py_float (inclinometer_backsight f) = Py.Ok ibs
      /\ db' = write_rows f fs bs ifs ibs survey_shots db.
Proof.
  intros f survey_shots db db' H. unfold persist in H.
  apply bind_ok_inv in H. destruct H as [fs [E1 H]].
  apply bind_ok_inv in H. destruct H as [bs [E2 H]].
  apply bind_ok_inv in H. destruct H as [ifs [E3 H]].
  apply bind_ok_inv in H. destruct H as [ibs [E4 H]].
  injection H as <-. exists fs, bs, ifs, ibs. repeat split; assumption.
Qed.

(** Everything that holds of a submission that reached the dashboard. *)
Lemma accepted_inv : forall form db,
    location (fst (survey_submit py_float form db)) = dashboard ->
    exists st fs bs ifs ibs,
      first_header_violation py_float (extract_fields form) = None
      /\ process_shots py_float (extract_columns form) = Py.Ok st
      /\ validation_errors st = []
      /\ valid_shot_count st = List.length (survey_shots st)
      /\ survey_shots st <> []
      /\ reading_value py_float (compass_frontsight (extract_fields form)) = Py.Ok fs
      /\ reading_value py_float (compass_backsight (extract_fields form)) = Py.Ok bs
      /\ reading_value py_float (inclinometer_frontsight (extract_fields form))
         = Py.Ok ifs
      /\ reading_value py_float (inclinometer_backsight (extract_fields form))
         = Py.Ok ibs
      /\ survey_submit py_float form db
         = ({| flashed :=
                 [(SubmittedSuccessfully (cave_name (extract_fields form))
                     (List.length (survey_shots st)), success)];
               location := dashboard |},
            write_rows (extract_fields form) fs bs ifs ibs (survey_shots st) db).
Proof.
  intros form db H.
  destruct (survey_submit_cases py_float form db)
    as [[flashes E] | [st [db' (Hh & Hs & He & Hn & Hp & E)]]].
  { rewrite E in H. simpl in H. discriminate. }
  destruct (persist_readings _ _ _ _ Hp) as [fs [bs [ifs [ibs (R1 & R2 & R3 & R4 & W)]]]].
  pose proof (process_rows_count py_float _ _ _ _ Hs eq_refl) as Cn.
  exists st, fs, bs, ifs, ibs. rewrite E, <- Cn, <- W.
  repeat split; try assumption.
  intros Z. rewrite Z in Cn. simpl in Cn. contradiction.
Qed.

Lemma check_reading_passed : forall raw bad range_msg invalid_msg v,
    check_reading py_float raw bad range_msg invalid_msg = None ->
    reading_value py_float raw = Py.Ok v ->
    Spec.null_or_passing v bad.
Proof.
  intros raw bad rm im v C R. unfold check_reading in C.
  unfold reading_value in R. unfold Spec.null_or_passing.
  destruct raw as [s | ]; [ | left; congruence].
  destruct (Py.truthy s && Py.truthy (Py.strip s)); [ | left; congruence].
  destruct (py_float s) as [x | msg]; simpl in R; [ | discriminate].
  destruct (bad x) eqn:B; [discriminate | ].
  right. exists x. split; [congruence | exact B].
Qed.

Lemma header_passed_readings : forall f,
    first_header_violation py_float f = None ->
    check_reading py_float (compass_frontsight f)
      (fun v => PrimFloat.leb v 180 || PrimFloat.ltb 360 v)
      CompassFrontsightRange CompassFrontsightInvalid = None
    /\ check_reading py_float (compass_backsight f)
         (fun v => PrimFloat.ltb v 0 || PrimFloat.leb 180 v)
         CompassBacksightRange CompassBacksightInvalid = None
    /\ check_reading py_float (inclinometer_frontsight f)
         inclination_out_of_range
         InclinometerFrontsightRange InclinometerFrontsightInvalid = None
    /\ check_reading py_float (inclinometer_backsight f)
         inclination_out_of_range
         InclinometerBacksightRange InclinometerBacksightInvalid = None.
Proof.
  intros f H. unfold first_header_violation in H.
  repeat match type of H with
         | (if negb ?b then _ else _) = None =>
             destruct b; simpl in H; [ | discriminate]
         end.
  unfold or_else in H.
  repeat match type of H with
         | match ?c with Some _ => _ | None => _ end = None =>
             destruct c eqn:?; [discriminate | ]
         end.
  repeat split; assumption.
Qed.

End Accepted.

(** X1: the calibration readings an accepted submission stores in its
    header row are each NULL or a number that passed its range check:
    compass frontsight neither <= 180 nor > 360, compass backsight neither
    < 0 nor >= 180, inclinometer readings neither < -90 nor > 90. *)
Theorem stored_readings_in_range :
  forall (py_float : string -> Py.parsed) (form : Py.MultiDict) (db : database),
    location (fst (survey_submit py_float form db)) = dashboard ->
    exists row,
      survey_header (snd (survey_submit py_float form db))
      = survey_header db ++ [row]
      /\ Spec.null_or_passing (h_compass_frontsight row)
           (fun v => PrimFloat.leb v 180 || PrimFloat.ltb 360 v)
      /\ Spec.null_or_passing (h_compass_backsight row)
           (fun v => PrimFloat.ltb v 0 || PrimFloat.leb 180 v)
      /\ Spec.null_or_passing (h_inclinometer_frontsight row)
           (fun v => PrimFloat.ltb v (-90) || PrimFloat.ltb 90 v)
      /\ Spec.null_or_passing (h_inclinometer_backsight row)
           (fun v => PrimFloat.ltb v (-90) || PrimFloat.ltb 90 v).
Proof.
  intros py_float form db H.
  destruct (accepted_inv py_float form db H)
    as [st [fs [bs [ifs [ibs (Hh & _ & _ & _ & _ & R1 & R2 & R3 & R4 & E)]]]]].
  destruct (header_passed_readings py_float _ Hh) as (C1 & C2 & C3 & C4).
  rewrite E. cbn [snd].
  destruct (write_rows_tables (extract_fields form) fs bs ifs ibs
              (survey_shots st) db) as (T1 & _).
  eexists. split; [exact T1 | ]. cbn.
  split; [exact (check_reading_passed py_float _ _ _ _ _ C1 R1) | ].
  split; [exact (check_reading_passed py_float _ _ _ _ _ C2 R2) | ].
  split; [exact (check_reading_passed py_float _ _ _ _ _ C3 R3) | ].
  exact (check_reading_passed py_float _ _ _ _ _ C4 R4).
Qed.

(** The scenario with both compass readings given; accepted. *)
Lemma stored_readings_in_range_witness :
  let r := survey_submit Sample.integer_float Sample.calibrated Store.empty in
  location (fst r) = dashboard
  /\ exists row,
      survey_header (snd r) = survey_header Store.empty ++ [row]
      /\ Spec.null_or_passing (h_compass_frontsight row)
           (fun v => PrimFloat.leb v 180 || PrimFloat.ltb 360 v)
      /\ Spec.null_or_passing (h_compass_backsight row)
           (fun v => PrimFloat.ltb v 0 || PrimFloat.leb 180 v)
      /\ Spec.null_or_passing (h_inclinometer_frontsight row)
           (fun v => PrimFloat.ltb v (-90) || PrimFloat.ltb 90 v)
      /\ Spec.null_or_passing (h_inclinometer_backsight row)
           (fun v => PrimFloat.ltb v (-90) || PrimFloat.ltb 90 v).
Proof.
  split; [vm_compute; reflexivity | ].
  apply stored_readings_in_range. vm_compute. reflexivity.
Defined.

(** ** The two copies of the shots *)

Section Copies.

Variable py_float : string -> Py.parsed.

(** With no error at the end, every collected shot parsed from a row and
    broke no rule. *)
Lemma process_rows_clean_shots : forall c indices st st',
    process_rows py_float c indices st = Py.Ok st' ->
    validation_errors st' = [] ->
    forall s, In s (survey_shots st') ->
              In s (survey_shots st)
              \/ exists i, In i indices
                           /\ parse_row py_float c i = Py.Ok s
                           /\ shot_violations (i + 1) s = [].
Proof.
  intros c indices. induction indices as [ | i rest IH]; intros st st' H Hnil s Hs.
  - simpl in H. injection H as <-. left. exact Hs.
  - apply process_rows_cons in H. destruct H as [st1 [H1 H2]].
    destruct (process_rows_clean py_float c rest st1 st' H2 Hnil) as (N1 & _).
    destruct (IH st1 st' H2 Hnil s Hs) as [In1 | [j (Hj & Pj & Vj)]].
    + destruct (process_row_inv py_float c st i st1 H1)
        as [[_ ->] | [[shot [_ [P ->]]] | [e [_ [_ ->]]]]]; simpl in *.
      * left. exact In1.
      * apply app_eq_nil in N1. destruct N1 as [_ V].
        apply in_app_or in In1. destruct In1 as [In0 | [<- | []]].
        -- left. exact In0.
        -- right. exists i. split; [left; reflexivity | split; assumption].
      * left. exact In1.
    + right. exists j. split; [right; exact Hj | split; assumption].
Qed.

End Copies.

Lemma insert_shots_mirror : forall l db sid i,
    exists rows,
      shots (insert_shots db sid i l) = shots db ++ rows
      /\ map Spec.shot_of_row rows = l
      /\ map sequence_in_page rows = seq (i + 1) (List.length l)
      /\ (forall r, In r rows -> sh_survey_id r = sid).
Proof.
  induction l as [ | shot rest IH]; intros db sid i; simpl.
  - exists []. rewrite app_nil_r. repeat split. intros r [].
  - match goal with
    | |- context [insert_shots ?d sid (S i) rest] =>
        destruct (IH d sid (S i)) as [rows (H1 & H2 & H3 & H4)]
    end.
    eexists (_ :: rows). rewrite H1. simpl. rewrite <- app_assoc. simpl.
    split; [reflexivity | ]. simpl. rewrite H2, H3.
    replace (S i + 1) with (S (i + 1)) by lia.
    split; [destruct shot; reflexivity | ]. split; [reflexivity | ].
    intros r [<- | Hr]; [reflexivity | apply H4; exact Hr].
Qed.

Lemma fresh_id_above : forall ids id, In id ids -> id < fresh_id ids.
Proof.
  intros ids id H. unfold fresh_id.
  pose proof (proj1 (list_max_le ids (list_max ids)) (Nat.le_refl _)) as F.
  rewrite Forall_forall in F. specialize (F id H). lia.
Qed.

Lemma resolve_cave_ref : forall db name location db2 cid,
    resolve_cave db name location = (db2, cid) ->
    exists c, In c (caves db2) /\ cave_id c = cid
              /\ cave_name_col c = name /\ location_text c = location.
Proof.
  intros db name location db2 cid H. unfold resolve_cave, select_cave in H.
  destruct (find _ (caves db)) as [c | ] eqn:F.
  - injection H as <- <-. apply find_some in F. destruct F as [Hin Hp].
    apply andb_true_iff in Hp. destruct Hp as [Hn Hl].
    apply String.eqb_eq in Hn, Hl. exists c. repeat split; assumption.
  - unfold insert_cave in H. injection H as <- <-. simpl.
    eexists. split; [apply in_or_app; right; left; reflexivity | ].
    repeat split.
Qed.

Lemma resolve_name_incl : forall rows name p,
    In p rows -> In p (Spec.resolve_name rows name).
Proof.
  intros rows name p H. unfold Spec.resolve_name.
  destruct (find _ rows); [exact H | apply in_or_app; left; exact H].
Qed.

Lemma resolve_names_incl : forall names rows p,
    In p rows -> In p (fold_left Spec.resolve_name names rows).
Proof.
  induction names as [ | n names IH]; intros rows p H; simpl.
  - exact H.
  - apply IH. apply resolve_name_incl. exact H.
Qed.

Lemma resolve_person_ref : forall db name db1 pid,
    resolve_person db name = (db1, pid) ->
    exists p, In p (people db1) /\ person_id p = pid /\ full_name p = name.
Proof.
  intros db name db1 pid H. unfold resolve_person, select_person in H.
  destruct (find _ (people db)) as [p | ] eqn:F.
  - injection H as <- <-. apply find_some in F. destruct F as [Hin Hp].
    apply String.eqb_eq in Hp. exists p. repeat split; assumption.
  - unfold insert_person in H. injection H as <- <-. simpl.
    eexists. split; [apply in_or_app; right; left; reflexivity | ].
    split; reflexivity.
Qed.

Lemma add_team_member_ref : forall sid db entry,
    exists rows,
      survey_team (add_team_member sid db entry) = survey_team db ++ rows
      /\ forall t, In t rows ->
           t_survey_id t = sid
           /\ exists p,
                In p (people (add_team_member sid db entry))
                /\ person_id p = t_person_id t
                /\ full_name p = display_name t.
Proof.
  intros sid db [r n]. unfold add_team_member.
  destruct (Py.truthy n).
  - destruct (resolve_person db n) as [db1 pid] eqn:R.
    destruct (resolve_person_ref db n db1 pid R) as [p (Hin & Hid & Hname)].
    assert (F : survey_team db1 = survey_team db).
    { unfold resolve_person, select_person in R.
      destruct (find _ (people db)); injection R as <- <-; reflexivity. }
    eexists [_]. simpl. rewrite F. split; [reflexivity | ].
    intros t [<- | []]. simpl. split; [reflexivity | ].
    exists p. repeat split; assumption.
  - exists []. rewrite app_nil_r. split; [reflexivity | intros t []].
Qed.

Lemma team_loop_people_incl : forall sid entries db p,
    In p (people db) ->
    In p (people (fold_left (add_team_member sid) entries db)).
Proof.
  intros sid entries db p H. rewrite team_loop_people.
  apply resolve_names_incl. exact H.
Qed.

(** Each team row the loop adds points at a person of the final table who
    bears the displayed name. *)
Lemma team_loop_refs : forall sid entries db,
    exists rows,
      survey_team (fold_left (add_team_member sid) entries db)
      = survey_team db ++ rows
      /\ forall t, In t rows ->
           t_survey_id t = sid
           /\ exists p,
                In p (people (fold_left (add_team_member sid) entries db))
                /\ person_id p = t_person_id t
                /\ full_name p = display_name t.
Proof.
  intros sid entries. induction entries as [ | e rest IH]; intros db; simpl.
  - exists []. rewrite app_nil_r. split; [reflexivity | intros t []].
  - destruct (IH (add_team_member sid db e)) as [rows2 (H1 & H2)].
    destruct (add_team_member_ref sid db e) as [rows1 (G1 & G2)].
    exists (rows1 ++ rows2). rewrite H1, G1, <- app_assoc.
    split; [reflexivity | ].
    intros t Ht. apply in_app_or in Ht. destruct Ht as [Ht | Ht].
    + destruct (G2 t Ht) as (Hs & p & Hin & Hid & Hn).
      split; [exact Hs | ]. exists p. repeat split; try assumption.
      apply team_loop_people_incl. exact Hin.
    + apply H2. exact Ht.
Qed.

(** The rows [write_rows] adds, with the keys that tie them together. *)
Lemma write_rows_links : forall f fs bs ifs ibs l db,
    let db' := write_rows f fs bs ifs ibs l db in
    exists cave srow rows team,
      In cave (caves db')
      /\ cave_name_col cave = cave_name f
      /\ location_text cave = cave_location f
      /\ surveys db' = surveys db ++ [srow]
      /\ s_cave_id srow = cave_id cave
      /\ (forall old, In old (surveys db) -> survey_id old < survey_id srow)
      /\ shots db' = shots db ++ rows
      /\ map Spec.shot_of_row rows = l
      /\ map sequence_in_page rows = seq 1 (List.length l)
      /\ (forall r, In r rows -> sh_survey_id r = survey_id srow)
      /\ survey_team db' = survey_team db ++ team
      /\ (forall t, In t team ->
            t_survey_id t = survey_id srow
            /\ exists p, In p (people db')
                         /\ person_id p = t_person_id t
                         /\ full_name p = display_name t).
Proof.
  intros f fs bs ifs ibs l db db'. subst db'. unfold write_rows.
  unfold insert_header.
  set (db1 := with_survey_header db _).
  destruct (resolve_cave db1 (cave_name f) (cave_location f)) as [db2 cid] eqn:Rc.
  destruct (resolve_cave_ref _ _ _ _ _ Rc) as [cave (Cin & Cid & Cn & Cl)].
  assert (Fr : surveys db2 = surveys db /\ shots db2 = shots db
               /\ survey_team db2 = survey_team db).
  { unfold resolve_cave, select_cave in Rc. subst db1. simpl in Rc.
    destruct (find _ (caves db)); injection Rc as <- <-; simpl; repeat split. }
  destruct Fr as (F3 & F4 & F6).
  unfold insert_survey.
  set (sid := fresh_id (map survey_id (surveys db2))).
  set (db3 := with_surveys db2 _).
  destruct (team_loop_frame sid (team_roles f) (insert_shots db3 sid 0 l))
    as (_ & T2 & T3 & T4).
  destruct (insert_shots_frame l db3 sid 0) as (_ & S2 & S3 & _ & S5).
  destruct (insert_shots_mirror l db3 sid 0) as [rows (R1 & R2 & R3 & R4)].
  destruct (team_loop_refs sid (team_roles f) (insert_shots db3 sid 0 l))
    as [team (M1 & M2)].
  exists cave, (survey_of_submission f cid sid), rows, team.
  split. { rewrite T2, S2. subst db3. simpl. exact Cin. }
  split; [exact Cn | ]. split; [exact Cl | ].
  split. { rewrite T3, S3. subst db3. simpl. rewrite F3. reflexivity. }
  split; [simpl; symmetry; exact Cid | ].
  split.
  { intros old Hold. simpl. subst sid. rewrite F3.
    apply fresh_id_above. apply in_map. exact Hold. }
  split. { rewrite T4, R1. subst db3. simpl. rewrite F4. reflexivity. }
  split; [exact R2 | ]. split; [exact R3 | ]. split; [exact R4 | ].
  split. { rewrite M1, S5. subst db3. simpl. rewrite F6. reflexivity. }
  exact M2.
Qed.

(** X2: no shot an accepted submission stores is one the shot loop rejects:
    of every entry of the header's shot list, and of the [shots] row that
    carries it, each comparison of the loop is false (distance < 0, azimuth
    < 0 or >= 360, inclination < -90 or > 90, an LRUD value < 0, a station
    name of more than 20 characters). A stored shot whose angles are numbers
    therefore has its distance absent or not below 0, its azimuths absent or
    in [0, 360) and its inclinations absent or in [-90, 90]; an angle that
    is a NaN passes the comparisons, so the range is not promised of it. *)
Theorem stored_shots_break_no_rule :
  forall (py_float : string -> Py.parsed) (form : Py.MultiDict) (db : database),
    location (fst (survey_submit py_float form db)) = dashboard ->
    exists l header rows,
      survey_header (snd (survey_submit py_float form db))
      = survey_header db ++ [header]
      /\ h_survey_shots_json header = JArray (map json_of_shot l)
      /\ shots (snd (survey_submit py_float form db)) = shots db ++ rows
      /\ map Spec.shot_of_row rows = l
      /\ (forall s r, In s l -> ~ rule_fires r s)
      /\ (forall s r, In s l -> Spec.angles_are_numbers s = true ->
                      ~ Spec.out_of_range r s).
Proof.
  intros py_float form db H.
  destruct (accepted_inv py_float form db H)
    as [st [fs [bs [ifs [ibs (_ & Hs & He & _ & _ & _ & _ & _ & _ & E)]]]]].
  rewrite E. cbn [snd].
  destruct (write_rows_tables (extract_fields form) fs bs ifs ibs
              (survey_shots st) db) as (T1 & _).
  destruct (write_rows_links (extract_fields form) fs bs ifs ibs
              (survey_shots st) db)
    as [cave [srow [rows [team (_ & _ & _ & _ & _ & _ & L1 & L2 & _)]]]].
  exists (survey_shots st). eexists. exists rows.
  split; [exact T1 | ]. split; [reflexivity | ].
  split; [exact L1 | ]. split; [exact L2 | ].
  assert (A : forall s r, In s (survey_shots st) -> ~ rule_fires r s).
  { intros s r Hin Hb. unfold process_shots in Hs.
    destruct (process_rows_clean_shots py_float _ _ _ _ Hs He s Hin)
      as [[] | [i (_ & _ & V)]].
    rewrite shot_violations_range in V.
    apply (in_range_violations (i + 1)) in Hb. rewrite V in Hb. exact Hb. }
  split; [exact A | ].
  intros s r Hin Hn Ho. apply (A s r Hin).
  apply rule_fires_out_of_range; assumption.
Qed.

(** The scenario: its one stored shot passes every comparison, and its
    angles, which are numbers, are in range. *)
Lemma stored_shots_break_no_rule_witness :
  let r := survey_submit Sample.integer_float Sample.scenario Store.empty in
  location (fst r) = dashboard
  /\ exists l header rows,
      survey_header (snd r) = survey_header Store.empty ++ [header]
      /\ h_survey_shots_json header = JArray (map json_of_shot l)
      /\ shots (snd r) = shots Store.empty ++ rows
      /\ map Spec.shot_of_row rows = l
      /\ (forall s r, In s l -> ~ rule_fires r s)
      /\ (forall s r, In s l -> Spec.angles_are_numbers s = true ->
                      ~ Spec.out_of_range r s).
Proof.
  split; [vm_compute; reflexivity | ].
  apply stored_shots_break_no_rule. vm_compute. reflexivity.
Defined.

(** X3: the two copies an accepted submission writes agree: the rows it
    adds to [shots] carry, entry by entry and in order, the shots of the
    header's list; they are numbered 1, 2, ... in that order and all point
    at the one row it adds to [surveys], whose key no earlier survey has;
    the count in the success message is their number. *)
Theorem dual_write_agrees :
  forall (py_float : string -> Py.parsed) (form : Py.MultiDict) (db : database),
    location (fst (survey_submit py_float form db)) = dashboard ->
    exists l header srow rows,
      survey_header (snd (survey_submit py_float form db))
      = survey_header db ++ [header]
      /\ h_survey_shots_json header = JArray (map json_of_shot l)
      /\ surveys (snd (survey_submit py_float form db)) = surveys db ++ [srow]
      /\ (forall old, In old (surveys db) -> survey_id old <> survey_id srow)
      /\ shots (snd (survey_submit py_float form db)) = shots db ++ rows
      /\ map Spec.shot_of_row rows = l
      /\ map sequence_in_page rows = seq 1 (List.length l)
      /\ (forall r, In r rows -> sh_survey_id r = survey_id srow)
      /\ flashed (fst (survey_submit py_float form db))
         = [(SubmittedSuccessfully (cave_name (extract_fields form))
               (List.length rows), success)].
Proof.
  intros py_float form db H.
  destruct (accepted_inv py_float form db H)
    as [st [fs [bs [ifs [ibs (_ & _ & _ & _ & _ & _ & _ & _ & _ & E)]]]]].
  rewrite E. cbn [fst snd flashed].
  destruct (write_rows_tables (extract_fields form) fs bs ifs ibs
              (survey_shots st) db) as (T1 & _).
  destruct (write_rows_links (extract_fields form) fs bs ifs ibs
              (survey_shots st) db)
    as [cave [srow [rows [team (_ & _ & _ & L1 & _ & L2 & L3 & L4 & L5 & L6 & _)]]]].
  exists (survey_shots st). eexists. exists srow, rows.
  split; [exact T1 | ]. split; [reflexivity | ]. split; [exact L1 | ].
  split; [intros old Hold; specialize (L2 old Hold); lia | ].
  split; [exact L3 | ]. split; [exact L4 | ]. split; [exact L5 | ].
  split; [exact L6 | ].
  rewrite <- L4, length_map. reflexivity.
Qed.

(** Three rows, the second with no to_station: two shots, numbered 1, 2. *)
Lemma dual_write_agrees_witness :
  let r := survey_submit Sample.integer_float Sample.three_rows Store.empty in
  location (fst r) = dashboard
  /\ map sequence_in_page (shots (snd r)) = [1; 2]
  /\ map station_from (shots (snd r)) = ["A1"; "A3"]
  /\ exists l header srow rows,
      survey_header (snd r) = survey_header Store.empty ++ [header]
      /\ h_survey_shots_json header = JArray (map json_of_shot l)
      /\ surveys (snd r) = surveys Store.empty ++ [srow]
      /\ (forall old, In old (surveys Store.empty) -> survey_id old <> survey_id srow)
      /\ shots (snd r) = shots Store.empty ++ rows
      /\ map Spec.shot_of_row rows = l
      /\ map sequence_in_page rows = seq 1 (List.length l)
      /\ (forall r, In r rows -> sh_survey_id r = survey_id srow)
      /\ flashed (fst r)
         = [(SubmittedSuccessfully (cave_name (extract_fields Sample.three_rows))
               (List.length rows), success)].
Proof.
  split; [vm_compute; reflexivity | ].
  split; [vm_compute; reflexivity | ].
  split; [vm_compute; reflexivity | ].
  apply dual_write_agrees. vm_compute. reflexivity.
Defined.

(** X4: the keys an accepted submission writes resolve: the new survey row
    points at a cave row of the table that bears the submitted name and
    location text, and every team row it adds points at the new survey and
    at a person row of the table whose full name is the displayed name. *)
Theorem written_keys_resolve :
  forall (py_float : string -> Py.parsed) (form : Py.MultiDict) (db : database),
    location (fst (survey_submit py_float form db)) = dashboard ->
    let db' := snd (survey_submit py_float form db) in
    exists cave srow team,
      surveys db' = surveys db ++ [srow]
      /\ In cave (caves db')
      /\ cave_id cave = s_cave_id srow
      /\ cave_name_col cave = cave_name (extract_fields form)
      /\ location_text cave = cave_location (extract_fields form)
      /\ survey_team db' = survey_team db ++ team
      /\ (forall t, In t team ->
            t_survey_id t = survey_id srow
            /\ exists p, In p (people db')
                         /\ person_id p = t_person_id t
                         /\ full_name p = display_name t).
Proof.
  intros py_float form db H db'. subst db'.
  destruct (accepted_inv py_float form db H)
    as [st [fs [bs [ifs [ibs (_ & _ & _ & _ & _ & _ & _ & _ & _ & E)]]]]].
  rewrite E. cbn [snd].
  destruct (write_rows_links (extract_fields form) fs bs ifs ibs
              (survey_shots st) db)
    as [cave [srow [rows [team (L1 & L2 & L3 & L4 & L5 & _ & _ & _ & _ & _ & L6 & L7)]]]].
  exists cave, srow, team.
  split; [exact L4 | ]. split; [exact L1 | ]. split; [symmetry; exact L5 | ].
  split; [exact L2 | ]. split; [exact L3 | ]. split; [exact L6 | exact L7].
Qed.

(** The scenario sent twice: the second survey points at the cave the
    first one created, its team at the people the first one created. *)
Lemma written_keys_resolve_witness :
  let db1 := snd (survey_submit Sample.integer_float Sample.scenario Store.empty) in
  let db' := snd (survey_submit Sample.integer_float Sample.scenario db1) in
  location (fst (survey_submit Sample.integer_float Sample.scenario db1)) = dashboard
  /\ map s_cave_id (surveys db') = [1; 1]
  /\ map t_person_id (survey_team db') = [1; 2; 3; 4; 1; 2; 3; 4]
  /\ exists cave srow team,
      surveys db' = surveys db1 ++ [srow]
      /\ In cave (caves db')
      /\ cave_id cave = s_cave_id srow
      /\ cave_name_col cave = cave_name (extract_fields Sample.scenario)
      /\ location_text cave = cave_location (extract_fields Sample.scenario)
      /\ survey_team db' = survey_team db1 ++ team
      /\ (forall t, In t team ->
            t_survey_id t = survey_id srow
            /\ exists p, In p (people db')
                         /\ person_id p = t_person_id t
                         /\ full_name p = display_name t).
Proof.
  split; [vm_compute; reflexivity | ].
  split; [vm_compute; reflexivity | ].
  split; [vm_compute; reflexivity | ].
  apply (written_keys_resolve Sample.integer_float Sample.scenario
           (snd (survey_submit Sample.integer_float Sample.scenario Store.empty))).
  vm_compute. reflexivity.
Defined.

(** ** What the shot loop reports *)

Section Reports.

Variable py_float : string -> Py.parsed.

Lemma keep_row_materialized : forall c i,
    keep_row c i = Py.Ok true -> Spec.materialized c i <> [].
Proof.
  intros c i H. destruct (keep_row_true_inv c i H) as [f [t (Nf & Nt & Tf & Tt)]].
  unfold Spec.materialized. rewrite Nf, Nt, Tf, Tt. discriminate.
Qed.

(** The messages one row can add. *)
Definition row_error (c : shot_columns) (i : nat) (m : message) : Prop :=
  Spec.materialized c i <> []
  /\ ((exists shot, parse_row py_float c i = Py.Ok shot
                    /\ In m (shot_violations (i + 1) shot))
      \/ (exists e, parse_row py_float c i = Py.Raise (Py.ValueError e)
                    /\ m = ShotInvalidNumeric (i + 1) e)).

Lemma process_row_errors : forall c st i st' m,
    process_row py_float c st i = Py.Ok st' ->
    In m (validation_errors st')
    <-> In m (validation_errors st) \/ row_error c i m.
Proof.
  intros c st i st' m H.
  destruct (process_row_inv py_float c st i st' H)
    as [[K ->] | [[shot [K [P ->]]] | [e [K [P ->]]]]]; simpl.
  - split; [auto | ]. intros [H0 | [Hm _]]; [exact H0 | ].
    rewrite (keep_row_false_inv c i K) in Hm. contradiction.
  - rewrite in_app_iff. split.
    + intros [H0 | Hv]; [left; exact H0 | right].
      split; [apply keep_row_materialized; exact K | ].
      left. exists shot. split; [exact P | exact Hv].
    + intros [H0 | [_ [[s [Ps Hv]] | [e [Pe _]]]]].
      * left. exact H0.
      * right. congruence.
      * congruence.
  - rewrite in_app_iff. split.
    + intros [H0 | [<- | []]]; [left; exact H0 | right].
      split; [apply keep_row_materialized; exact K | ].
      right. exists e. split; [exact P | reflexivity].
    + intros [H0 | [_ [[s [Ps _]] | [e' [Pe ->]]]]].
      * left. exact H0.
      * congruence.
      * right. left. congruence.
Qed.

Lemma process_rows_errors : forall c indices st st' m,
    process_rows py_float c indices st = Py.Ok st' ->
    In m (validation_errors st')
    <-> In m (validation_errors st) \/ exists i, In i indices /\ row_error c i m.
Proof.
  intros c indices. induction indices as [ | i rest IH]; intros st st' m H.
  - simpl in H. injection H as <-. split; [auto | ].
    intros [H0 | [i [[] _]]]. exact H0.
  - apply process_rows_cons in H. destruct H as [st1 [H1 H2]].
    rewrite (IH st1 st' m H2), (process_row_errors c st i st1 m H1).
    split.
    + intros [[H0 | Hi] | [j [Hj Hr]]].
      * left. exact H0.
      * right. exists i. split; [left; reflexivity | exact Hi].
      * right. exists j. split; [right; exact Hj | exact Hr].
    + intros [H0 | [j [[<- | Hj] Hr]]].
      * left. left. exact H0.
      * left. right. exact Hr.
      * right. exists j. split; assumption.
Qed.

Lemma row_error_in_range : forall c i m,
    row_error c i m -> In i (seq 0 (List.length (from_stations c))).
Proof.
  intros c i m [K _]. apply in_seq.
  pose proof (materialized_in_range c i K). lia.
Qed.

(** A row without both station names changes nothing. *)
Lemma process_row_skipped : forall c st i,
    i < List.length (from_stations c) ->
    Spec.kept c i = false ->
    process_row py_float c st i = Py.Ok st.
Proof.
  intros c st i Hi Hk. unfold process_row.
  destruct (keep_row_ok c i Hi) as [b Hb]. rewrite Hb. simpl.
  destruct b; [ | reflexivity].
  apply keep_row_materialized in Hb. unfold Spec.kept in Hk.
  destruct (Spec.materialized c i); [contradiction | discriminate].
Qed.

Lemma process_rows_kept : forall c indices st,
    (forall i, In i indices -> i < List.length (from_stations c)) ->
    process_rows py_float c indices st
    = process_rows py_float c (filter (Spec.kept c) indices) st.
Proof.
  intros c indices. induction indices as [ | i rest IH]; intros st H; simpl.
  - reflexivity.
  - destruct (Spec.kept c i) eqn:K; simpl.
    + destruct (process_row py_float c st i) as [st1 | e]; simpl; [ | reflexivity].
      apply IH. intros j Hj. apply H. right. exact Hj.
    + rewrite (process_row_skipped c st i (H i (or_introl eq_refl)) K). simpl.
      apply IH. intros j Hj. apply H. right. exact Hj.
Qed.

End Reports.

(** X5: the shot loop ends normally and its errors are exactly these, under
    the row number of the form (counted from 1, skipped rows included): a
    rule message for row i+1 is there exactly when row i has both station
    names, parses, and one of the loop's comparisons for that rule holds of
    it; an invalid-number message is there exactly when such a row raises
    [ValueError] with that text; there is no other message. For a row whose
    angles are numbers the rule message is there exactly when the field is
    out of the range of the validation table; a NaN angle is out of range
    and gets no message. *)
Theorem validation_errors_exact :
  forall (py_float : string -> Py.parsed) (c : shot_columns),
    exists st,
      process_shots py_float c = Py.Ok st
      /\ (forall id r,
            In (ShotViolation id r) (validation_errors st)
            <-> exists i shot,
                  id = i + 1
                  /\ Spec.materialized c i <> []
                  /\ parse_row py_float c i = Py.Ok shot
                  /\ rule_fires r shot)
      /\ (forall id e,
            In (ShotInvalidNumeric id e) (validation_errors st)
            <-> exists i,
                  id = i + 1
                  /\ Spec.materialized c i <> []
                  /\ parse_row py_float c i = Py.Raise (Py.ValueError e))
      /\ (forall m,
            In m (validation_errors st) ->
            (exists id r, m = ShotViolation id r)
            \/ (exists id e, m = ShotInvalidNumeric id e))
      /\ (forall i shot r,
            Spec.materialized c i <> [] ->
            parse_row py_float c i = Py.Ok shot ->
            Spec.angles_are_numbers shot = true ->
            (In (ShotViolation (i + 1) r) (validation_errors st)
             <-> Spec.out_of_range r shot))
      /\ (forall i shot a,
            Spec.materialized c i <> [] ->
            parse_row py_float c i = Py.Ok shot ->
            azimuth_fs shot = Some a -> PrimFloat.is_nan a = true ->
            Spec.out_of_range FrontsightAzimuthRange shot
            /\ ~ In (ShotViolation (i + 1) FrontsightAzimuthRange)
                   (validation_errors st)).
Proof.
  intros py_float c. destruct (process_shots_ok py_float c) as [st Hs].
  exists st. split; [exact Hs | ]. unfold process_shots in Hs.
  pose proof (fun m => process_rows_errors py_float c _ _ _ m Hs) as Hx.
  simpl in Hx.
  assert (A : forall id r,
             In (ShotViolation id r) (validation_errors st)
             <-> exists i shot,
                   id = i + 1
                   /\ Spec.materialized c i <> []
                   /\ parse_row py_float c i = Py.Ok shot
                   /\ rule_fires r shot);
    [ | split; [exact A | split; [ | split; [ | split]]]].
  - intros id r. rewrite Hx. split.
    + intros [[] | [i [_ [K [[shot [P Hv]] | [e [_ Hm]]]]]]]; [ | discriminate].
      rewrite shot_violations_range in Hv.
      destruct (range_violations_are_rules _ _ _ Hv) as [r' Hr'].
      injection Hr' as -> <-.
      exists i, shot. repeat split; try assumption.
      apply (in_range_violations (i + 1)). exact Hv.
    + intros [i [shot (-> & K & P & Hb)]]. right. exists i.
      split; [apply in_seq; pose proof (materialized_in_range c i K); lia | ].
      split; [exact K | ]. left. exists shot. split; [exact P | ].
      rewrite shot_violations_range. apply in_range_violations. exact Hb.
  - intros id e. rewrite Hx. split.
    + intros [[] | [i [_ [K [[shot [P Hv]] | [e' [P Hm]]]]]]].
      * rewrite shot_violations_range in Hv.
        destruct (range_violations_are_rules _ _ _ Hv) as [r' Hr']. discriminate.
      * injection Hm as -> ->. exists i. repeat split; assumption.
    + intros [i (-> & K & P)]. right. exists i.
      split; [apply in_seq; pose proof (materialized_in_range c i K); lia | ].
      split; [exact K | ]. right. exists e. split; [exact P | reflexivity].
  - intros m Hm. apply Hx in Hm.
    destruct Hm as [[] | [i [_ [K [[shot [P Hv]] | [e [P ->]]]]]]].
    + rewrite shot_violations_range in Hv.
      destruct (range_violations_are_rules _ _ _ Hv) as [r' ->].
      left. eauto.
    + right. eauto.
  - intros i shot r K P N. rewrite A. split.
    + intros [i' [shot' (E & _ & P' & B)]].
      assert (i' = i) by lia. subst i'.
      rewrite P in P'. injection P' as <-.
      apply rule_fires_out_of_range; assumption.
    + intros O. exists i, shot. repeat split; try assumption.
      apply rule_fires_out_of_range; assumption.
  - intros i shot a K P Ea Na. split.
    + simpl. exists a. split; [exact Ea | ].
      apply nan_out_of_azimuth_range. exact Na.
    + rewrite A. intros [i' [shot' (E & _ & P' & B)]].
      assert (i' = i) by lia. subst i'.
      rewrite P in P'. injection P' as <-.
      simpl in B. destruct B as [a' [Ea' B]].
      rewrite Ea in Ea'. injection Ea' as <-.
      apply (nan_passes_azimuth_test a Na). exact B.
Qed.

(** X6: whatever the form, the handler flashes at least one message and at
    most six. *)
Theorem between_one_and_six_messages :
  forall (py_float : string -> Py.parsed) (form : Py.MultiDict) (db : database),
    1 <= List.length (flashed (fst (survey_submit py_float form db))) <= 6.
Proof.
  intros py_float form db. unfold survey_submit, survey_submit_try, rejected.
  destruct (first_header_violation py_float (extract_fields form));
    [simpl; lia | ].
  destruct (process_shots py_float (extract_columns form)) as [st | [e | | n]];
    simpl; try lia.
  destruct (validation_errors st) as [ | m errs] eqn:E.
  - destruct (valid_shot_count st =? 0)%nat; [simpl; lia | ].
    destruct (persist py_float _ _ _) as [db' | [e | | n]]; simpl; lia.
  - cbn [fst flashed]. unfold report_errors.
    rewrite length_app, length_map, length_firstn.
    destruct (5 <? List.length (m :: errs))%nat; simpl List.length; lia.
Qed.

(** X7: the shot loop depends on the rows that have both station names
    only: running it over those rows alone gives the same shots, count and
    errors, so whatever else a row without a station name holds (a text
    where a number belongs, say) is neither stored nor reported. *)
Theorem rows_without_stations_are_ignored :
  forall (py_float : string -> Py.parsed) (c : shot_columns),
    process_shots py_float c
    = process_rows py_float c
        (filter (Spec.kept c) (seq 0 (List.length (from_stations c))))
        loop_start.
Proof.
  intros py_float c. unfold process_shots. apply process_rows_kept.
  intros i Hi. apply in_seq in Hi. lia.
Qed.

(** ** The location text of a cave *)

Lemma cave_location_no_state : forall f, state f = "" -> cave_location f = "".
Proof.
  intros f H. unfold cave_location. rewrite H. simpl.
  rewrite andb_false_r. reflexivity.
Qed.

(** X8: without a state the county is left out of the cave key: two
    accepted submissions in a row that name the same cave and give no
    state share one cave row, with an empty location text, whatever
    counties they give. *)
Theorem county_without_state_is_dropped :
  forall (py_float : string -> Py.parsed) (form1 form2 : Py.MultiDict)
         (db : database),
    cave_name (extract_fields form1) = cave_name (extract_fields form2) ->
    state (extract_fields form1) = "" ->
    state (extract_fields form2) = "" ->
    location (fst (survey_submit py_float form1 db)) = dashboard ->
    location (fst (survey_submit py_float form2
                     (snd (survey_submit py_float form1 db)))) = dashboard ->
    let db1 := snd (survey_submit py_float form1 db) in
    let db2 := snd (survey_submit py_float form2 db1) in
    caves db1 = Spec.resolve_key (caves db) (cave_name (extract_fields form1)) ""
    /\ caves db2 = caves db1.
Proof.
  intros py_float form1 form2 db Hn S1 S2 A1 A2 db1 db2. subst db1 db2.
  destruct (accepted_rows py_float form1 db A1)
    as [l1 [a1 [b1 [c1 [d1 (_ & _ & W1 & _)]]]]].
  destruct (accepted_rows py_float form2 _ A2)
    as [l2 [a2 [b2 [c2 [d2 (_ & _ & W2 & _)]]]]].
  rewrite W2.
  destruct (write_rows_tables (extract_fields form2) a2 b2 c2 d2 l2
              (snd (survey_submit py_float form1 db))) as (_ & T2 & _).
  rewrite T2. clear T2 W2. rewrite W1.
  destruct (write_rows_tables (extract_fields form1) a1 b1 c1 d1 l1 db)
    as (_ & T1 & _).
  rewrite T1, <- Hn.
  rewrite (cave_location_no_state _ S1), (cave_location_no_state _ S2).
  rewrite resolve_key_idempotent. split; reflexivity.
Qed.

(** The scenario in Hart county, then in Barren county: one cave row, with
    an empty location text. *)
Lemma county_without_state_is_dropped_witness :
  let db1 := snd (survey_submit Sample.integer_float Sample.in_hart Store.empty) in
  let db2 := snd (survey_submit Sample.integer_float Sample.in_barren db1) in
  county (extract_fields Sample.in_hart) = "Hart"
  /\ county (extract_fields Sample.in_barren) = "Barren"
  /\ map location_text (caves db2) = [""]
  /\ caves db1
     = Spec.resolve_key (caves Store.empty)
         (cave_name (extract_fields Sample.in_hart)) ""
  /\ caves db2 = caves db1.
Proof.
  split; [vm_compute; reflexivity | ].
  split; [vm_compute; reflexivity | ].
  split; [vm_compute; reflexivity | ].
  apply (county_without_state_is_dropped Sample.integer_float Sample.in_hart
           Sample.in_barren Store.empty);
    vm_compute; reflexivity.
Defined.
(** ** The session *)

(** X13: signing in sets the session flag exactly when the trimmed
    passcode is the configured one, and a wrong passcode leaves the flag as
    it was (it does not sign an administrator out). After signing out the
    survey edit handler redirects to the login page and flashes nothing,
    and the delete handler answers with the JSON object of success false
    and error 'Not authenticated'; both leave every table as it was. With
    the flag set the delete handler gets past the gate, fails on the
    unbound [cursor] and deletes nothing. *)
Theorem session_gates_the_survey_handlers :
  forall (ADMIN_PASSCODE : string) (login : Py.MultiDict) (flag : bool)
         (survey_id : nat) (form : Py.MultiDict) (db : database),
    (snd (Admin.admin_login_submit ADMIN_PASSCODE login flag) = true
     <-> stripped login "passcode" = ADMIN_PASSCODE \/ flag = true)
    /\ admin_survey_update (snd (Admin.admin_logout flag)) survey_id form db
       = ({| flashed := []; location := admin_login |}, db)
    /\ Admin.admin_survey_delete (snd (Admin.admin_logout flag)) survey_id db
       = (Admin.NotAuthenticated, db)
    /\ Admin.delete_success Admin.NotAuthenticated = false
    /\ Admin.delete_text Admin.NotAuthenticated = "Not authenticated"
    /\ Admin.admin_survey_delete true survey_id db
       = (Admin.DeleteFailed "name 'cursor' is not defined", db).
Proof.
  intros P login flag survey_id form db.
  split; [ | repeat split; reflexivity].
  unfold Admin.admin_login_submit.
  destruct (String.eqb (stripped login "passcode") P) eqn:E; simpl.
  - apply String.eqb_eq in E. tauto.
  - apply String.eqb_neq in E. tauto.
Qed.

(** ** The text export *)

Lemma string_length_append : forall a b : string,
    String.length (a ++ b) = String.length a + String.length b.
Proof.
  intros a b. induction a as [ | c a IH]; simpl.
  - reflexivity.
  - rewrite IH. reflexivity.
Qed.

Lemma string_append_assoc : forall a b c : string,
    ((a ++ b) ++ c = a ++ (b ++ c))%string.
Proof.
  intros a b c. induction a as [ | x a IH]; simpl.
  - reflexivity.
  - rewrite IH. reflexivity.
Qed.

(** A text that ends in [suffix] still does with more text in front. *)
Lemma ends_push : forall a line suffix : string,
    (exists before, line = (before ++ suffix)%string) ->
    exists before, (a ++ line)%string = (before ++ suffix)%string.
Proof.
  intros a line suffix [before ->]. exists (a ++ before)%string.
  symmetry. apply string_append_assoc.
Qed.

Lemma times_length : forall n c, String.length (TextExport.times n c) = n.
Proof.
  intros n c. unfold TextExport.times. induction n as [ | n IH]; simpl.
  - reflexivity.
  - rewrite IH. reflexivity.
Qed.

(** Padding never cuts: the result is as long as the longer of the text
    and the width. *)
Lemma ljust_length : forall s width,
    String.length (TextExport.ljust s width) = Nat.max (String.length s) width.
Proof.
  intros s width. unfold TextExport.ljust.
  rewrite string_length_append, times_length. lia.
Qed.

Section Lines.

Variable number_text : float -> string.

Lemma export_submitted_shot : forall s,
    Spec.all_numbers_present s = false ->
    TextExport.export_shot_line number_text (json_of_shot s)
    = TextExport.Raise TextExport.TypeError.
Proof.
  intros s H. unfold Spec.all_numbers_present in H.
  destruct s as [fr to d afs abs ifs ibs lf rg u dn nt]. simpl in H.
  destruct d, afs, abs, ifs, ibs; try discriminate; reflexivity.
Qed.

Lemma export_submitted_shot_line : forall s,
    Spec.all_numbers_present s = true ->
    TextExport.export_shot_line number_text (json_of_shot s)
    = TextExport.Ok (Spec.submitted_line number_text s).
Proof.
  intros s H. unfold Spec.all_numbers_present in H.
  destruct s as [fr to d afs abs ifs ibs lf rg u dn nt]. simpl in H.
  destruct d, afs, abs, ifs, ibs; try discriminate.
  reflexivity.
Qed.

Lemma export_submitted_shot_ok : forall s,
    Spec.all_numbers_present s = true ->
    exists line,
      TextExport.export_shot_line number_text (json_of_shot s)
      = TextExport.Ok line.
Proof.
  intros s H. eexists. apply export_submitted_shot_line. exact H.
Qed.

Lemma export_submitted_lines : forall l,
    (exists lines,
        TextExport.export_shot_lines number_text (map json_of_shot l)
        = TextExport.Ok lines)
    <-> forallb Spec.all_numbers_present l = true.
Proof.
  induction l as [ | s l IH];
    cbn [map TextExport.export_shot_lines forallb].
  - split; [reflexivity | intros _; eexists; reflexivity].
  - destruct (Spec.all_numbers_present s) eqn:A; cbn [andb].
    + destruct (export_submitted_shot_ok s A) as [line E]. rewrite E.
      cbn [TextExport.bind]. rewrite <- IH. split.
      * intros [lines H].
        destruct (TextExport.export_shot_lines number_text (map json_of_shot l));
          [eexists; reflexivity | discriminate].
      * intros [lines H]. rewrite H. eexists. reflexivity.
    + rewrite (export_submitted_shot s A). cbn [TextExport.bind].
      split; [intros [lines H]; discriminate | discriminate].
Qed.

Lemma export_submitted_lines_fail : forall l,
    forallb Spec.all_numbers_present l = false ->
    TextExport.export_shot_lines number_text (map json_of_shot l)
    = TextExport.Raise TextExport.TypeError.
Proof.
  induction l as [ | s l IH];
    cbn [map TextExport.export_shot_lines forallb]; intros H.
  - discriminate.
  - destruct (Spec.all_numbers_present s) eqn:A; cbn [andb] in H.
    + destruct (export_submitted_shot_ok s A) as [line E]. rewrite E.
      cbn [TextExport.bind]. rewrite (IH H). reflexivity.
    + rewrite (export_submitted_shot s A). reflexivity.
Qed.

Lemma export_edit_shot : forall e,
    TextExport.export_shot_line number_text (json_of_edit_shot e)
    = TextExport.Ok (Spec.edit_line e).
Proof. intros e. reflexivity. Qed.

Lemma export_edit_lines : forall l,
    TextExport.export_shot_lines number_text (map json_of_edit_shot l)
    = TextExport.Ok (map Spec.edit_line l).
Proof.
  induction l as [ | e l IH]; cbn [map TextExport.export_shot_lines].
  - reflexivity.
  - rewrite export_edit_shot, IH. reflexivity.
Qed.

Lemma edit_line_length : forall e, 111 <= String.length (Spec.edit_line e).
Proof.
  intros e. unfold Spec.edit_line.
  rewrite !string_length_append, !ljust_length. simpl String.length. lia.
Qed.

End Lines.

(** X14: the shot-table block of the export, run on the shot list a
    submission stores, formats it without an exception exactly when every
    shot has its distance, both azimuths and both inclinations: an absent
    number is stored as null, and formatting a null to a width raises
    TypeError (inside the handler's [try], whose [except Exception] clause
    flashes it). The list stored by the scenario, whose shot has no
    backsight, is such a case. *)
Theorem export_needs_every_number :
  forall (number_text : float -> string) (l : list shot),
    ((exists lines,
         TextExport.shots_section number_text (JArray (map json_of_shot l))
         = TextExport.Ok lines)
     <-> forallb Spec.all_numbers_present l = true)
    /\ (forallb Spec.all_numbers_present l = false ->
        TextExport.shots_section number_text (JArray (map json_of_shot l))
        = TextExport.Raise TextExport.TypeError)
    /\ map (fun header =>
              TextExport.shots_section number_text (h_survey_shots_json header))
         (survey_header
            (snd (survey_submit Sample.integer_float Sample.scenario Store.empty)))
       = [TextExport.Raise TextExport.TypeError].
Proof.
  intros number_text l. split; [ | split].
  - destruct l as [ | s l]; [simpl; split; [reflexivity | eexists; reflexivity] | ].
    unfold TextExport.shots_section.
    cbn [map TextExport.falsy]. rewrite <- (export_submitted_lines number_text (s :: l)).
    cbn [map]. split.
    + intros [lines H].
      destruct (TextExport.export_shot_lines number_text
                  (json_of_shot s :: map json_of_shot l));
        [eexists; reflexivity | discriminate].
    + intros [lines H]. rewrite H. eexists. reflexivity.
  - intros H. destruct l as [ | s l]; [discriminate | ].
    unfold TextExport.shots_section. cbn [map TextExport.falsy].
    pose proof (export_submitted_lines_fail number_text (s :: l) H) as F.
    cbn [map] in F. rewrite F. reflexivity.
  - vm_compute. reflexivity.
Qed.

(** A shot with its station names only. *)
Lemma export_needs_every_number_witness :
  forallb Spec.all_numbers_present [Sample.bare_shot] = false
  /\ TextExport.shots_section (fun _ => "0.0")
       (JArray (map json_of_shot [Sample.bare_shot]))
     = TextExport.Raise TextExport.TypeError.
Proof.
  split; [reflexivity | ].
  apply (proj1 (proj2 (export_needs_every_number (fun _ => "0.0")
                         [Sample.bare_shot]))).
  reflexivity.
Defined.

(** X15: the note of a shot stored by the submission form never reaches
    the export: the form stores it under 'note', the export reads 'notes',
    so two shots that differ in their note only give the same line (or the
    same failure), and a line that is produced ends in the 20 blanks of an
    empty notes column. *)
Theorem submitted_note_is_not_exported :
  forall (number_text : float -> string) (s : shot) (other_note : string),
    let s' := {| from_station := from_station s; to_station := to_station s;
                 distance := distance s;
                 azimuth_fs := azimuth_fs s; azimuth_bs := azimuth_bs s;
                 inclination_fs := inclination_fs s;
                 inclination_bs := inclination_bs s;
                 left := left s; right := right s; up := up s; down := down s;
                 note := other_note |} in
    TextExport.export_shot_line number_text (json_of_shot s')
    = TextExport.export_shot_line number_text (json_of_shot s)
    /\ forall line,
         TextExport.export_shot_line number_text (json_of_shot s)
         = TextExport.Ok line ->
         exists before, line = (before ++ TextExport.times 20 " ")%string.
Proof.
  intros number_text s other_note s'. subst s'.
  split; [destruct s; reflexivity | ].
  intros line H.
  destruct (Spec.all_numbers_present s) eqn:A.
  - rewrite (export_submitted_shot_line number_text s A) in H.
    injection H as <-. unfold Spec.submitted_line.
    do 22 apply ends_push. exists "". reflexivity.
  - rewrite (export_submitted_shot number_text s A) in H. discriminate.
Qed.

(** X16: the shot-table block never fails on shots whose fields are all
    strings, which is how the edit handler builds them: the table has one
    line per shot, each field of the shot (the notes too) left-justified to
    its column width and never cut, so every line has at least 111
    characters; an empty list gives the line "No survey shots recorded". *)
Theorem string_shots_always_format :
  forall (number_text : float -> string) (e : edit_shot) (l : list edit_shot),
    TextExport.shots_section number_text (JArray (map json_of_edit_shot (e :: l)))
    = TextExport.Ok
        ("SURVEY SHOTS" :: TextExport.times 80 "-" :: TextExport.column_titles
         :: TextExport.times 80 "-" :: map Spec.edit_line (e :: l))
    /\ (forall e', 111 <= String.length (Spec.edit_line e'))
    /\ TextExport.shots_section number_text (JArray (map json_of_edit_shot []))
       = TextExport.Ok
           ["SURVEY SHOTS"; TextExport.times 80 "-"; "No survey shots recorded"].
Proof.
  intros number_text e l. split; [ | split].
  - unfold TextExport.shots_section. cbn [map TextExport.falsy].
    pose proof (export_edit_lines number_text (e :: l)) as H.
    cbn [map] in H. rewrite H. reflexivity.
  - apply edit_line_length.
  - reflexivity.
Qed.

(** ** Registration *)

Lemma truthy_false : forall s, Py.truthy s = false <-> s = "".
Proof.
  intros [ | c s]; simpl; split; congruence.
Qed.

Lemma in_missing : forall field label x,
    In x (Registration.missing field label) <-> field = "" /\ x = label.
Proof.
  intros field label x. unfold Registration.missing.
  destruct (Py.truthy field) eqn:T; simpl.
  - split; [intros [] | ]. intros [E _]. apply truthy_false in E. congruence.
  - apply truthy_false in T. split.
    + intros [<- | []]. split; [exact T | reflexivity].
    + intros [_ ->]. left. reflexivity.
Qed.

Lemma contains_in : forall l x, Registration.contains l x = true <-> In x l.
Proof.
  intros l x. unfold Registration.contains. rewrite existsb_exists. split.
  - intros [y [Hy E]]. apply String.eqb_eq in E. subst y. exact Hy.
  - intros H. exists x. split; [exact H | apply String.eqb_refl].
Qed.

(** X17: a registration passes the checks, and goes on to the database,
    exactly when the six required fields are not empty, at least one
    participation day and one skill are selected, the compass-course
    agreement is given if Roppel trips are 'yes', and the accommodation,
    instrument and gear details are given if 'other' accommodation, own
    instruments or 'other' gear are selected. *)
Theorem registration_accepted_exactly :
  forall r : Registration.registration,
    Registration.register_checks r = None
    <-> (Registration.full_name r <> ""
         /\ Registration.email r <> ""
         /\ Registration.phone_number r <> ""
         /\ Registration.address r <> ""
         /\ Registration.emergency_contact r <> ""
         /\ Registration.accommodation r <> "")
        /\ Registration.participation_days r <> []
        /\ Registration.skills r <> []
        /\ (Registration.roppel_trips r = "yes" ->
            Registration.crf_compass_agreement r = true)
        /\ (Registration.accommodation r = "other" ->
            Registration.other_accommodation r <> "")
        /\ (Registration.have_instruments r = true ->
            Registration.instruments_details r <> "")
        /\ (In "other" (Registration.group_gear r) ->
            Registration.group_gear_other_details r <> "").
Proof.
  intros r. unfold Registration.register_checks. cbn [forallb].
  rewrite <- !truthy_false, <- contains_in.
  destruct (Py.truthy (Registration.full_name r));
    [ | cbn; split; [discriminate | intros [[H _] _]; congruence]].
  destruct (Py.truthy (Registration.email r));
    [ | cbn; split; [discriminate | intros [[_ [H _]] _]; congruence]].
  destruct (Py.truthy (Registration.phone_number r));
    [ | cbn; split; [discriminate | intros [[_ [_ [H _]]] _]; congruence]].
  destruct (Py.truthy (Registration.address r));
    [ | cbn; split; [discriminate | intros [[_ [_ [_ [H _]]]] _]; congruence]].
  destruct (Py.truthy (Registration.emergency_contact r));
    [ | cbn; split; [discriminate | intros [[_ [_ [_ [_ [H _]]]]] _]; congruence]].
  destruct (Py.truthy (Registration.accommodation r));
    [ | cbn; split; [discriminate | intros [[_ [_ [_ [_ [_ H]]]]] _]; congruence]].
  cbn [andb negb].
  destruct (Registration.participation_days r) as [ | day days];
    [split; [discriminate | intros (_ & H & _); congruence] | ].
  destruct (Registration.skills r) as [ | skill skills];
    [split; [discriminate | intros (_ & _ & H & _); congruence] | ].
  destruct (String.eqb (Registration.roppel_trips r) "yes") eqn:E1;
    [apply String.eqb_eq in E1 | apply String.eqb_neq in E1];
    destruct (Registration.crf_compass_agreement r); cbn [andb negb];
    try (split; [discriminate | intros (_ & _ & _ & H & _); specialize (H E1); discriminate]);
    (destruct (String.eqb (Registration.accommodation r) "other") eqn:E2;
     [apply String.eqb_eq in E2 | apply String.eqb_neq in E2];
     destruct (Py.truthy (Registration.other_accommodation r)); cbn [andb negb];
     try (split; [discriminate | intros (_ & _ & _ & _ & H & _); specialize (H E2); congruence]);
     (destruct (Registration.have_instruments r);
      destruct (Py.truthy (Registration.instruments_details r)); cbn [andb negb];
      try (split; [discriminate | intros (_ & _ & _ & _ & _ & H & _); specialize (H eq_refl); congruence]);
      (destruct (Registration.contains (Registration.group_gear r) "other");
       destruct (Py.truthy (Registration.group_gear_other_details r));
       cbn [andb negb];
       try (split; [discriminate | intros (_ & _ & _ & _ & _ & _ & H); specialize (H eq_refl); congruence]);
       (split; [intros _ | reflexivity];
        repeat split; try discriminate; try congruence)))).
Qed.

Lemma missing_fields_filter : forall r,
    exists keep,
      Registration.missing_fields r
      = filter keep
          [ "Full Name"; "Email Address"; "Phone Number";
            "Physical Address"; "Emergency Contact"; "Accommodation" ].
Proof.
  intros r.
  exists (fun label =>
            if String.eqb label "Full Name"
            then negb (Py.truthy (Registration.full_name r))
            else if String.eqb label "Email Address"
            then negb (Py.truthy (Registration.email r))
            else if String.eqb label "Phone Number"
            then negb (Py.truthy (Registration.phone_number r))
            else if String.eqb label "Physical Address"
            then negb (Py.truthy (Registration.address r))
            else if String.eqb label "Emergency Contact"
            then negb (Py.truthy (Registration.emergency_contact r))
            else negb (Py.truthy (Registration.accommodation r))).
  unfold Registration.missing_fields, Registration.missing. cbn.
  destruct (Py.truthy (Registration.full_name r)),
    (Py.truthy (Registration.email r)),
    (Py.truthy (Registration.phone_number r)),
    (Py.truthy (Registration.address r)),
    (Py.truthy (Registration.emergency_contact r)),
    (Py.truthy (Registration.accommodation r)); reflexivity.
Qed.

(** X18: when a required field is empty the message lists exactly the
    empty ones, in the order of the form, and nothing else is checked; the
    five text fields are empty when their value is blank after trimming,
    the accommodation only when its value is empty as sent. *)
Theorem registration_lists_the_missing_fields :
  forall form : Py.MultiDict,
    let r := Registration.extract_registration form in
    let labels := Registration.missing_fields r in
    (labels <> [] ->
     Registration.register_checks r = Some (Registration.RequiredFields labels))
    /\ (labels = [] ->
        forall l, Registration.register_checks r
                  <> Some (Registration.RequiredFields l))
    /\ (exists keep,
          labels = filter keep
                     [ "Full Name"; "Email Address"; "Phone Number";
                       "Physical Address"; "Emergency Contact"; "Accommodation" ])
    /\ (In "Full Name" labels <-> stripped form "full_name" = "")
    /\ (In "Email Address" labels <-> stripped form "email" = "")
    /\ (In "Phone Number" labels <-> stripped form "phone_number" = "")
    /\ (In "Physical Address" labels <-> stripped form "address" = "")
    /\ (In "Emergency Contact" labels <-> stripped form "emergency_contact" = "")
    /\ (In "Accommodation" labels <-> Py.get_or_empty form "accommodation" = "").
Proof.
  intros form r labels. subst labels.
  assert (I : forall x, In x (Registration.missing_fields r)
               <-> (Registration.full_name r = "" /\ x = "Full Name")
                   \/ (Registration.email r = "" /\ x = "Email Address")
                   \/ (Registration.phone_number r = "" /\ x = "Phone Number")
                   \/ (Registration.address r = "" /\ x = "Physical Address")
                   \/ (Registration.emergency_contact r = ""
                       /\ x = "Emergency Contact")
                   \/ (Registration.accommodation r = "" /\ x = "Accommodation")).
  { intros x. unfold Registration.missing_fields.
    rewrite !in_app_iff, !in_missing. tauto. }
  assert (A : forallb Py.truthy
                [ Registration.full_name r; Registration.email r;
                  Registration.phone_number r; Registration.address r;
                  Registration.emergency_contact r; Registration.accommodation r ]
              = match Registration.missing_fields r with
                | [] => true
                | _ :: _ => false
                end).
  { unfold Registration.missing_fields, Registration.missing. cbn [forallb].
    destruct (Py.truthy (Registration.full_name r)),
      (Py.truthy (Registration.email r)),
      (Py.truthy (Registration.phone_number r)),
      (Py.truthy (Registration.address r)),
      (Py.truthy (Registration.emergency_contact r)),
      (Py.truthy (Registration.accommodation r)); reflexivity. }
  split; [ | split; [ | split]].
  - intros H. unfold Registration.register_checks. rewrite A.
    destruct (Registration.missing_fields r); [contradiction | reflexivity].
  - intros H l. unfold Registration.register_checks. rewrite A, H. cbn [negb].
    repeat match goal with
           | |- (if ?b then _ else _) <> _ => destruct b
           end; discriminate.
  - apply missing_fields_filter.
  - repeat split; intros H;
      try (apply I in H;
           repeat match type of H with
                  | _ \/ _ => destruct H as [[H ?] | H]
                  | _ /\ _ => destruct H as [H ?]
                  end; try discriminate; exact H);
      apply I; tauto.
Qed.

(** ** The participants of a trip *)









(** ** Concrete runs *)

(** A shot with every number and the note "tight squeeze": its line is
    produced and ends in 20 blanks. *)
Lemma submitted_note_is_not_exported_witness :
  exists before,
    Spec.submitted_line (fun _ => "1.0") Sample.full_shot
    = (before ++ TextExport.times 20 " ")%string.
Proof.
  apply (proj2 (submitted_note_is_not_exported (fun _ => "1.0")
                  Sample.full_shot "")).
  reflexivity.
Defined.

(** A blank name is missing, a blank accommodation is not. *)
Lemma registration_lists_the_missing_fields_witness :
  Registration.register_checks
    (Registration.extract_registration Sample.blank_registration)
  = Some (Registration.RequiredFields
            (Registration.missing_fields
               (Registration.extract_registration Sample.blank_registration)))
  /\ Registration.missing_fields
       (Registration.extract_registration Sample.blank_registration)
     = ["Full Name"; "Phone Number"; "Physical Address"; "Emergency Contact"].
Proof.
  split; [ | vm_compute; reflexivity].
  apply (proj1 (registration_lists_the_missing_fields Sample.blank_registration)).
  vm_compute. discriminate.
Defined.
